(** * openwhisprz: the reasoning dispatch core and the prompt studio

    A shallow embedding of
      - [ReasoningService] (provider credentials, endpoint resolution,
        the OpenAI and Gemini call paths and their response normalisers,
        the in-flight guard),
      - [getModelProvider] of the model registry,
      - [LocalReasoningService] (the local bridge), and
      - [testPrompt] of the PromptStudio component,
    together with the properties stated about them.

    Conventions.  JavaScript strings are [string]s of 8-bit code units;
    [trim] knows the ASCII white space, [toLowerCase] the ASCII letters.
    JavaScript numbers that the code only counts with (lengths, HTTP
    status codes, token budgets, the numbers inside JSON) are [Z];
    temperatures and the like are [Q].  [undefined] is [None] of an
    [option].  Logging is left out, except where evaluating the arguments
    of a log call can throw. *)

From Stdlib Require Import ZArith QArith Lia List Ascii String DecimalString.
From stdpp Require Import base option gmap strings.
Import ListNotations.

Local Open Scope string_scope.
Local Open Scope Z_scope.

(** ** JavaScript string primitives *)

Module JsString.

Definition is_space (c : ascii) : bool :=
  let n := nat_of_ascii c in
  ((9 <=? n)%nat && (n <=? 13)%nat) || (n =? 32)%nat.

Fixpoint trimStart (s : string) : string :=
  match s with
  | String c s' => if is_space c then trimStart s' else s
  | EmptyString => EmptyString
  end.

(** [trimEnd] keeps a character when it is not a space or when something
    is left after it. *)
Fixpoint trimEnd (s : string) : string :=
  match s with
  | String c s' =>
      match trimEnd s' with
      | EmptyString => if is_space c then EmptyString else String c EmptyString
      | r => String c r
      end
  | EmptyString => EmptyString
  end.

Definition trim (s : string) : string := trimEnd (trimStart s).

Definition lower_char (c : ascii) : ascii :=
  let n := nat_of_ascii c in
  if ((65 <=? n)%nat && (n <=? 90)%nat)%bool then ascii_of_nat (n + 32) else c.

Fixpoint toLowerCase (s : string) : string :=
  match s with
  | String c s' => String (lower_char c) (toLowerCase s')
  | EmptyString => EmptyString
  end.

Definition startsWith (s p : string) : bool := String.prefix p s.

Fixpoint includes (s sub : string) : bool :=
  if String.prefix sub s then true
  else match s with
       | String _ s' => includes s' sub
       | EmptyString => false
       end.

Definition endsWith (s suf : string) : bool :=
  let n := String.length s in
  let m := String.length suf in
  (m <=? n)%nat && String.eqb (String.substring (n - m) m s) suf.

(** [s.charAt(0).toUpperCase() + s.slice(1)] *)
Definition upper_char (c : ascii) : ascii :=
  let n := nat_of_ascii c in
  if ((97 <=? n)%nat && (n <=? 122)%nat)%bool then ascii_of_nat (n - 32) else c.

Definition capitalize (s : string) : string :=
  match s with
  | String c s' => String (upper_char c) s'
  | EmptyString => EmptyString
  end.

(** A string is truthy when it is not empty. *)
Definition nonempty (s : string) : bool :=
  match s with EmptyString => false | _ => true end.

(** [String(n)] for an integer. *)
Definition of_Z (n : Z) : string := NilZero.string_of_int (Z.to_int n).

End JsString.

Import JsString.

(** ** Token budget *)

(** [calculateMaxTokens(textLength, minTokens, maxTokens, multiplier)] of
    [LocalReasoningService]:
    [Math.max(minTokens, Math.min(textLength * multiplier, maxTokens))]. *)
Definition calculateMaxTokens (textLength minTokens maxTokens multiplier : Z) : Z :=
  Z.max minTokens (Z.min (textLength * multiplier) maxTokens).

(** The call with the default arguments, [calculateMaxTokens(text.length)]. *)
Definition calculateMaxTokens_default (textLength : Z) : Z :=
  calculateMaxTokens textLength 100 2048 2.

(** The clamp of the specification: [x] brought into the interval
    [[lo, hi]]. *)
Definition clamp (x lo hi : Z) : Z :=
  if x <? lo then lo else if hi <? x then hi else x.

(** ** JSON values and JavaScript's reading of them

    A JSON object is the list of its properties in order; its numbers
    are integers. *)

#[local] Set Warnings "-register-all".

Inductive JSON : Type :=
| JNull
| JBool (b : bool)
| JNum (n : Z)
| JStr (s : string)
| JArr (items : list JSON)
| JObj (fields : list (string * JSON)).

Module Js.

(** A JavaScript value read from JSON; [None] is [undefined]. *)
Definition value := option JSON.

Definition truthy (v : value) : bool :=
  match v with
  | None | Some JNull => false
  | Some (JBool b) => b
  | Some (JNum n) => negb (n =? 0)
  | Some (JStr s) => nonempty s
  | Some (JArr _) | Some (JObj _) => true
  end.

Fixpoint assoc (k : string) (fields : list (string * JSON)) : value :=
  match fields with
  | [] => None
  | (k', v) :: rest => if String.eqb k k' then Some v else assoc k rest
  end.

(** [o?.k] for one of the fixed property names the service reads (none of
    them is a built-in property of strings, numbers or arrays). *)
Definition opt_prop (k : string) (v : value) : value :=
  match v with
  | Some (JObj fields) => assoc k fields
  | _ => None
  end.

(** [o.k]: as [o?.k], but reading a property of [null] or [undefined]
    throws a [TypeError] ([None] here). *)
Definition prop (k : string) (v : value) : option value :=
  match v with
  | None | Some JNull => None
  | _ => Some (opt_prop k v)
  end.

(** [o?.[0]] *)
Definition opt_first (v : value) : value :=
  match v with
  | Some (JArr items) => head items
  | Some (JStr (String c _)) => Some (JStr (String c EmptyString))
  | Some (JObj fields) => assoc "0" fields
  | _ => None
  end.

(** [a ?? b] *)
Definition nullish (a b : value) : value :=
  match a with
  | None | Some JNull => b
  | _ => a
  end.

(** [a || b] *)
Definition or (a b : value) : value := if truthy a then a else b.

(** [v === "s"] *)
Definition eq_str (v : value) (s : string) : bool :=
  match v with
  | Some (JStr x) => String.eqb x s
  | _ => false
  end.

(** [String(v)], the message of [new Error(v)]. *)
Fixpoint toString (v : JSON) : string :=
  match v with
  | JNull => "null"
  | JBool true => "true"
  | JBool false => "false"
  | JNum n => of_Z n
  | JStr s => s
  | JArr items =>
      (fix join (l : list JSON) : string :=
         match l with
         | [] => ""
         | x :: rest =>
             let sx := match x with JNull => "" | _ => toString x end in
             match rest with
             | [] => sx
             | _ => sx +:+ "," +:+ join rest
             end
         end) items
  | JObj _ => "[object Object]"
  end.

End Js.

(** ** Exceptions and results *)

(** What a [throw] carries: an [Error] with its message, or the
    [TypeError] / [SyntaxError] the engine raises. *)
Inductive Exn : Type :=
| Error (message : string)
| TypeError
| SyntaxError.

Inductive Result (A : Type) : Type :=
| Ok (a : A)
| Throw (e : Exn).
Arguments Ok {A} a.
Arguments Throw {A} e.

(** [new Error(v)] for a value read from JSON. *)
Definition throwValue {A} (v : Js.value) : Result A :=
  Throw (Error (match v with Some j => Js.toString j | None => "" end)).

(** Case analysis on an innermost scrutinee of the goal, or of a
    hypothesis. *)
Ltac break_inner_goal :=
  match goal with
  | |- context [match ?x with _ => _ end] =>
      lazymatch x with
      | context [match _ with _ => _ end] => fail
      | _ => destruct x eqn:?
      end
  end.

Ltac break_inner_in H :=
  match type of H with
  | context [match ?x with _ => _ end] =>
      lazymatch x with
      | context [match _ with _ => _ end] => fail
      | _ => destruct x eqn:?
      end
  end.

(** ** The service's data *)

(** The two request dialects of an OpenAI-compatible endpoint,
    ["responses"] and ["chat"]. *)
Inductive Dialect : Type := Responses | Chat.

Definition dialect_name (d : Dialect) : string :=
  match d with Responses => "responses" | Chat => "chat" end.

(** An endpoint candidate [{ url, type }]. *)
Record Candidate : Type := { url : string; type : Dialect }.

(** The argument of [getApiKey]. *)
Inductive Provider : Type := OpenAI | Anthropic | Gemini | Groq | Custom.

Definition provider_name (p : Provider) : string :=
  match p with
  | OpenAI => "openai"
  | Anthropic => "anthropic"
  | Gemini => "gemini"
  | Groq => "groq"
  | Custom => "custom"
  end.

(** [ReasoningConfig], the fields the cloud paths read. *)
Record ReasoningConfig : Type := {
  temperature : option Q;
  maxTokens : option Z
}.

Record Message : Type := { role : string; content : string }.

(** The JSON body of an outgoing request. *)
Inductive RequestBody : Type :=
| ResponsesBody (model : string) (input : list Message)
    (* { model, input, store: false } *)
| ChatBody (model : string) (messages : list Message) (temp : option Q)
    (* { model, messages [, temperature] } *)
| GeminiBody (prompt : string) (temp : Q) (maxOutputTokens : Z).
    (* { contents: [{ parts: [{ text }] }], generationConfig } *)

(** A [fetch] call: the URL, the credential header and the body. *)
Record Request : Type := {
  endpoint : string;
  credential : string;
  body : RequestBody
}.

(** The response of [fetch]: [res.status], [res.statusText] and the body
    text ([res.text()]; [res.json()] parses it). *)
Record HttpResponse : Type := {
  status : Z;
  statusText : string;
  bodyText : string
}.

Definition ok (res : HttpResponse) : bool :=
  (200 <=? status res) && (status res <=? 299).

(** [window.electronAPI], the key getters.  A getter resolves to a key,
    to [null] / [undefined] ([None]), or rejects.
    [getCustomReasoningKey] may be absent. *)
Record ElectronAPI : Type := {
  getOpenAIKey : Result (option string);
  getAnthropicKey : Result (option string);
  getGeminiKey : Result (option string);
  getGroqKey : Result (option string);
  getCustomReasoningKey : option (Result (option string))
}.

(** The retry strategy of [createApiRetryStrategy()]. *)
Record RetryStrategy : Type := {
  maxRetries : nat;
  shouldRetry : Exn -> bool
}.

(** What the service imports and calls but does not define: constants,
    URL helpers, the prompt, [JSON], the retry strategy, the network and
    the IPC bridge.  [fetch n req] is the outcome of the [n]-th [fetch]
    call of a run when it sends [req]; a rejected [fetch] is a [Throw]. *)
Record Env : Type := {
  OPENAI_BASE : string;
  GEMINI : string;
  MIN_TOKENS_GEMINI : Z;
  MAX_TOKENS_GEMINI : Z;
  TOKEN_MULTIPLIER : Z;
  buildApiUrl : string -> string -> string;
  normalizeBaseUrl : string -> Result string;
  isSecureEndpoint : string -> Result bool;
  getSystemPrompt : option string -> option (gmap string string) -> string;
  JSON_parse : string -> option JSON;
  JSON_stringify : JSON -> string;
  createApiRetryStrategy : RetryStrategy;
  fetch : nat -> Request -> Result HttpResponse;
  electronAPI : option ElectronAPI;
  getAllReasoningModels : list (string * string)
}.

(** The mutable state a call works on: the fields of the
    [ReasoningService] instance, [window.localStorage] ([None] when the
    window has none) and the requests sent so far.  [apiKeyCache] is the
    [SecureCache] as a call finds it, the entries that are live at that
    moment; its entries expire between calls, see [expire]. *)
Record Service : Type := {
  isProcessing : bool;
  apiKeyCache : gmap string string;
  openAiEndpointPreference : gmap string Dialect;
  localStorage : option (gmap string string);
  sent : list Request
}.

Definition set_isProcessing (b : bool) (st : Service) : Service :=
  {| isProcessing := b;
     apiKeyCache := apiKeyCache st;
     openAiEndpointPreference := openAiEndpointPreference st;
     localStorage := localStorage st;
     sent := sent st |}.

Definition set_apiKeyCache (c : gmap string string) (st : Service) : Service :=
  {| isProcessing := isProcessing st;
     apiKeyCache := c;
     openAiEndpointPreference := openAiEndpointPreference st;
     localStorage := localStorage st;
     sent := sent st |}.

Definition set_openAiEndpointPreference (m : gmap string Dialect) (st : Service) : Service :=
  {| isProcessing := isProcessing st;
     apiKeyCache := apiKeyCache st;
     openAiEndpointPreference := m;
     localStorage := localStorage st;
     sent := sent st |}.

Definition set_localStorage (ls : option (gmap string string)) (st : Service) : Service :=
  {| isProcessing := isProcessing st;
     apiKeyCache := apiKeyCache st;
     openAiEndpointPreference := openAiEndpointPreference st;
     localStorage := ls;
     sent := sent st |}.

Definition set_sent (l : list Request) (st : Service) : Service :=
  {| isProcessing := isProcessing st;
     apiKeyCache := apiKeyCache st;
     openAiEndpointPreference := openAiEndpointPreference st;
     localStorage := localStorage st;
     sent := l |}.

(** [window.localStorage?.getItem(k) || ""] *)
Definition getItem_or_empty (k : string) (st : Service) : string :=
  match localStorage st with
  | Some ls => default "" (ls !! k)
  | None => ""
  end.

(** A computation of the service: it reads and writes the state and
    returns or throws. *)
Definition M (A : Type) : Type := Service -> Result A * Service.

Definition throw {A} (e : Exn) : M A := fun st => (Throw e, st).

(** [try { m } finally { f }] for a [finally] block that cannot throw. *)
Definition try_finally {A} (m : M A) (f : Service -> Service) : M A :=
  fun st => let '(r, st') := m st in (r, f st').

(** ** Endpoint resolution *)

Section Endpoints.

Variable E : Env.

Definition knownNonOpenAIUrls : list string :=
  ["api.groq.com"; "api.anthropic.com"; "generativelanguage.googleapis.com"].

(** [getConfiguredOpenAIBase()].  The [try] block maps whatever is thrown
    to the default base. *)
Definition getConfiguredOpenAIBase (st : Service) : string :=
  match localStorage st with
  | None => OPENAI_BASE E
  | Some ls =>
      let provider := default "" (ls !! "reasoningProvider") in
      if negb (String.eqb provider "custom") then OPENAI_BASE E
      else
        let stored := default "" (ls !! "cloudReasoningBaseUrl") in
        let trimmed := trim stored in
        if negb (nonempty trimmed) then OPENAI_BASE E
        else
          match normalizeBaseUrl E trimmed with
          | Throw _ => OPENAI_BASE E
          | Ok n =>
              let normalized := if nonempty n then n else OPENAI_BASE E in
              if existsb (fun u => includes normalized u) knownNonOpenAIUrls
              then OPENAI_BASE E
              else
                match isSecureEndpoint E normalized with
                | Throw _ => OPENAI_BASE E
                | Ok false => OPENAI_BASE E
                | Ok true => normalized
                end
          end
  end.

Definition OPENAI_ENDPOINT_PREF_STORAGE_KEY : string := "openAiEndpointPreference".

(** The index a property name denotes on an array: a decimal numeral
    without a leading zero. *)
Definition digit_of (c : ascii) : option N :=
  let n := N_of_ascii c in
  if ((48 <=? n)%N && (n <=? 57)%N)%bool then Some (n - 48)%N else None.

Fixpoint digits_value (acc : N) (s : string) : option N :=
  match s with
  | EmptyString => Some acc
  | String c s' =>
      match digit_of c with
      | Some d => digits_value (acc * 10 + d)%N s'
      | None => None
      end
  end.

Definition array_index (k : string) : option nat :=
  match k with
  | EmptyString => None
  | String "0" EmptyString => Some 0%nat
  | String "0" _ => None
  | _ =>
      match digits_value 0%N k with
      | Some n => if (n <? 4294967295)%N then Some (N.to_nat n) else None
      | None => None
      end
  end.

(** [parsed[base]], as far as it can be one of the two dialect names:
    an own property of an object, an element of an array. *)
Definition computed_prop (k : string) (v : JSON) : Js.value :=
  match v with
  | JObj fields => Js.assoc k fields
  | JArr items =>
      match array_index k with
      | Some i => nth_error items i
      | None => None
      end
  | _ => None
  end.

Definition dialect_of_value (v : Js.value) : option Dialect :=
  match v with
  | Some (JStr s) =>
      if String.eqb s "responses" then Some Responses
      else if String.eqb s "chat" then Some Chat
      else None
  | _ => None
  end.

(** [typeof parsed === "object" && parsed !== null] *)
Definition is_object (v : JSON) : bool :=
  match v with JObj _ | JArr _ => true | _ => false end.

(** [getStoredOpenAiPreference(base)]: the in-memory map first, then the
    persisted one, whose hit is copied into the in-memory map. *)
Definition getStoredOpenAiPreference (base : string) (st : Service)
  : option Dialect * Service :=
  match openAiEndpointPreference st !! base with
  | Some d => (Some d, st)
  | None =>
      match localStorage st with
      | None => (None, st)
      | Some ls =>
          match ls !! OPENAI_ENDPOINT_PREF_STORAGE_KEY with
          | None => (None, st)
          | Some raw =>
              if negb (nonempty raw) then (None, st)
              else
                match JSON_parse E raw with
                | None => (None, st)
                | Some parsed =>
                    if negb (is_object parsed) then (None, st)
                    else
                      match dialect_of_value (computed_prop base parsed) with
                      | Some d =>
                          (Some d,
                           set_openAiEndpointPreference
                             (<[base := d]> (openAiEndpointPreference st)) st)
                      | None => (None, st)
                      end
                end
          end
      end
  end.

(** [data[base] = preference] on an object: the property is replaced
    where it stands or added at the end. *)
Fixpoint put (k : string) (v : JSON) (fields : list (string * JSON))
  : list (string * JSON) :=
  match fields with
  | [] => [(k, v)]
  | (k', v') :: rest =>
      if String.eqb k k' then (k, v) :: rest else (k', v') :: put k v rest
  end.

(** [items[i] = v] on an array, which grows with holes when [i] is past
    its end. *)
Fixpoint put_index (i : nat) (v : JSON) (items : list JSON) : list JSON :=
  match i, items with
  | O, [] => [v]
  | O, _ :: rest => v :: rest
  | S i', [] => JNull :: put_index i' v []
  | S i', x :: rest => x :: put_index i' v rest
  end.

(** [data[base] = preference] as [JSON.stringify] will see it; [None]
    when the assignment throws (a string assigned to an array's
    [length]).  A property of an array that is not an index is not
    serialised. *)
Definition assign (k : string) (v : JSON) (data : JSON) : option JSON :=
  match data with
  | JObj fields => Some (JObj (put k v fields))
  | JArr items =>
      match array_index k with
      | Some i => Some (JArr (put_index i v items))
      | None => if String.eqb k "length" then None else Some (JArr items)
      end
  | _ => Some data
  end.

(** [rememberOpenAiPreference(base, preference)]: the in-memory map is
    written first; a failure to persist is swallowed. *)
Definition rememberOpenAiPreference (base : string) (preference : Dialect)
    (st : Service) : Service :=
  let st1 :=
    set_openAiEndpointPreference
      (<[base := preference]> (openAiEndpointPreference st)) st in
  match localStorage st1 with
  | None => st1
  | Some ls =>
      let raw := ls !! OPENAI_ENDPOINT_PREF_STORAGE_KEY in
      let parsed :=
        match raw with
        | Some r => if nonempty r then JSON_parse E r else Some (JObj [])
        | None => Some (JObj [])
        end in
      match parsed with
      | None => st1
      | Some p =>
          let data := if is_object p then p else JObj [] in
          match assign base (JStr (dialect_name preference)) data with
          | None => st1
          | Some data' =>
              set_localStorage
                (Some (<[OPENAI_ENDPOINT_PREF_STORAGE_KEY := JSON_stringify E data']> ls))
                st1
          end
      end
  end.

(** [getOpenAIEndpointCandidates(base)] *)
Definition getOpenAIEndpointCandidates (base : string) (st : Service)
  : list Candidate * Service :=
  let lower := toLowerCase base in
  if endsWith lower "/responses" || endsWith lower "/chat/completions" then
    let type := if endsWith lower "/responses" then Responses else Chat in
    ([{| url := base; type := type |}], st)
  else
    let '(preference, st') := getStoredOpenAiPreference base st in
    match preference with
    | Some Chat =>
        ([{| url := buildApiUrl E base "/chat/completions"; type := Chat |}], st')
    | _ =>
        ([{| url := buildApiUrl E base "/responses"; type := Responses |};
          {| url := buildApiUrl E base "/chat/completions"; type := Chat |}], st')
    end.

(** ** Credentials *)

(** [!apiKey] for a key that may be [undefined]. *)
Definition no_key (k : option string) : bool :=
  match k with
  | Some s => negb (nonempty s)
  | None => true
  end.

Definition keyGetter (p : Provider) (api : ElectronAPI) : Result (option string) :=
  match p with
  | OpenAI => getOpenAIKey api
  | Anthropic => getAnthropicKey api
  | Gemini => getGeminiKey api
  | Groq => getGroqKey api
  | Custom => Throw TypeError (* keyGetters has no such entry *)
  end.

(** The custom branch of [getApiKey]: the IPC key, else the
    [customReasoningApiKey] setting; the trimmed key is returned as it
    is. *)
Definition getCustomApiKey (st : Service) : string :=
  let ipcKey :=
    match electronAPI E with
    | Some api =>
        match getCustomReasoningKey api with
        | Some (Ok (Some k)) => k
        | _ => ""
        end
    | None => ""
    end in
  let customKey :=
    if negb (nonempty ipcKey) || negb (nonempty (trim ipcKey))
    then getItem_or_empty "customReasoningApiKey" st
    else ipcKey in
  trim customKey.

(** The non-empty key the secure store yields for a provider, if it
    yields one. *)
Definition fetched_key (provider : Provider) : option string :=
  match electronAPI E with
  | Some api =>
      match keyGetter provider api with
      | Ok (Some k) => if nonempty k then Some k else None
      | _ => None
      end
  | None => None
  end.

Definition key_missing (provider : Provider) : Exn :=
  Error (capitalize (provider_name provider) +:+ " API key not configured").

(** [getApiKey(provider)] *)
Definition getApiKey (provider : Provider) : M string :=
  fun st =>
    match provider with
    | Custom => (Ok (getCustomApiKey st), st)
    | _ =>
        let cached := apiKeyCache st !! provider_name provider in
        let '(apiKey, st') :=
          if no_key cached then
            match electronAPI E with
            | None => (cached, st)            (* TypeError, caught *)
            | Some api =>
                match keyGetter provider api with
                | Throw _ => (cached, st)     (* caught *)
                | Ok fetched =>
                    match fetched with
                    | Some k =>
                        if nonempty k
                        then (fetched,
                              set_apiKeyCache
                                (<[provider_name provider := k]> (apiKeyCache st)) st)
                        else (fetched, st)
                    | None => (None, st)
                    end
                end
            end
          else (cached, st) in
        match apiKey with
        | Some k =>
            if nonempty k then (Ok k, st')
            else (Throw (Error (capitalize (provider_name provider)
                                +:+ " API key not configured")), st')
        | None =>
            (Throw (Error (capitalize (provider_name provider)
                           +:+ " API key not configured")), st')
        end
    end.

End Endpoints.

(** ** Transport and retry *)

Section Transport.

Variable E : Env.

(** Modelled from the spec: [withRetry] of [utils/retry] is not part of
    the sources at hand.  The call is attempted once and, while it throws
    an error the strategy retries and the budget lasts, again; the last
    error is surfaced.  The delay between attempts has no counterpart
    here. *)
Fixpoint withRetry_from {A} (retries : nat) (retry : Exn -> bool) (f : M A) : M A :=
  fun st =>
    match f st with
    | (Ok a, st') => (Ok a, st')
    | (Throw e, st') =>
        match retries with
        | O => (Throw e, st')
        | S n => if retry e then withRetry_from n retry f st' else (Throw e, st')
        end
    end.

Definition withRetry {A} (f : M A) (strategy : RetryStrategy) : M A :=
  withRetry_from (maxRetries strategy) (shouldRetry strategy) f.

(** [await fetch(...)]: the request is recorded and the network answers. *)
Definition do_fetch (req : Request) : M HttpResponse :=
  fun st => (fetch E (length (sent st)) req, set_sent (sent st ++ [req]) st).

(** [res.json()] *)
Definition json (res : HttpResponse) : Result JSON :=
  match JSON_parse E (bodyText res) with
  | Some j => Ok j
  | None => Throw SyntaxError
  end.

(** [x || 0.3] for an optional number. *)
Definition temperature_or_default (t : option Q) : Q :=
  match t with
  | Some q => if Qeq_bool q 0 then (3 # 10)%Q else q
  | None => (3 # 10)%Q
  end.

(** [errorData.error?.message || errorData.message || fallback];
    [None] when [errorData] is [null] and reading it throws. *)
Definition openai_error_message (errorData : JSON) (fallback : string) : option Js.value :=
  match Js.prop "error" (Some errorData), Js.prop "message" (Some errorData) with
  | Some err, Some msg =>
      Some (Js.or (Js.opt_prop "message" err) (Js.or msg (Some (JStr fallback))))
  | _, _ => None
  end.

Definition is_unsupported_status (s : Z) : bool := (s =? 404) || (s =? 405).

Definition openai_request (c : Candidate) (apiKey model : string)
    (messages : list Message) (isOlderModel : bool) (config : ReasoningConfig)
  : Request :=
  {| endpoint := url c;
     credential := apiKey;
     body :=
       match type c with
       | Responses => ResponsesBody model messages
       | Chat =>
           ChatBody model messages
             (if isOlderModel
              then Some (temperature_or_default (temperature config))
              else None)
       end |}.

(** The [for] loop over the endpoint candidates inside the retried
    closure of [processWithOpenAI].  Whatever the body of the loop
    throws is caught: for the ["responses"] candidate the loop goes on,
    for the chat candidate the error leaves the closure. *)
Fixpoint try_candidates (openAiBase apiKey model : string)
    (messages : list Message) (isOlderModel : bool) (config : ReasoningConfig)
    (candidates : list Candidate) (lastError : option Exn) : M JSON :=
  match candidates with
  | [] =>
      throw (match lastError with
             | Some e => e
             | None => Error "No OpenAI endpoint responded"
             end)
  | c :: rest =>
      let continue_with e st :=
        try_candidates openAiBase apiKey model messages isOlderModel config
          rest (Some e) st in
      let caught e st :=
        match type c with
        | Responses => continue_with e st
        | Chat => (Throw e, st)
        end in
      fun st =>
        match do_fetch (openai_request c apiKey model messages isOlderModel config) st with
        | (Throw e, st1) => caught e st1
        | (Ok res, st1) =>
            if negb (ok res) then
              let errorData :=
                match json res with
                | Ok j => j
                | Throw _ => JObj [("error", JStr (statusText res))]
                end in
              match openai_error_message errorData
                      ("OpenAI API error: " +:+ of_Z (status res)) with
              | None => caught TypeError st1
              | Some errorMessage =>
                  let err := Error (match errorMessage with
                                    | Some j => Js.toString j
                                    | None => ""
                                    end) in
                  match type c with
                  | Responses =>
                      if is_unsupported_status (status res)
                      then continue_with err (rememberOpenAiPreference E openAiBase Chat st1)
                      else caught err st1
                  | Chat => caught err st1
                  end
              end
            else
              (json res, rememberOpenAiPreference E openAiBase (type c) st1)
        end
  end.

(** ** The OpenAI response normaliser *)

(** The inner loop over [item.content]: the text found ([""] when none),
    or a [TypeError]. *)
Fixpoint scan_content (contents : list JSON) : Result string :=
  match contents with
  | [] => Ok ""
  | c :: rest =>
      match Js.prop "type" (Some c), Js.prop "text" (Some c) with
      | Some ty, Some tx =>
          if Js.eq_str ty "output_text" && Js.truthy tx then
            match tx with
            | Some (JStr s) => Ok (trim s)
            | _ => Throw TypeError   (* no [trim] on it *)
            end
          else scan_content rest
      | _, _ => Throw TypeError
      end
  end.

(** [for (const content of item.content)] for a truthy [item.content]:
    an array is walked, the characters of a string have no [type], and
    nothing else is iterable. *)
Definition scan_item_content (content : JSON) : Result string :=
  match content with
  | JArr contents => scan_content contents
  | JStr _ => Ok ""
  | _ => Throw TypeError
  end.

(** The loop over [response.output]; no item is [null] here. *)
Fixpoint scan_output (output : list JSON) : Result string :=
  match output with
  | [] => Ok ""
  | item :: rest =>
      let content := Js.opt_prop "content" (Some item) in
      if Js.eq_str (Js.opt_prop "type" (Some item)) "message" && Js.truthy content then
        match content with
        | Some cj =>
            match scan_item_content cj with
            | Throw e => Throw e
            | Ok s => if nonempty s then Ok s else scan_output rest
            end
        | None => scan_output rest
        end
      else scan_output rest
  end.

(** The loop over the parts of an array-valued message content. *)
Fixpoint scan_parts (parts : list JSON) : string :=
  match parts with
  | [] => ""
  | part :: rest =>
      match Js.opt_prop "text" (Some part) with
      | Some (JStr s) => if nonempty (trim s) then trim s else scan_parts rest
      | _ => scan_parts rest
      end
  end.

(** The loop over [response.choices]: message content as a string, then
    as an array of parts, then the legacy [choice.text]. *)
Fixpoint scan_choices (choices : list JSON) : string :=
  match choices with
  | [] => ""
  | choice :: rest =>
      let message :=
        Js.nullish (Js.opt_prop "message" (Some choice))
                   (Js.opt_prop "delta" (Some choice)) in
      let content := Js.opt_prop "content" message in
      let from_string :=
        match content with
        | Some (JStr s) => trim s
        | _ => ""
        end in
      if nonempty from_string then from_string
      else
        let from_parts :=
          match content with
          | Some (JArr parts) => scan_parts parts
          | _ => ""
          end in
        if nonempty from_parts then from_parts
        else
          match Js.opt_prop "text" (Some choice) with
          | Some (JStr s) => if nonempty (trim s) then trim s else scan_choices rest
          | _ => scan_choices rest
          end
  end.

Definition is_null (v : JSON) : bool :=
  match v with JNull => true | _ => false end.

(** The text [processWithOpenAI] extracts from a response, [""] when
    there is none.  The [TypeError]s are those of the log call before the
    extraction ([item.type] of a [null] output item, [response.usage] of
    a [null] response) and of the extraction itself. *)
Definition openai_response_text (response : JSON) : Result string :=
  let output := Js.opt_prop "output" (Some response) in
  let choices := Js.opt_prop "choices" (Some response) in
  if is_null response then Throw TypeError
  else
    let from_output :=
      match output with
      | Some (JArr items) =>
          if existsb is_null items then Throw TypeError else scan_output items
      | _ => Ok ""
      end in
    match from_output with
    | Throw e => Throw e
    | Ok t1 =>
        let t2 :=
          if nonempty t1 then t1
          else match Js.opt_prop "output_text" (Some response) with
               | Some (JStr s) => trim s
               | _ => t1
               end in
        Ok (if nonempty t2 then t2
            else match choices with
                 | Some (JArr cs) => scan_choices cs
                 | _ => t2
                 end)
    end.

(** [model && (model.startsWith("gpt-4") || model.startsWith("gpt-3"))] *)
Definition is_older_model (model : string) : bool :=
  nonempty model && (startsWith model "gpt-4" || startsWith model "gpt-3").

(** The system and the user message of a request. *)
Definition openai_messages (text : string) (agentName : option string)
    (ls : option (gmap string string)) : list Message :=
  [{| role := "system"; content := getSystemPrompt E agentName ls |};
   {| role := "user"; content := text |}].

(** The two candidates of a base that names no dialect. *)
Definition responses_candidate (base : string) : Candidate :=
  {| url := buildApiUrl E base "/responses"; type := Responses |}.

Definition chat_candidate (base : string) : Candidate :=
  {| url := buildApiUrl E base "/chat/completions"; type := Chat |}.

(** The [try] block of [processWithOpenAI]. *)
Definition openai_body (text model : string) (agentName : option string)
    (config : ReasoningConfig) (apiKey : string) : M string :=
  fun st =>
    let messages := openai_messages text agentName (localStorage st) in
    let openAiBase := getConfiguredOpenAIBase E st in
    let '(endpointCandidates, st1) := getOpenAIEndpointCandidates E openAiBase st in
    (* the OPENAI_ENDPOINTS log reads the stored preference once more *)
    let st2 := snd (getStoredOpenAiPreference E openAiBase st1) in
    match withRetry
            (try_candidates openAiBase apiKey model messages
               (is_older_model model) config endpointCandidates None)
            (createApiRetryStrategy E) st2 with
    | (Throw e, st3) => (Throw e, st3)
    | (Ok response, st3) =>
        match openai_response_text response with
        | Throw e => (Throw e, st3)
        | Ok responseText =>
            if negb (nonempty responseText) then (Ok text, st3)
            else (Ok responseText, st3)
        end
    end.

Definition busy : Exn := Error "Already processing a request".

(** [processWithOpenAI(text, model, agentName, config)] *)
Definition processWithOpenAI (text model : string) (agentName : option string)
    (config : ReasoningConfig) : M string :=
  fun st =>
    let isCustomProvider :=
      String.eqb (getItem_or_empty "reasoningProvider" st) "custom" in
    if isProcessing st then (Throw busy, st)
    else
      match getApiKey E (if isCustomProvider then Custom else OpenAI) st with
      | (Throw e, st1) => (Throw e, st1)
      | (Ok apiKey, st1) =>
          try_finally (openai_body text model agentName config apiKey)
            (set_isProcessing false) (set_isProcessing true st1)
      end.

End Transport.

(** ** The Gemini path *)

Section GeminiPath.

Variable E : Env.

(** The two line feeds between system prompt and user text. *)
Definition blank_line : string := String "010" (String "010" EmptyString).

(** [config.maxTokens || fallback] *)
Definition maxTokens_or (config : ReasoningConfig) (fallback : Z) : Z :=
  match maxTokens config with
  | Some n => if n =? 0 then fallback else n
  | None => fallback
  end.

Definition gemini_request (text model : string) (agentName : option string)
    (config : ReasoningConfig) (apiKey : string) (st : Service) : Request :=
  {| endpoint := GEMINI E +:+ "/models/" +:+ model +:+ ":generateContent";
     credential := apiKey;
     body :=
       GeminiBody
         (getSystemPrompt E agentName (localStorage st) +:+ blank_line +:+ text)
         (temperature_or_default (temperature config))
         (maxTokens_or config
            (Z.max 2000
               (calculateMaxTokens (Z.of_nat (String.length text))
                  (MIN_TOKENS_GEMINI E) (MAX_TOKENS_GEMINI E) (TOKEN_MULTIPLIER E)))) |}.

(** [errorData.error?.message || errorData.message || errorData.error
     || fallback]; [None] when [errorData] is [null]. *)
Definition gemini_error_message (errorData : JSON) (fallback : string) : option Js.value :=
  match Js.prop "error" (Some errorData), Js.prop "message" (Some errorData) with
  | Some err, Some msg =>
      Some (Js.or (Js.opt_prop "message" err)
              (Js.or msg (Js.or err (Some (JStr fallback)))))
  | _, _ => None
  end.

(** The closure [processWithGemini] hands to [withRetry]. *)
Definition gemini_attempt (req : Request) : M JSON :=
  fun st =>
    match do_fetch E req st with
    | (Throw e, st1) => (Throw e, st1)
    | (Ok res, st1) =>
        if negb (ok res) then
          let errorText := bodyText res in
          let errorData :=
            match JSON_parse E errorText with
            | Some j => j
            | None =>
                JObj [("error",
                       JStr (if nonempty errorText then errorText else statusText res))]
            end in
          match gemini_error_message errorData
                  ("Gemini API error: " +:+ of_Z (status res)) with
          | None => (Throw TypeError, st1)
          | Some errorMessage => (throwValue errorMessage, st1)
          end
        else (json E res, st1)
    end.

Definition gemini_token_limit : Exn :=
  Error "Gemini reached token limit before generating response. Try a shorter input or increase max tokens.".

Definition gemini_empty : Exn := Error "Gemini returned empty response".

Definition gemini_invalid : Exn := Error "Invalid response structure from Gemini API".

(** The normaliser of [processWithGemini]. *)
Definition gemini_response_text (response : JSON) : Result string :=
  match Js.prop "candidates" (Some response) with
  | None => Throw TypeError
  | Some candidates =>
      if negb (Js.truthy candidates) || negb (Js.truthy (Js.opt_first candidates))
      then Throw gemini_invalid
      else
        let candidate := Js.opt_first candidates in
        let text :=
          Js.opt_prop "text"
            (Js.opt_first (Js.opt_prop "parts" (Js.opt_prop "content" candidate))) in
        if negb (Js.truthy text) then
          if Js.eq_str (Js.opt_prop "finishReason" candidate) "MAX_TOKENS"
          then Throw gemini_token_limit
          else Throw gemini_empty
        else
          match text with
          | Some (JStr s) => Ok (trim s)
          | _ => Throw TypeError   (* no [trim] on it *)
          end
  end.

(** A candidate without text: [!candidate.content?.parts?.[0]?.text]. *)
Definition has_no_text (candidate : Js.value) : bool :=
  negb (Js.truthy
          (Js.opt_prop "text"
             (Js.opt_first (Js.opt_prop "parts" (Js.opt_prop "content" candidate))))).

(** The [try] block of [processWithGemini]. *)
Definition gemini_body (text model : string) (agentName : option string)
    (config : ReasoningConfig) (apiKey : string) : M string :=
  fun st =>
    match withRetry (gemini_attempt (gemini_request text model agentName config apiKey st))
            (createApiRetryStrategy E) st with
    | (Throw e, st1) => (Throw e, st1)
    | (Ok response, st1) => (gemini_response_text response, st1)
    end.

(** [processWithGemini(text, model, agentName, config)] *)
Definition processWithGemini (text model : string) (agentName : option string)
    (config : ReasoningConfig) : M string :=
  fun st =>
    if isProcessing st then (Throw busy, st)
    else
      match getApiKey E Gemini st with
      | (Throw e, st1) => (Throw e, st1)
      | (Ok apiKey, st1) =>
          try_finally (gemini_body text model agentName config apiKey)
            (set_isProcessing false) (set_isProcessing true st1)
      end.

End GeminiPath.

(** ** Overlapping calls

    A call runs until it awaits; between a suspension and its resumption
    other calls may run.  The guarded cloud paths ([processWithOpenAI],
    [processWithGemini], [processWithGroq]) have the same shape: the
    check of [isProcessing], the await of [getApiKey], the assignment
    [isProcessing = true], the awaited transport inside [try], and
    [isProcessing = false] in [finally]. *)

Inductive Stage : Type :=
| AwaitingKey (provider : Provider)
| AwaitingTransport (apiKey : string)
| Settled (outcome : Result string).

Section Overlap.

Variable E : Env.

(** From the invocation to the first await. *)
Definition enter (provider : Provider) (st : Service) : Stage * Service :=
  if isProcessing st then (Settled (Throw busy), st)
  else (AwaitingKey provider, st).

(** [getApiKey] settles: the call fails with its error, or sets the flag
    and goes on to the transport. *)
Definition key_arrives (provider : Provider) (st : Service) : Stage * Service :=
  match getApiKey E provider st with
  | (Throw e, st1) => (Settled (Throw e), st1)
  | (Ok apiKey, st1) => (AwaitingTransport apiKey, set_isProcessing true st1)
  end.

(** The [try] block runs to its end and [finally] clears the flag. *)
Definition transport_done (body : string -> M string) (apiKey : string)
    (st : Service) : Stage * Service :=
  let '(r, st') := body apiKey st in (Settled r, set_isProcessing false st').

(** One resumption of a call that is at stage [s]. *)
Definition resume (body : string -> M string) (s : Stage) (st : Service)
  : Stage * Service :=
  match s with
  | AwaitingKey provider => key_arrives provider st
  | AwaitingTransport apiKey => transport_done body apiKey st
  | Settled r => (Settled r, st)
  end.

(** A call run without interruption: invocation and two resumptions. *)
Definition run_alone (provider : Provider) (body : string -> M string)
    (st : Service) : Stage * Service :=
  let '(s1, st1) := enter provider st in
  let '(s2, st2) := resume body s1 st1 in
  resume body s2 st2.

(** Two calls, the second invoked while the first awaits its key; then
    each is resumed in turn until both have settled. *)
Definition second_call_during_key_lookup
    (providerA providerB : Provider) (bodyA bodyB : string -> M string)
    (st : Service) : (Stage * Stage) * Service :=
  let '(a1, s1) := enter providerA st in
  let '(b1, s2) := enter providerB s1 in
  let '(a2, s3) := resume bodyA a1 s2 in
  let '(b2, s4) := resume bodyB b1 s3 in
  let '(a3, s5) := resume bodyA a2 s4 in
  let '(b3, s6) := resume bodyB b2 s5 in
  ((a3, b3), s6).

(** The provider whose key [processWithOpenAI] asks for. *)
Definition openai_key_provider (st : Service) : Provider :=
  if String.eqb (getItem_or_empty "reasoningProvider" st) "custom"
  then Custom else OpenAI.

End Overlap.

(** ** Provider resolution *)

(** [getModelProvider(modelId, preferredProvider, { allowLocalFallback })]
    over the registry's list of reasoning models, each with its [value]
    and [provider]. *)
Definition getModelProvider (models : list (string * string)) (modelId : string)
    (preferredProvider : option string) (allowLocalFallback : bool) : string :=
  let normalizedPreferred :=
    option_map (fun p => toLowerCase (trim p)) preferredProvider in
  let preferred := default "" normalizedPreferred in
  if nonempty preferred && negb (String.eqb preferred "auto") then
    if String.eqb preferred "custom" then "openai" else preferred
  else
    match List.find (fun m => String.eqb (fst m) modelId) models with
    | Some m => if nonempty (snd m) then snd m else "openai"
    | None =>
        if includes modelId "claude" then "anthropic"
        else if includes modelId "gemini" && negb (includes modelId "gemma") then "gemini"
        else if (includes modelId "gpt-4" || includes modelId "gpt-5")
                && negb (includes modelId "gpt-oss") then "openai"
        else if includes modelId "qwen/"
                || includes modelId "openai/"
                || includes modelId "llama-3.1-8b-instant"
                || includes modelId "llama-3.3-"
                || includes modelId "mixtral-"
                || includes modelId "gemma2-" then "groq"
        else if allowLocalFallback
                && (includes modelId "qwen"
                    || includes modelId "llama"
                    || includes modelId "mistral"
                    || includes modelId "gpt-oss-20b-mxfp4") then "local"
        else "openai"
    end.

(** No explicit override: the preferred provider is absent, blank or
    "auto". *)
Definition no_override (preferredProvider : option string) : bool :=
  let preferred :=
    default "" (option_map (fun p => toLowerCase (trim p)) preferredProvider) in
  negb (nonempty preferred && negb (String.eqb preferred "auto")).

(** ** The local bridge *)

Module LocalBridge.

(** The [config] argument of the bridge's [processText]. *)
Record Config : Type := {
  maxTokens : option Z;
  temperature : option Q;
  topK : option Z;
  topP : option Q;
  repeatPenalty : option Q;
  contextSize : option Z;
  threads : option Z;
  customDictionary : option (list string)
}.

Record InferenceConfig : Type := {
  inf_maxTokens : Z;
  inf_temperature : Q;
  inf_topK : Z;
  inf_topP : Q;
  inf_repeatPenalty : Q;
  inf_contextSize : Z;
  inf_threads : Z;
  inf_systemPrompt : string
}.

(** What the bridge requires: the environment variable, the model
    manager and the prompt helper. *)
Record Env : Type := {
  REASONING_PROVIDER : option string;
  getAllModels : Result (list (string * bool));   (* id, isDownloaded *)
  runInference : string -> string -> InferenceConfig -> Result string;
  getSystemPrompt : option string -> option (list string) -> string
}.

Definition Z_or (x : option Z) (d : Z) : Z :=
  match x with
  | Some n => if n =? 0 then d else n
  | None => d
  end.

Definition Q_or (x : option Q) (d : Q) : Q :=
  match x with
  | Some q => if Qeq_bool q 0 then d else q
  | None => d
  end.

Definition inferenceConfig (E : Env) (text : string) (agentName : option string)
    (config : Config) : InferenceConfig :=
  {| inf_maxTokens :=
       Z_or (maxTokens config)
            (calculateMaxTokens_default (Z.of_nat (String.length text)));
     inf_temperature := Q_or (temperature config) (7 # 10)%Q;
     inf_topK := Z_or (topK config) 40;
     inf_topP := Q_or (topP config) (9 # 10)%Q;
     inf_repeatPenalty := Q_or (repeatPenalty config) (11 # 10)%Q;
     inf_contextSize := Z_or (contextSize config) 4096;
     inf_threads := Z_or (threads config) 4;
     inf_systemPrompt := getSystemPrompt E agentName (customDictionary config) |}.

(** The provider the environment pins the bridge away from, if any. *)
Definition disabled_by (E : Env) : option string :=
  match REASONING_PROVIDER E with
  | Some p => if nonempty p && negb (String.eqb p "local") then Some p else None
  | None => None
  end.

(** The [try] block of the bridge's [processText]. *)
Definition inference (E : Env) (text modelId : string) (agentName : option string)
    (config : Config) : Result string :=
  match getAllModels E with
  | Throw e => Throw e
  | Ok models =>
      match List.find (fun m => String.eqb (fst m) modelId) models with
      | Some (_, true) =>
          runInference E modelId text (inferenceConfig E text agentName config)
      | _ => Throw (Error ("Local model " +:+ modelId +:+ " is not downloaded"))
      end
  end.

(** [processText(text, modelId, agentName, config)] of
    [LocalReasoningService]; the state is its [isProcessing] flag. *)
Definition processText (E : Env) (text modelId : string) (agentName : option string)
    (config : Config) (isProcessing : bool) : Result string * bool :=
  match disabled_by E with
  | Some p =>
      (Throw (Error ("Local reasoning is disabled while provider is set to " +:+ p)),
       isProcessing)
  | None =>
      if isProcessing then (Throw busy, isProcessing)
      else (inference E text modelId agentName config, false)
  end.

(** The stages of a bridge call: nothing is awaited between the check of
    the flag and its assignment. *)
Inductive Stage : Type :=
| AwaitingInference
| Settled (outcome : Result string).

Definition enter (E : Env) (isProcessing : bool) : Stage * bool :=
  match disabled_by E with
  | Some p =>
      (Settled (Throw (Error ("Local reasoning is disabled while provider is set to " +:+ p))),
       isProcessing)
  | None =>
      if isProcessing then (Settled (Throw busy), isProcessing)
      else (AwaitingInference, true)
  end.

Definition inference_done (outcome : Result string) (isProcessing : bool)
  : Stage * bool :=
  (Settled outcome, false).

End LocalBridge.

(** ** PromptStudio *)

Module PromptStudio.

(** The component state [testPrompt] reads and writes. *)
Record Studio : Type := {
  testText : string;
  editedPrompt : string;
  testResult : string;
  isLoading : bool
}.

(** The reply of [window.electronAPI.processLocalReasoning]. *)
Inductive LocalReply : Type :=
| LocalSuccess (text : option string)
| LocalFailure (error : string).

(** What [testPrompt] calls: the registry, [JSON.stringify] on a string,
    and the two ways to run the test.  A test sees the store with the
    edited prompt in place and leaves a store behind. *)
Record Env : Type := {
  models : list (string * string);
  stringify : string -> string;
  processLocalReasoning :
    string -> string -> string -> gmap string string
    -> Result LocalReply * gmap string string;
  processText :
    string -> string -> string -> gmap string string
    -> Result string * gmap string string
}.

Definition customUnifiedPrompt : string := "customUnifiedPrompt".

(** [PROVIDER_CONFIG[reasoningProvider]], the storage key of the base
    URL and the label. *)
Definition baseStorageKey (reasoningProvider : string) : option string :=
  if String.eqb reasoningProvider "custom" then Some "cloudReasoningBaseUrl" else None.

Definition label (reasoningProvider : string) : string :=
  if String.eqb reasoningProvider "openai" then "OpenAI"
  else if String.eqb reasoningProvider "anthropic" then "Anthropic"
  else if String.eqb reasoningProvider "gemini" then "Gemini"
  else if String.eqb reasoningProvider "custom" then "Custom endpoint"
  else if String.eqb reasoningProvider "local" then "Local"
  else capitalize reasoningProvider.

Definition reasoningProvider_of (E : Env) (ls : gmap string string) : string :=
  let reasoningModel := default "" (ls !! "reasoningModel") in
  if nonempty reasoningModel
  then getModelProvider (models E) reasoningModel
         (Some (default "" (ls !! "reasoningProvider"))) false
  else "openai".

(** The checks before the test: [Some message] when [testPrompt] returns
    early with that message, [None] when it goes on to run the test. *)
Definition gate (E : Env) (ls : gmap string string) : option string :=
  let useReasoningModel :=
    negb (bool_decide (ls !! "useReasoningModel" = Some "false")) in
  let reasoningModel := default "" (ls !! "reasoningModel") in
  let reasoningProvider := reasoningProvider_of E ls in
  if negb useReasoningModel
  then Some "AI text enhancement is disabled. Enable it in AI Models to test prompts."
  else if negb (nonempty reasoningModel)
  then Some "No reasoning model selected. Choose one in AI Models settings."
  else
    match baseStorageKey reasoningProvider with
    | Some k =>
        if negb (nonempty (trim (default "" (ls !! k))))
        then Some (label reasoningProvider
                   +:+ " base URL missing. Add it in AI Models settings.")
        else None
    | None => None
    end.

(** The message of a caught error; the wording of the engine's own
    errors is not modelled. *)
Definition message_of (e : Exn) : string :=
  match e with
  | Error m => m
  | TypeError => "TypeError"
  | SyntaxError => "SyntaxError"
  end.

(** The inner [try] block: the test itself, and what [setTestResult]
    receives when it does not throw.  The provider and the model were
    read before the edited prompt was written. *)
Definition run_test (E : Env) (agentName : string) (ui : Studio)
    (reasoningProvider reasoningModel : string) (ls : gmap string string)
  : Result string * gmap string string :=
  if String.eqb reasoningProvider "local" then
    match processLocalReasoning E (testText ui) reasoningModel agentName ls with
    | (Ok (LocalSuccess t), ls') => (Ok (default "" t), ls')
    | (Ok (LocalFailure err), ls') => (Ok ("Local model error: " +:+ err), ls')
    | (Throw e, ls') => (Throw e, ls')
    end
  else processText E (testText ui) reasoningModel agentName ls.

(** The inner [finally] block. *)
Definition restore (currentCustomPrompt : option string) (ls : gmap string string)
  : gmap string string :=
  match currentCustomPrompt with
  | Some v =>
      if nonempty v then <[customUnifiedPrompt := v]> ls
      else delete customUnifiedPrompt ls
  | None => delete customUnifiedPrompt ls
  end.

Definition with_result (r : string) (ui : Studio) : Studio :=
  {| testText := testText ui; editedPrompt := editedPrompt ui;
     testResult := r; isLoading := false |}.

(** [testPrompt()]: the component state and the store after the call. *)
Definition testPrompt (E : Env) (agentName : string) (ui : Studio)
    (ls : gmap string string) : Studio * gmap string string :=
  if negb (nonempty (trim (testText ui))) then (ui, ls)
  else
    match gate E ls with
    | Some message => (with_result message ui, ls)
    | None =>
        let currentCustomPrompt := ls !! customUnifiedPrompt in
        let ls1 := <[customUnifiedPrompt := stringify E (editedPrompt ui)]> ls in
        let '(outcome, ls2) :=
          run_test E agentName ui (reasoningProvider_of E ls)
            (default "" (ls !! "reasoningModel")) ls1 in
        let ls3 := restore currentCustomPrompt ls2 in
        match outcome with
        | Ok r => (with_result r ui, ls3)
        | Throw e => (with_result ("Test failed: " +:+ message_of e) ui, ls3)
        end
    end.

(** What the inner [finally] leaves under the key, given what was there
    before the test: a non-empty value is put back, anything else gives
    way to a removal. *)
Definition restored (before : option string) : option string :=
  match before with
  | Some v => if nonempty v then Some v else None
  | None => None
  end.

(** [testPrompt] gets as far as running the test. *)
Definition reaches_test (E : Env) (ui : Studio) (ls : gmap string string) : Prop :=
  nonempty (trim (testText ui)) = true /\ gate E ls = None.

End PromptStudio.

(** ** Scenarios

    Concrete environments and states on which the properties below are
    exercised. *)

Module Scenario.

Definition quote : string := String "034" EmptyString.

Definition quoted (s : string) : string := quote +:+ s +:+ quote.

(** [{"choices":[{"message":{"content":"Hello"}}]}] *)
Definition chat_hello_text : string :=
  "{" +:+ quoted "choices" +:+ ":[{" +:+ quoted "message" +:+ ":{"
  +:+ quoted "content" +:+ ":" +:+ quoted "Hello" +:+ "}}]}".

Definition chat_hello : JSON :=
  JObj [("choices", JArr [JObj [("message", JObj [("content", JStr "Hello")])]])].

(** [{"choices":[{"message":{"content":""}}]}] *)
Definition chat_empty_text : string :=
  "{" +:+ quoted "choices" +:+ ":[{" +:+ quoted "message" +:+ ":{"
  +:+ quoted "content" +:+ ":" +:+ quoted "" +:+ "}}]}".

Definition chat_empty : JSON :=
  JObj [("choices", JArr [JObj [("message", JObj [("content", JStr "")])]])].

(** [{"candidates":[{"finishReason":"MAX_TOKENS"}]}] *)
Definition gemini_max_tokens_text : string :=
  "{" +:+ quoted "candidates" +:+ ":[{" +:+ quoted "finishReason" +:+ ":"
  +:+ quoted "MAX_TOKENS" +:+ "}]}".

Definition gemini_max_tokens : JSON :=
  JObj [("candidates", JArr [JObj [("finishReason", JStr "MAX_TOKENS")]])].

(** [{"candidates":[{"finishReason":"SAFETY"}]}] *)
Definition gemini_safety_text : string :=
  "{" +:+ quoted "candidates" +:+ ":[{" +:+ quoted "finishReason" +:+ ":"
  +:+ quoted "SAFETY" +:+ "}]}".

Definition gemini_safety : JSON :=
  JObj [("candidates", JArr [JObj [("finishReason", JStr "SAFETY")]])].

(** A parser that knows the texts above. *)
Definition parse (s : string) : option JSON :=
  if String.eqb s chat_hello_text then Some chat_hello
  else if String.eqb s chat_empty_text then Some chat_empty
  else if String.eqb s gemini_max_tokens_text then Some gemini_max_tokens
  else if String.eqb s gemini_safety_text then Some gemini_safety
  else if String.eqb s "{}" then Some (JObj [])
  else None.

(** A serialiser for flat objects of strings, which is what the
    preference map is. *)
Fixpoint stringify_fields (fields : list (string * JSON)) : string :=
  match fields with
  | [] => ""
  | (k, v) :: rest =>
      quoted k +:+ ":"
      +:+ match v with JStr s => quoted s | _ => "null" end
      +:+ match rest with [] => "" | _ => "," +:+ stringify_fields rest end
  end.

Definition stringify (v : JSON) : string :=
  match v with
  | JObj fields => "{" +:+ stringify_fields fields +:+ "}"
  | JStr s => quoted s
  | _ => "null"
  end.

Definition openai_base : string := "https://api.openai.com/v1".

Definition env (net : nat -> Request -> Result HttpResponse)
    (api : option ElectronAPI) : Env :=
  {| OPENAI_BASE := openai_base;
     GEMINI := "https://generativelanguage.googleapis.com/v1beta";
     MIN_TOKENS_GEMINI := 100;
     MAX_TOKENS_GEMINI := 8192;
     TOKEN_MULTIPLIER := 2;
     buildApiUrl := fun base path => base +:+ path;
     normalizeBaseUrl := fun s => Ok s;
     isSecureEndpoint := fun s => Ok (startsWith s "https://");
     getSystemPrompt := fun _ _ => "Clean up the dictated text.";
     JSON_parse := parse;
     JSON_stringify := stringify;
     createApiRetryStrategy := {| maxRetries := 2; shouldRetry := fun _ => true |};
     fetch := net;
     electronAPI := api;
     getAllReasoningModels := [("gpt-5", "openai"); ("gemini-2.5-flash", "gemini")] |}.

(** An IPC bridge that holds every key. *)
Definition api_with_keys : ElectronAPI :=
  {| getOpenAIKey := Ok (Some "sk-openai");
     getAnthropicKey := Ok (Some "sk-anthropic");
     getGeminiKey := Ok (Some "gm-key");
     getGroqKey := Ok (Some "gq-key");
     getCustomReasoningKey := Some (Ok None) |}.

(** An IPC bridge that holds no key at all. *)
Definition api_without_keys : ElectronAPI :=
  {| getOpenAIKey := Ok None;
     getAnthropicKey := Ok None;
     getGeminiKey := Ok None;
     getGroqKey := Ok None;
     getCustomReasoningKey := Some (Ok None) |}.

Definition no_network : nat -> Request -> Result HttpResponse :=
  fun _ _ => Throw (Error "Failed to fetch").

(** The ["responses"] endpoint is missing (404), chat completions
    answers. *)
Definition chat_only_network : nat -> Request -> Result HttpResponse :=
  fun _ req =>
    if endsWith (endpoint req) "/responses"
    then Ok {| status := 404; statusText := "Not Found"; bodyText := "{}" |}
    else Ok {| status := 200; statusText := "OK"; bodyText := chat_hello_text |}.

Definition answers (bodyText : string) : nat -> Request -> Result HttpResponse :=
  fun _ _ => Ok {| status := 200; statusText := "OK"; bodyText := bodyText |}.

(** A fresh service in a window whose store holds [items]. *)
Definition fresh (items : gmap string string) : Service :=
  {| isProcessing := false;
     apiKeyCache := ∅;
     openAiEndpointPreference := ∅;
     localStorage := Some items;
     sent := [] |}.

(** A service that remembers the "responses" dialect for the default
    base. *)
Definition prefers_responses : Service :=
  set_openAiEndpointPreference {[ openai_base := Responses ]} (fresh ∅).

(** The custom provider pointed at Anthropic's host. *)
Definition custom_anthropic : Service :=
  fresh (<["reasoningProvider" := "custom"]>
           (<["cloudReasoningBaseUrl" := "https://api.anthropic.com/v1"]> ∅)).

(** The environments of the scenarios. *)
Definition chat_only_env : Env := env chat_only_network (Some api_with_keys).

Definition hello_env : Env := env (answers chat_hello_text) (Some api_with_keys).

Definition empty_chat_env : Env := env (answers chat_empty_text) (Some api_with_keys).

Definition max_tokens_env : Env := env (answers gemini_max_tokens_text) (Some api_with_keys).

Definition offline_env : Env := env no_network None.

Definition keyless_env : Env := env no_network (Some api_without_keys).

(** A prompt studio whose cloud test fails and whose local test
    succeeds; neither touches the store. *)
Definition studio_env : PromptStudio.Env :=
  {| PromptStudio.models := [("gpt-5", "openai")];
     PromptStudio.stringify := quoted;
     PromptStudio.processLocalReasoning :=
       fun _ _ _ ls => (Ok (PromptStudio.LocalSuccess (Some "Hello.")), ls);
     PromptStudio.processText :=
       fun _ _ _ ls => (Throw (Error "OpenAI API key not configured"), ls) |}.

Definition studio : PromptStudio.Studio :=
  {| PromptStudio.testText := "um hello";
     PromptStudio.editedPrompt := "Tidy the text.";
     PromptStudio.testResult := "";
     PromptStudio.isLoading := false |}.

(** A store with a model selected and an empty custom prompt. *)
Definition store_with_empty_prompt : gmap string string :=
  <["reasoningModel" := "gpt-5"]> (<["customUnifiedPrompt" := ""]> ∅).

(** A store with a model selected and a custom prompt saved. *)
Definition store_with_prompt : gmap string string :=
  <["reasoningModel" := "gpt-5"]> (<["customUnifiedPrompt" := quoted "Mine."]> ∅).

Definition no_config : ReasoningConfig :=
  {| temperature := None; maxTokens := None |}.

End Scenario.

(** ** The rest of the service: Groq, Anthropic, local, the dispatcher *)

(** The cloud part of the registry data, as [getCloudModel] reads it. *)
Record CloudModelDefinition : Type := {
  cloud_id : string;
  cloud_name : string;
  cloud_description : string;
  disableThinking : option bool
}.

Record CloudProviderData : Type := {
  cloud_provider_id : string;
  cloud_provider_name : string;
  cloud_models : list CloudModelDefinition
}.

(** [getCloudModel(modelId)]: the first model with that id, provider by
    provider. *)
Fixpoint getCloudModel (cloudProviders : list CloudProviderData) (modelId : string)
  : option CloudModelDefinition :=
  match cloudProviders with
  | [] => None
  | provider :: rest =>
      match List.find (fun m => String.eqb (cloud_id m) modelId) (cloud_models provider) with
      | Some m => Some m
      | None => getCloudModel rest modelId
      end
  end.

(** The body [callChatCompletionsApi] posts. *)
Record ChatCompletionsRequest : Type := {
  cc_endpoint : string;
  cc_credential : string;
  cc_model : string;
  cc_messages : list Message;
  cc_temperature : Q;
  cc_max_tokens : Z;
  cc_reasoning_effort_none : bool    (* [reasoning_effort: "none"] is present *)
}.

(** The reply of the out-of-process reasoning calls,
    [{ success, text, error }]. *)
Inductive ReasoningReply : Type :=
| ReplySuccess (text : option string)
| ReplyFailure (error : option string).

(** What the rest of the service calls beyond [Env]: more constants, the
    cloud registry, the network as the chat-completions client meets it
    and the reasoning calls of the IPC bridge. *)
Record Collaborators : Type := {
  GROQ_BASE : string;
  MIN_TOKENS : Z;
  MAX_TOKENS : Z;
  cloudProviders : list CloudProviderData;
  fetchChat : nat -> ChatCompletionsRequest -> Result HttpResponse;
  processAnthropicReasoning :
    string -> string -> option string -> ReasoningConfig -> Result ReasoningReply;
  processLocalReasoning :
    string -> string -> option string -> ReasoningConfig -> Result ReasoningReply;
  checkLocalReasoningAvailable : Result bool
}.

(** The service together with the chat-completions requests sent. *)
Record Session : Type := {
  service : Service;
  chatSent : list ChatCompletionsRequest
}.

Definition set_service (st : Service) (s : Session) : Session :=
  {| service := st; chatSent := chatSent s |}.

(** A computation of the service, run inside a session. *)
Definition on_service {A} (m : M A) (s : Session) : Result A * Session :=
  let '(r, st') := m (service s) in (r, set_service st' s).

(** Modelled from the spec: [withRetry] once more, for a computation
    over any state (see [withRetry_from]). *)
Fixpoint retry_from {S A} (retries : nat) (retry : Exn -> bool)
    (f : S -> Result A * S) (s : S) : Result A * S :=
  match f s with
  | (Ok a, s') => (Ok a, s')
  | (Throw e, s') =>
      match retries with
      | O => (Throw e, s')
      | S n => if retry e then retry_from n retry f s' else (Throw e, s')
      end
  end.

Section Dispatch.

Variable E : Env.
Variable C : Collaborators.

(** [config.temperature ?? 0.3] *)
Definition temperature_or_nullish (t : option Q) : Q :=
  match t with
  | Some q => q
  | None => (3 # 10)%Q
  end.

Definition chat_completions_request (endpoint apiKey model text : string)
    (agentName : option string) (config : ReasoningConfig) (providerName : string)
    (st : Service) : ChatCompletionsRequest :=
  {| cc_endpoint := endpoint;
     cc_credential := apiKey;
     cc_model := model;
     cc_messages := openai_messages E text agentName (localStorage st);
     cc_temperature := temperature_or_nullish (temperature config);
     cc_max_tokens :=
       maxTokens_or config
         (Z.max 4096
            (calculateMaxTokens (Z.of_nat (String.length text))
               (MIN_TOKENS C) (MAX_TOKENS C) (TOKEN_MULTIPLIER E)));
     cc_reasoning_effort_none :=
       match getCloudModel (cloudProviders C) model with
       | Some modelDef =>
           match disableThinking modelDef with
           | Some true => String.eqb (toLowerCase providerName) "groq"
           | _ => false
           end
       | None => false
       end |}.

(** The closure [callChatCompletionsApi] hands to [withRetry]. *)
Definition chat_completions_attempt (req : ChatCompletionsRequest) (providerName : string)
    (s : Session) : Result JSON * Session :=
  let s1 := {| service := service s; chatSent := chatSent s ++ [req] |} in
  match fetchChat C (length (sent (service s)) + length (chatSent s)) req with
  | Throw e => (Throw e, s1)
  | Ok res =>
      if negb (ok res) then
        let errorText := bodyText res in
        let errorData :=
          match JSON_parse E errorText with
          | Some j => j
          | None =>
              JObj [("error",
                     JStr (if nonempty errorText then errorText else statusText res))]
          end in
        match gemini_error_message errorData
                (providerName +:+ " API error: " +:+ of_Z (status res)) with
        | None => (Throw TypeError, s1)
        | Some errorMessage => (throwValue errorMessage, s1)
        end
      else (json E res, s1)
  end.

Definition invalid_structure (providerName : string) : Exn :=
  Error ("Invalid response structure from " +:+ providerName +:+ " API").

Definition empty_response (providerName : string) : Exn :=
  Error (providerName +:+ " returned empty response").

(** The normaliser of [callChatCompletionsApi]:
    [choices[0].message?.content?.trim() || ""], which must not be
    empty. *)
Definition chat_completions_text (providerName : string) (response : JSON)
  : Result string :=
  match Js.prop "choices" (Some response) with
  | None => Throw TypeError
  | Some choices =>
      if negb (Js.truthy choices) || negb (Js.truthy (Js.opt_first choices))
      then Throw (invalid_structure providerName)
      else
        match Js.opt_prop "content" (Js.opt_prop "message" (Js.opt_first choices)) with
        | None | Some JNull => Throw (empty_response providerName)
        | Some (JStr s) =>
            if nonempty (trim s) then Ok (trim s)
            else Throw (empty_response providerName)
        | Some _ => Throw TypeError   (* no [trim] on it *)
        end
  end.

(** [callChatCompletionsApi(endpoint, apiKey, model, text, agentName,
    config, providerName)] *)
Definition callChatCompletionsApi (endpoint apiKey model text : string)
    (agentName : option string) (config : ReasoningConfig) (providerName : string)
    (s : Session) : Result string * Session :=
  let req :=
    chat_completions_request endpoint apiKey model text agentName config
      providerName (service s) in
  match retry_from (maxRetries (createApiRetryStrategy E))
          (shouldRetry (createApiRetryStrategy E))
          (chat_completions_attempt req providerName) s with
  | (Throw e, s1) => (Throw e, s1)
  | (Ok response, s1) => (chat_completions_text providerName response, s1)
  end.

(** [processWithGroq(text, model, agentName, config)] *)
Definition processWithGroq (text model : string) (agentName : option string)
    (config : ReasoningConfig) (s : Session) : Result string * Session :=
  if isProcessing (service s) then (Throw busy, s)
  else
    match getApiKey E Groq (service s) with
    | (Throw e, st1) => (Throw e, set_service st1 s)
    | (Ok apiKey, st1) =>
        let '(r, s') :=
          callChatCompletionsApi
            (buildApiUrl E (GROQ_BASE C) "/chat/completions")
            apiKey model text agentName config "Groq"
            (set_service (set_isProcessing true st1) s) in
        (r, set_service (set_isProcessing false (service s')) s')
    end.

(** The two paths that run out of process.  The success log reads
    [result.text.length]. *)
Definition out_of_process (call : Result ReasoningReply) (unavailable : string)
  : Result string :=
  match electronAPI E with
  | None => Throw (Error unavailable)
  | Some _ =>
      match call with
      | Throw e => Throw e
      | Ok (ReplySuccess (Some text)) => Ok text
      | Ok (ReplySuccess None) => Throw TypeError
      | Ok (ReplyFailure error) => Throw (Error (default "" error))
      end
  end.

(** [processWithAnthropic(text, model, agentName, config)] *)
Definition processWithAnthropic (text model : string) (agentName : option string)
    (config : ReasoningConfig) : Result string :=
  out_of_process (processAnthropicReasoning C text model agentName config)
    "Anthropic reasoning is not available in this environment".

(** [processWithLocal(text, model, agentName, config)] *)
Definition processWithLocal (text model : string) (agentName : option string)
    (config : ReasoningConfig) : Result string :=
  out_of_process (processLocalReasoning C text model agentName config)
    "Local reasoning is not available in this environment".

(** The provider [processText] routes to: the stored provider, trimmed
    and in lower case, unless it is blank or "auto". *)
Definition dispatch_provider (trimmedModel : string) (st : Service) : string :=
  let normalizedProvider :=
    toLowerCase (trim (getItem_or_empty "reasoningProvider" st)) in
  if nonempty normalizedProvider && negb (String.eqb normalizedProvider "auto") then
    if String.eqb normalizedProvider "custom" then "openai" else normalizedProvider
  else getModelProvider (getAllReasoningModels E) trimmedModel None true.

(** [processText(text, model, agentName, config)] of [ReasoningService].
    The Groq path receives the model as given, the others the trimmed
    one. *)
Definition processText (text model : string) (agentName : option string)
    (config : ReasoningConfig) (s : Session) : Result string * Session :=
  let trimmedModel := trim model in
  if negb (nonempty trimmedModel) then (Throw (Error "No reasoning model selected"), s)
  else
    let provider := dispatch_provider trimmedModel (service s) in
    if String.eqb provider "openai" then
      on_service (processWithOpenAI E text trimmedModel agentName config) s
    else if String.eqb provider "anthropic" then
      (processWithAnthropic text trimmedModel agentName config, s)
    else if String.eqb provider "local" then
      (processWithLocal text trimmedModel agentName config, s)
    else if String.eqb provider "gemini" then
      on_service (processWithGemini E text trimmedModel agentName config) s
    else if String.eqb provider "groq" then
      processWithGroq text model agentName config s
    else (Throw (Error ("Unsupported reasoning provider: " +:+ provider)), s).

(** [isAvailable()]: the four keys and the local check are awaited in
    turn; a rejection of any of them makes the answer [false]. *)
Definition has_key (k : option string) : bool := negb (no_key k).

Definition isAvailable : bool :=
  match electronAPI E with
  | None => false
  | Some api =>
      match getOpenAIKey api, getAnthropicKey api, getGeminiKey api, getGroqKey api,
            checkLocalReasoningAvailable C with
      | Ok openaiKey, Ok anthropicKey, Ok geminiKey, Ok groqKey, Ok localAvailable =>
          has_key openaiKey || has_key anthropicKey || has_key geminiKey
          || has_key groqKey || localAvailable
      | _, _, _, _, _ => false
      end
  end.

(** [clearApiKeyCache(provider)]: one provider's entry (never the custom
    one, which is not cached), or all of them. *)
Definition clearApiKeyCache (provider : option Provider) (st : Service) : Service :=
  match provider with
  | Some Custom => st
  | Some p => set_apiKeyCache (delete (provider_name p) (apiKeyCache st)) st
  | None => set_apiKeyCache ∅ st
  end.

(** [SecureCache] is not among the sources at hand.  Modelled from the
    spec: its entries are short-lived, and the cleanup cycle the
    constructor starts ([startAutoCleanup]) runs on its own timer,
    between the calls.  [apiKeyCache] holds the entries that are live
    when a call reads the cache; [expire stale] is what the passing of
    time does to it between two calls: the entries whose names [stale]
    marks are gone, the others stay. *)
Definition expire (stale : string -> bool) (st : Service) : Service :=
  set_apiKeyCache
    (filter (fun entry : string * string => stale (fst entry) = false) (apiKeyCache st))
    st.

End Dispatch.

(** ** The prompt store of PromptStudio *)

Module PromptStore.

(** What the component imports: the built-in prompt and [JSON]. *)
Record Env : Type := {
  UNIFIED_SYSTEM_PROMPT : string;
  parse : string -> option JSON;
  stringify : JSON -> string
}.

Definition customPrompts : string := "customPrompts".

(** A stored item that is present and not empty. *)
Definition present (item : option string) : bool :=
  match item with
  | Some v => nonempty v
  | None => false
  end.

(** [getCurrentPrompt()]: what the stored custom prompt parses to, and
    the built-in prompt when there is none or it does not parse. *)
Definition getCurrentPrompt (E : Env) (ls : gmap string string) : JSON :=
  match ls !! PromptStudio.customUnifiedPrompt with
  | Some customPrompt =>
      if nonempty customPrompt then
        match parse E customPrompt with
        | Some v => v
        | None => JStr (UNIFIED_SYSTEM_PROMPT E)
        end
      else JStr (UNIFIED_SYSTEM_PROMPT E)
  | None => JStr (UNIFIED_SYSTEM_PROMPT E)
  end.

(** [savePrompt()], on the store. *)
Definition savePrompt (E : Env) (editedPrompt : string) (ls : gmap string string)
  : gmap string string :=
  <[PromptStudio.customUnifiedPrompt := stringify E (JStr editedPrompt)]> ls.

(** [resetToDefault()], on the store; the edited prompt becomes the
    built-in one. *)
Definition resetToDefault (ls : gmap string string) : gmap string string :=
  delete PromptStudio.customUnifiedPrompt ls.

(** The first half of the mount effect: legacy prompts are moved over
    when there is no custom prompt yet and the legacy entry has a truthy
    [agent]; whatever is thrown on the way is logged and dropped. *)
Definition migrate (E : Env) (ls : gmap string string) : gmap string string :=
  if present (ls !! customPrompts)
     && negb (present (ls !! PromptStudio.customUnifiedPrompt))
  then
    match parse E (default "" (ls !! customPrompts)) with
    | None => ls
    | Some parsed =>
        match Js.prop "agent" (Some parsed) with
        | Some (Some agent) =>
            if Js.truthy (Some agent)
            then delete customPrompts
                   (<[PromptStudio.customUnifiedPrompt := stringify E agent]> ls)
            else ls
        | _ => ls
        end
    end
  else ls.

(** The second half of the mount effect: the value [setEditedPrompt]
    receives, if it is called. *)
Definition loaded (E : Env) (ls : gmap string string) : option JSON :=
  match ls !! PromptStudio.customUnifiedPrompt with
  | Some customPrompt => if nonempty customPrompt then parse E customPrompt else None
  | None => None
  end.

(** The edited prompt once the component has mounted: its initial state
    is the built-in prompt, and the mount effect migrates and then loads
    the stored one. *)
Definition mounted_prompt (E : Env) (ls : gmap string string) : JSON :=
  default (JStr (UNIFIED_SYSTEM_PROMPT E)) (loaded E (migrate E ls)).

End PromptStore.

(** ** Availability of the local bridge *)

(** [isAvailable()] of [LocalReasoningService]: llama.cpp is there and
    some model is downloaded; whatever is thrown makes it [false]. *)
Definition bridge_isAvailable (ensureLlamaCpp : Result unit) (E : LocalBridge.Env) : bool :=
  match ensureLlamaCpp with
  | Throw _ => false
  | Ok _ =>
      match LocalBridge.getAllModels E with
      | Throw _ => false
      | Ok models => existsb snd models
      end
  end.

(** A string that does not begin with white space. *)
Definition starts_clean (s : string) : Prop :=
  match s with
  | String c _ => is_space c = false
  | EmptyString => True
  end.

(** The object the persisted preference map is read as when a
    preference is written: the stored object, the empty object when
    nothing usable is stored, and [None] when the stored text does not
    parse or is an array. *)
Definition persisted_fields (E : Env) (ls : gmap string string)
  : option (list (string * JSON)) :=
  match ls !! OPENAI_ENDPOINT_PREF_STORAGE_KEY with
  | Some raw =>
      if nonempty raw then
        match JSON_parse E raw with
        | Some (JObj fields) => Some fields
        | Some (JArr _) => None
        | Some _ => Some []
        | None => None
        end
      else Some []
  | None => Some []
  end.

(** The [maxOutputTokens] of a Gemini request body. *)
Definition body_maxOutputTokens (b : RequestBody) : option Z :=
  match b with
  | GeminiBody _ _ n => Some n
  | _ => None
  end.

(** ** More scenarios *)

Module Scenario2.

(** A parser and a serialiser that agree on strings without quotes and
    on flat objects of such strings: the texts of [Scenario], and a
    quoted string for itself. *)
Definition unquote (s : string) : option string :=
  match s with
  | String c rest =>
      if Ascii.eqb c "034" then
        match String.length rest with
        | O => None
        | S n =>
            if String.eqb (String.substring n 1 rest) Scenario.quote
               && negb (includes (String.substring 0 n rest) Scenario.quote)
            then Some (String.substring 0 n rest)
            else None
        end
      else None
  | EmptyString => None
  end.

Definition parse (s : string) : option JSON :=
  match unquote s with
  | Some str => Some (JStr str)
  | None => Scenario.parse s
  end.

(** [{"https://api.openai.com/v1":"chat"}] *)
Definition chat_preference_text : string :=
  "{" +:+ Scenario.quoted Scenario.openai_base +:+ ":" +:+ Scenario.quoted "chat" +:+ "}".

Definition parse_with_preferences (s : string) : option JSON :=
  if String.eqb s chat_preference_text
  then Some (JObj [(Scenario.openai_base, JStr "chat")])
  else parse s.

(** An environment whose [JSON] reads the preference map back. *)
Definition env (net : nat -> Request -> Result HttpResponse)
    (api : option ElectronAPI) : Env :=
  {| OPENAI_BASE := OPENAI_BASE (Scenario.env net api);
     GEMINI := GEMINI (Scenario.env net api);
     MIN_TOKENS_GEMINI := 100;
     MAX_TOKENS_GEMINI := 8192;
     TOKEN_MULTIPLIER := 2;
     buildApiUrl := buildApiUrl (Scenario.env net api);
     normalizeBaseUrl := normalizeBaseUrl (Scenario.env net api);
     isSecureEndpoint := isSecureEndpoint (Scenario.env net api);
     getSystemPrompt := getSystemPrompt (Scenario.env net api);
     JSON_parse := parse_with_preferences;
     JSON_stringify := Scenario.stringify;
     createApiRetryStrategy := createApiRetryStrategy (Scenario.env net api);
     fetch := net;
     electronAPI := api;
     getAllReasoningModels := getAllReasoningModels (Scenario.env net api) |}.

Definition offline_env : Env := env Scenario.no_network None.

(** A service that has fetched and cached the OpenAI key. *)
Definition with_cached_key : Service :=
  set_apiKeyCache {[ "openai" := "sk-openai" ]} (Scenario.fresh ∅).

(** An IPC bridge that holds a custom reasoning key, and an environment
    with it. *)
Definition api_with_custom_key : ElectronAPI :=
  {| getOpenAIKey := Ok None;
     getAnthropicKey := Ok None;
     getGeminiKey := Ok None;
     getGroqKey := Ok None;
     getCustomReasoningKey := Some (Ok (Some " sk-custom ")) |}.

Definition custom_key_env : Env :=
  Scenario.env Scenario.no_network (Some api_with_custom_key).

(** A service whose window stores a custom key in the local setting and
    whose cache holds an entry under the name "custom". *)
Definition with_local_custom_key : Service :=
  set_apiKeyCache {[ "custom" := "sk-cached" ]}
    (Scenario.fresh {[ "customReasoningApiKey" := " sk-local " ]}).

(** Collaborators of a service that never reaches Groq or the IPC
    reasoning calls successfully. *)
Definition collaborators : Collaborators :=
  {| GROQ_BASE := "https://api.groq.com/openai/v1";
     MIN_TOKENS := 100;
     MAX_TOKENS := 8192;
     cloudProviders :=
       [{| cloud_provider_id := "groq";
           cloud_provider_name := "Groq";
           cloud_models :=
             [{| cloud_id := "qwen/qwen3-32b";
                 cloud_name := "Qwen3 32B";
                 cloud_description := "";
                 disableThinking := Some true |}] |}];
     fetchChat := fun _ _ => Throw (Error "Failed to fetch");
     processAnthropicReasoning :=
       fun _ _ _ _ => Ok (ReplyFailure (Some "Anthropic API key not configured"));
     processLocalReasoning := fun _ _ _ _ => Ok (ReplySuccess (Some "Hello."));
     checkLocalReasoningAvailable := Ok false |}.

(** A session of a fresh service over a store. *)
Definition session (items : gmap string string) : Session :=
  {| service := Scenario.fresh items; chatSent := [] |}.


(** The prompt store with the parser and serialiser above. *)
Definition prompt_env : PromptStore.Env :=
  {| PromptStore.UNIFIED_SYSTEM_PROMPT := "Clean up the dictated text.";
     PromptStore.parse := parse;
     PromptStore.stringify := Scenario.stringify |}.

(** A local bridge with one model, which is not downloaded. *)
Definition bridge_without_models : LocalBridge.Env :=
  {| LocalBridge.REASONING_PROVIDER := None;
     LocalBridge.getAllModels := Ok [("qwen2.5-7b", false)];
     LocalBridge.runInference := fun _ _ _ => Ok "Hello.";
     LocalBridge.getSystemPrompt := fun _ _ => "Clean up the dictated text." |}.

Definition bridge_config : LocalBridge.Config :=
  {| LocalBridge.maxTokens := None;
     LocalBridge.temperature := None;
     LocalBridge.topK := None;
     LocalBridge.topP := None;
     LocalBridge.repeatPenalty := None;
     LocalBridge.contextSize := None;
     LocalBridge.threads := None;
     LocalBridge.customDictionary := None |}.

(** [{"candidates":[{"content":{"parts":[{"text":"  "}]}}]}] as a value. *)
Definition gemini_blank : JSON :=
  JObj [("candidates",
         JArr [JObj [("content", JObj [("parts", JArr [JObj [("text", JStr "  ")]])])]])].

(** The custom provider pointed at a base that names its dialect. *)
Definition custom_chat_base : Service :=
  Scenario.fresh
    (<["reasoningProvider" := "custom"]>
       (<["cloudReasoningBaseUrl" := "https://llm.example.com/v1/chat/completions"]> ∅)).

(** The "responses" endpoint is not allowed (405) and chat completions
    is down (500). *)
Definition failing_network : nat -> Request -> Result HttpResponse :=
  fun _ req =>
    if endsWith (endpoint req) "/responses"
    then Ok {| status := 405; statusText := "Method Not Allowed"; bodyText := "{}" |}
    else Ok {| status := 500; statusText := "Internal Server Error"; bodyText := "{}" |}.

Definition failing_env : Env := Scenario.env failing_network (Some Scenario.api_with_keys).

End Scenario2.

(** * Properties *)

(** ** Helper facts *)

Lemma nonempty_false (s : string) : nonempty s = false -> s = "".
Proof. destruct s; [reflexivity | discriminate]. Qed.

Lemma nonempty_true (s : string) : nonempty s = true -> s <> "".
Proof. destruct s; [discriminate | intros _ H; discriminate]. Qed.

(** ** Token budget *)

(** C9: [calculateMaxTokens(textLength, minTokens, maxTokens, multiplier)]
    is [textLength * multiplier] clamped into [[minTokens, maxTokens]]
    (for bounds in order), and the three values of the specification
    come out: 100, 2048 and 1000. *)
Theorem C9_calculateMaxTokens_clamp :
  forall textLength minTokens maxTokens multiplier : Z,
    minTokens <= maxTokens ->
    calculateMaxTokens textLength minTokens maxTokens multiplier
    = clamp (textLength * multiplier) minTokens maxTokens
    /\ calculateMaxTokens 10 100 2048 2 = 100
    /\ calculateMaxTokens 2000 100 2048 2 = 2048
    /\ calculateMaxTokens 500 100 2048 2 = 1000.
Proof.
  intros textLength minTokens maxTokens multiplier Hbounds.
  split; [| repeat split; reflexivity].
  unfold calculateMaxTokens, clamp.
  destruct (Z.ltb_spec (textLength * multiplier) minTokens);
    destruct (Z.ltb_spec maxTokens (textLength * multiplier)); lia.
Qed.

Lemma C9_witness :
  calculateMaxTokens 500 100 2048 2 = clamp (500 * 2) 100 2048
  /\ calculateMaxTokens 10 100 2048 2 = 100
  /\ calculateMaxTokens 2000 100 2048 2 = 2048
  /\ calculateMaxTokens 500 100 2048 2 = 1000.
Proof. apply (C9_calculateMaxTokens_clamp 500 100 2048 2). lia. Defined.

(** ** Provider resolution *)

(** C5, as stated, fails: a model id that contains "gemini" and not
    "gemma" resolves to "anthropic" when it also contains "claude". *)
Lemma C5_counterexample :
  includes "claude-gemini" "gemini" = true
  /\ includes "claude-gemini" "gemma" = false
  /\ getModelProvider [] "claude-gemini" None true = "anthropic"
  /\ getModelProvider [] "claude-gemini" None true <> "gemini".
Proof. repeat split; try reflexivity. discriminate. Qed.

(** C5 (amended): without an override and outside the registry, a model
    id that contains "gemini" but neither "gemma" nor "claude" resolves
    to "gemini", and a model id that contains "gemma" never does. *)
Theorem C5_gemini_gemma :
  forall (models : list (string * string)) (modelId : string)
         (preferredProvider : option string) (allowLocalFallback : bool),
    no_override preferredProvider = true ->
    List.find (fun m => String.eqb (fst m) modelId) models = None ->
    (includes modelId "gemini" = true ->
     includes modelId "gemma" = false ->
     includes modelId "claude" = false ->
     getModelProvider models modelId preferredProvider allowLocalFallback = "gemini")
    /\ (includes modelId "gemma" = true ->
        getModelProvider models modelId preferredProvider allowLocalFallback <> "gemini").
Proof.
  intros models modelId preferredProvider allowLocalFallback Hno Hfind.
  assert (Hpref :
    (nonempty (default "" (option_map (fun p => toLowerCase (trim p)) preferredProvider))
     && negb (String.eqb (default "" (option_map (fun p => toLowerCase (trim p)) preferredProvider)) "auto"))%bool
    = false).
  { unfold no_override in Hno. apply negb_true_iff in Hno. exact Hno. }
  unfold getModelProvider. cbv zeta. rewrite Hpref, Hfind.
  split.
  - intros Hgemini Hgemma Hclaude. rewrite Hclaude, Hgemini, Hgemma. reflexivity.
  - intros Hgemma. rewrite Hgemma, andb_false_r.
    repeat match goal with
           | |- context [if ?b then _ else _] => destruct b
           end; discriminate.
Qed.

Lemma C5_witness :
  getModelProvider [] "gemini-2.5-pro" None true = "gemini"
  /\ (includes "gemini-2.5-pro" "gemma" = true ->
      getModelProvider [] "gemini-2.5-pro" None true <> "gemini").
Proof.
  destruct (C5_gemini_gemma [] "gemini-2.5-pro" None true eq_refl eq_refl) as [H1 H2].
  split; [exact (H1 eq_refl eq_refl eq_refl) | exact H2].
Defined.

(** ** Endpoint resolution *)

(** C2, as stated, fails: with "responses" remembered for a base, both
    candidates are returned, not the "responses" one alone. *)
Lemma C2_counterexample :
  endsWith (toLowerCase Scenario.openai_base) "/responses" = false
  /\ endsWith (toLowerCase Scenario.openai_base) "/chat/completions" = false
  /\ fst (getStoredOpenAiPreference Scenario.offline_env Scenario.openai_base
            Scenario.prefers_responses) = Some Responses
  /\ fst (getOpenAIEndpointCandidates Scenario.offline_env Scenario.openai_base
            Scenario.prefers_responses)
     = [{| url := "https://api.openai.com/v1/responses"; type := Responses |};
        {| url := "https://api.openai.com/v1/chat/completions"; type := Chat |}]
  /\ fst (getOpenAIEndpointCandidates Scenario.offline_env Scenario.openai_base
            Scenario.prefers_responses)
     <> [{| url := "https://api.openai.com/v1/responses"; type := Responses |}].
Proof. repeat split; try (vm_compute; reflexivity). vm_compute. discriminate. Qed.

(** C2 (amended): for a base without a dialect suffix, the candidates are
    the chat candidate alone when "chat" is the remembered preference,
    and both dialects, "responses" first and chat second, when
    "responses" or nothing is remembered. *)
Theorem C2_candidates_by_preference :
  forall (E : Env) (base : string) (st : Service),
    endsWith (toLowerCase base) "/responses" = false ->
    endsWith (toLowerCase base) "/chat/completions" = false ->
    fst (getOpenAIEndpointCandidates E base st)
    = match fst (getStoredOpenAiPreference E base st) with
      | Some Chat =>
          [{| url := buildApiUrl E base "/chat/completions"; type := Chat |}]
      | Some Responses | None =>
          [{| url := buildApiUrl E base "/responses"; type := Responses |};
           {| url := buildApiUrl E base "/chat/completions"; type := Chat |}]
      end.
Proof.
  intros E base st Hresponses Hchat.
  unfold getOpenAIEndpointCandidates. cbv zeta.
  rewrite Hresponses, Hchat. simpl orb. cbv iota.
  destruct (getStoredOpenAiPreference E base st) as [[[|]|] st']; reflexivity.
Qed.

Lemma C2_witness :
  fst (getOpenAIEndpointCandidates Scenario.offline_env
         Scenario.openai_base Scenario.prefers_responses)
  = [{| url := "https://api.openai.com/v1/responses"; type := Responses |};
     {| url := "https://api.openai.com/v1/chat/completions"; type := Chat |}].
Proof.
  exact (C2_candidates_by_preference Scenario.offline_env
           Scenario.openai_base Scenario.prefers_responses eq_refl eq_refl).
Defined.

(** C6: with the custom provider selected, a base URL on Anthropic's
    host (which the normaliser leaves on that host), a blank base URL and
    a base URL that fails the secure-transport check all resolve to the
    default OpenAI base. *)
Theorem C6_custom_base_falls_back :
  forall (E : Env) (st : Service) (ls : gmap string string),
    localStorage st = Some ls ->
    ls !! "reasoningProvider" = Some "custom" ->
    (trim (default "" (ls !! "cloudReasoningBaseUrl")) = "https://api.anthropic.com/v1" ->
     (forall n, normalizeBaseUrl E "https://api.anthropic.com/v1" = Ok n ->
                nonempty n = true -> includes n "api.anthropic.com" = true) ->
     getConfiguredOpenAIBase E st = OPENAI_BASE E)
    /\ (trim (default "" (ls !! "cloudReasoningBaseUrl")) = "" ->
        getConfiguredOpenAIBase E st = OPENAI_BASE E)
    /\ (forall n,
          normalizeBaseUrl E (trim (default "" (ls !! "cloudReasoningBaseUrl"))) = Ok n ->
          isSecureEndpoint E (if nonempty n then n else OPENAI_BASE E) <> Ok true ->
          getConfiguredOpenAIBase E st = OPENAI_BASE E).
Proof.
  intros E st ls Hls Hprovider.
  unfold getConfiguredOpenAIBase. rewrite Hls, Hprovider. simpl.
  repeat split.
  - intros Hurl Hkeeps. rewrite Hurl. simpl.
    destruct (normalizeBaseUrl E "https://api.anthropic.com/v1") as [n|e] eqn:Hn;
      [| reflexivity].
    destruct (nonempty n) eqn:Hne.
    + rewrite (Hkeeps n eq_refl Hne). rewrite orb_true_r. reflexivity.
    + repeat match goal with
             | |- context [if ?b then _ else _] => destruct b
             | |- context [match ?r with Ok _ => _ | Throw _ => _ end] => destruct r
             end; reflexivity.
  - intros Hblank. rewrite Hblank. reflexivity.
  - intros n Hn Hinsecure.
    destruct (nonempty (trim (default "" (ls !! "cloudReasoningBaseUrl"))));
      [| reflexivity].
    simpl. rewrite Hn.
    destruct (isSecureEndpoint E (if nonempty n then n else OPENAI_BASE E))
      as [[|]|e]; try congruence;
      repeat match goal with
             | |- context [if ?b then _ else _] => destruct b
             end; reflexivity.
Qed.

Lemma C6_witness :
  getConfiguredOpenAIBase Scenario.offline_env
    Scenario.custom_anthropic
  = "https://api.openai.com/v1".
Proof.
  refine (proj1 (C6_custom_base_falls_back Scenario.offline_env
                   Scenario.custom_anthropic _ eq_refl _) _ _).
  - vm_compute. reflexivity.
  - vm_compute. reflexivity.
  - intros n Hn _. injection Hn as <-. vm_compute. reflexivity.
Defined.

(** ** Credentials *)

(** C3, as stated, fails: for the custom provider with no key in the IPC
    bridge and none in the local setting, the lookup succeeds with the
    empty secret. *)
Lemma C3_counterexample :
  getApiKey Scenario.keyless_env
    Custom (Scenario.fresh ∅)
  = (Ok "", Scenario.fresh ∅).
Proof. vm_compute. reflexivity. Qed.

(** C3 (amended): for a provider other than "custom", the lookup fails
    with the provider's key-missing error whenever neither the cache nor
    the secure store yields a non-empty secret, and what it returns as a
    success is never empty.  For "custom" the lookup does not fail and
    does not consult the cache: whatever the cache holds, it returns the
    same key and leaves the state as it is.  That key is the trimmed key
    of the IPC bridge when the bridge yields one that is not blank;
    when it yields none (no bridge, no getter, a rejection, [null]) or a
    blank one, it is the trimmed [customReasoningApiKey] setting of the
    window's store, and empty when there is no such setting. *)
Theorem C3_credential_lookup :
  forall (E : Env) (provider : Provider) (st : Service),
    match provider with
    | Custom =>
        exists k : string,
          getApiKey E Custom st = (Ok k, st)
          /\ (forall cache : gmap string string,
                getApiKey E Custom (set_apiKeyCache cache st)
                = (Ok k, set_apiKeyCache cache st))
          /\ (forall api ipc,
                electronAPI E = Some api ->
                getCustomReasoningKey api = Some (Ok (Some ipc)) ->
                trim ipc <> "" ->
                k = trim ipc)
          /\ ((forall api ipc,
                 electronAPI E = Some api ->
                 getCustomReasoningKey api = Some (Ok (Some ipc)) ->
                 trim ipc = "") ->
              k = trim (match localStorage st with
                        | Some items => default "" (items !! "customReasoningApiKey")
                        | None => ""
                        end))
    | _ =>
        (no_key (apiKeyCache st !! provider_name provider) = true ->
         fetched_key E provider = None ->
         getApiKey E provider st = (Throw (key_missing provider), st))
        /\ (forall k st', getApiKey E provider st = (Ok k, st') -> k <> "")
    end.
Proof.
  intros E provider st.
  assert (Hother : provider <> Custom ->
    (no_key (apiKeyCache st !! provider_name provider) = true ->
     fetched_key E provider = None ->
     getApiKey E provider st = (Throw (key_missing provider), st))
    /\ (forall k st', getApiKey E provider st = (Ok k, st') -> k <> "")).
  { intros Hp. split.
    - intros Hcache Hfetch.
      unfold getApiKey, fetched_key, key_missing in *.
      destruct provider; try congruence; rewrite Hcache;
        (destruct (electronAPI E) as [api|];
         [ destruct (keyGetter _ api) as [[k|]|e];
           [ destruct (nonempty k) eqn:Hk; [discriminate |]
           | | ]
         | ]);
        cbv iota beta;
        repeat match goal with
               | |- context [apiKeyCache st !! ?n] =>
                   destruct (apiKeyCache st !! n) as [c|] eqn:?; simpl in Hcache
               | H : negb (nonempty ?c) = true |- _ =>
                   apply negb_true_iff in H; rewrite ?H
               | H : nonempty ?k = false |- _ => rewrite ?H; clear H
               end; try reflexivity.
    - intros k st' Hok.
      unfold getApiKey in Hok.
      destruct provider; try congruence;
        repeat match type of Hok with
               | context [match ?x with _ => _ end] =>
                   let H := fresh "Hd" in destruct x eqn:H; try discriminate
               end;
        injection Hok as <- _; apply nonempty_true; assumption. }
  destruct provider; try (apply Hother; discriminate).
  exists (getCustomApiKey E st).
  split; [reflexivity |].
  split; [intros cache; reflexivity |].
  unfold getCustomApiKey, getItem_or_empty.
  split.
  - intros api ipc Hapi Hget Hclean.
    rewrite Hapi, Hget.
    destruct (nonempty ipc) eqn:Hipc.
    + destruct (nonempty (trim ipc)) eqn:Htrim; [reflexivity |].
      apply nonempty_false in Htrim. contradiction.
    + apply nonempty_false in Hipc. subst ipc. contradiction Hclean. reflexivity.
  - intros Hblank.
    destruct (electronAPI E) as [api|]; [| reflexivity].
    destruct (getCustomReasoningKey api) as [[[ipc|]|e]|] eqn:Hget;
      try reflexivity.
    specialize (Hblank api ipc eq_refl Hget).
    rewrite Hblank. cbn [nonempty negb].
    rewrite orb_true_r. reflexivity.
Qed.

Lemma C3_witness :
  getApiKey Scenario.keyless_env
    OpenAI (Scenario.fresh ∅)
  = (Throw (Error "Openai API key not configured"), Scenario.fresh ∅)
  /\ getApiKey Scenario2.custom_key_env
       Custom Scenario2.with_local_custom_key
     = (Ok "sk-custom", Scenario2.with_local_custom_key)
  /\ getApiKey Scenario.keyless_env
       Custom Scenario2.with_local_custom_key
     = (Ok "sk-local", Scenario2.with_local_custom_key).
Proof.
  split; [| split].
  - exact (proj1 (C3_credential_lookup
                    Scenario.keyless_env
                    OpenAI (Scenario.fresh ∅)) eq_refl eq_refl).
  - destruct (C3_credential_lookup Scenario2.custom_key_env Custom
                Scenario2.with_local_custom_key) as (k & Hrun & _ & Hipc & _).
    rewrite Hrun.
    rewrite (Hipc Scenario2.api_with_custom_key " sk-custom " eq_refl eq_refl);
      [reflexivity | vm_compute; discriminate].
  - destruct (C3_credential_lookup Scenario.keyless_env Custom
                Scenario2.with_local_custom_key) as (k & Hrun & _ & _ & Hlocal).
    rewrite Hrun. rewrite Hlocal; [reflexivity |].
    intros api ipc Hapi Hget. vm_compute in Hapi. injection Hapi as <-.
    vm_compute in Hget. discriminate.
Defined.

(** ** What the resolver and the credential lookup leave untouched *)

Lemma getApiKey_frame (E : Env) (provider : Provider) (st st1 : Service) (r : Result string) :
  getApiKey E provider st = (r, st1) ->
  isProcessing st1 = isProcessing st
  /\ openAiEndpointPreference st1 = openAiEndpointPreference st
  /\ localStorage st1 = localStorage st
  /\ sent st1 = sent st.
Proof.
  unfold getApiKey. intros H.
  destruct provider; repeat break_inner_in H;
    injection H as _ <-; repeat split; reflexivity.
Qed.

Lemma getStored_frame (E : Env) (base : string) (st : Service) :
  let '(p, st') := getStoredOpenAiPreference E base st in
  isProcessing st' = isProcessing st
  /\ localStorage st' = localStorage st
  /\ sent st' = sent st
  /\ apiKeyCache st' = apiKeyCache st
  /\ openAiEndpointPreference st'
     = match p with
       | Some d => <[base := d]> (openAiEndpointPreference st)
       | None => openAiEndpointPreference st
       end.
Proof.
  unfold getStoredOpenAiPreference.
  destruct (openAiEndpointPreference st !! base) as [d|] eqn:Hmem.
  - repeat split. symmetry. apply insert_id. exact Hmem.
  - repeat break_inner_goal; repeat split; simpl; congruence.
Qed.

(** The stored preference depends on the in-memory map and the store
    only. *)
Lemma getStored_congr (E : Env) (base : string) (st st' : Service) :
  openAiEndpointPreference st = openAiEndpointPreference st' ->
  localStorage st = localStorage st' ->
  fst (getStoredOpenAiPreference E base st) = fst (getStoredOpenAiPreference E base st').
Proof.
  intros Hpref Hls. unfold getStoredOpenAiPreference. rewrite Hpref, Hls.
  repeat break_inner_goal; reflexivity.
Qed.

Lemma getStored_hit (E : Env) (base : string) (d : Dialect) (st : Service) :
  openAiEndpointPreference st !! base = Some d ->
  getStoredOpenAiPreference E base st = (Some d, st).
Proof. intros H. unfold getStoredOpenAiPreference. rewrite H. reflexivity. Qed.

Lemma remember_frame (E : Env) (base : string) (d : Dialect) (st : Service) :
  isProcessing (rememberOpenAiPreference E base d st) = isProcessing st
  /\ sent (rememberOpenAiPreference E base d st) = sent st
  /\ openAiEndpointPreference (rememberOpenAiPreference E base d st)
     = <[base := d]> (openAiEndpointPreference st).
Proof.
  unfold rememberOpenAiPreference. cbv zeta.
  repeat break_inner_goal; repeat split; simpl; congruence.
Qed.

Lemma candidates_frame (E : Env) (base : string) (st : Service) :
  let '(cands, st') := getOpenAIEndpointCandidates E base st in
  cands <> []
  /\ isProcessing st' = isProcessing st
  /\ localStorage st' = localStorage st
  /\ sent st' = sent st.
Proof.
  unfold getOpenAIEndpointCandidates. cbv zeta.
  destruct (endsWith (toLowerCase base) "/responses"
            || endsWith (toLowerCase base) "/chat/completions")%bool.
  - repeat split; discriminate.
  - pose proof (getStored_frame E base st) as Hf.
    destruct (getStoredOpenAiPreference E base st) as [p st'].
    destruct Hf as (Hp & Hl & Hs & _).
    destruct p as [[|]|]; repeat split; try assumption; discriminate.
Qed.

Lemma withRetry_first_try {A} (f : M A) (strategy : RetryStrategy)
    (st st' : Service) (a : A) :
  f st = (Ok a, st') -> withRetry f strategy st = (Ok a, st').
Proof.
  intros H. unfold withRetry.
  destruct (maxRetries strategy); simpl; rewrite H; reflexivity.
Qed.

Lemma ok_status (res : HttpResponse) : status res = 404 -> ok res = false.
Proof. intros H. unfold ok. rewrite H. reflexivity. Qed.

(** ** The OpenAI path *)

Lemma try_candidates_first_ok (E : Env) (base apiKey model : string)
    (messages : list Message) (older : bool) (config : ReasoningConfig)
    (c : Candidate) (rest : list Candidate) (lastError : option Exn)
    (st : Service) (res : HttpResponse) (response : JSON) :
  fetch E (length (sent st)) (openai_request c apiKey model messages older config) = Ok res ->
  ok res = true ->
  JSON_parse E (bodyText res) = Some response ->
  try_candidates E base apiKey model messages older config (c :: rest) lastError st
  = (Ok response,
     rememberOpenAiPreference E base (type c)
       (set_sent (sent st ++ [openai_request c apiKey model messages older config]) st)).
Proof.
  intros Hfetch Hok Hparse. simpl. unfold do_fetch. rewrite Hfetch, Hok. simpl.
  unfold json. rewrite Hparse. reflexivity.
Qed.

(** When the first request of a call is answered with a success status
    and a JSON body, the [try] block of [processWithOpenAI] normalises
    that body. *)
Lemma openai_body_first_ok (E : Env) (text model : string) (agentName : option string)
    (config : ReasoningConfig) (apiKey : string) (st : Service)
    (res : HttpResponse) (response : JSON) :
  (forall req, fetch E (length (sent st)) req = Ok res) ->
  ok res = true ->
  JSON_parse E (bodyText res) = Some response ->
  fst (openai_body E text model agentName config apiKey st)
  = match openai_response_text response with
    | Throw e => Throw e
    | Ok responseText => if negb (nonempty responseText) then Ok text else Ok responseText
    end.
Proof.
  intros Hfetch Hok Hparse. unfold openai_body. cbv zeta.
  pose proof (candidates_frame E (getConfiguredOpenAIBase E st) st) as Hc.
  destruct (getOpenAIEndpointCandidates E (getConfiguredOpenAIBase E st) st)
    as [cands st1].
  destruct Hc as (Hne & _ & _ & Hsent1).
  pose proof (getStored_frame E (getConfiguredOpenAIBase E st) st1) as Hs.
  destruct (getStoredOpenAiPreference E (getConfiguredOpenAIBase E st) st1)
    as [p st2].
  destruct Hs as (_ & _ & Hsent2 & _). simpl snd.
  destruct cands as [|c rest]; [congruence |].
  rewrite (withRetry_first_try _ _ _ _ _
             (try_candidates_first_ok E _ apiKey model _ _ config c rest None
                st2 res response
                (eq_ind_r (fun l => fetch E (length l) _ = Ok res)
                   (eq_ind_r (fun l => fetch E (length l) _ = Ok res)
                      (Hfetch _) Hsent1) Hsent2)
                Hok Hparse)).
  destruct (openai_response_text response) as [t|e]; [| reflexivity].
  destruct (negb (nonempty t)); reflexivity.
Qed.

(** The response of the specification's example,
    [choices[0].message.content === ""], holds no text. *)
Lemma chat_empty_has_no_text :
  openai_response_text Scenario.chat_empty = Ok "".
Proof. reflexivity. Qed.

(** What [processWithOpenAI] returns is the extracted text, which is not
    empty, or the input text. *)
Lemma openai_body_never_blanks (E : Env) (text model : string)
    (agentName : option string) (config : ReasoningConfig) (apiKey : string)
    (st : Service) (t : string) :
  fst (openai_body E text model agentName config apiKey st) = Ok t ->
  t = text \/ t <> "".
Proof.
  unfold openai_body. cbv zeta.
  destruct (getOpenAIEndpointCandidates E _ st) as [cands st1].
  destruct (withRetry _ _ _) as [[response|e] st3]; [| discriminate].
  destruct (openai_response_text response) as [responseText|e]; [| discriminate].
  destruct (nonempty responseText) eqn:Hne; cbn [negb fst]; intros [= <-].
  - right. apply nonempty_true. exact Hne.
  - left. reflexivity.
Qed.

Lemma processWithOpenAI_never_blanks (E : Env) (text model : string)
    (agentName : option string) (config : ReasoningConfig) (st : Service)
    (t : string) :
  fst (processWithOpenAI E text model agentName config st) = Ok t ->
  t = text \/ t <> "".
Proof.
  unfold processWithOpenAI. cbv zeta.
  destruct (isProcessing st); [discriminate |].
  destruct (getApiKey E _ st) as [[apiKey|e] st1]; [| discriminate].
  unfold try_finally.
  pose proof (openai_body_never_blanks E text model agentName config apiKey
                (set_isProcessing true st1) t) as H.
  destruct (openai_body E text model agentName config apiKey
              (set_isProcessing true st1)) as [r st'].
  exact H.
Qed.

(** C4: when the response to an OpenAI call holds no non-blank text (as a
    chat-completions response with an empty message content does),
    [processWithOpenAI] returns the input text unchanged: no error, and
    no empty string in place of a text that was not empty.  Whatever the
    response, a text it returns is the input text or is not empty. *)
Theorem C4_empty_response_returns_input :
  forall (E : Env) (text model : string) (agentName : option string)
         (config : ReasoningConfig) (st st1 : Service) (apiKey : string)
         (res : HttpResponse) (response : JSON),
    isProcessing st = false ->
    getApiKey E (openai_key_provider st) st = (Ok apiKey, st1) ->
    (forall req, fetch E (length (sent st)) req = Ok res) ->
    ok res = true ->
    JSON_parse E (bodyText res) = Some response ->
    openai_response_text response = Ok "" ->
    fst (processWithOpenAI E text model agentName config st) = Ok text
    /\ (text <> "" -> fst (processWithOpenAI E text model agentName config st) <> Ok "")
    /\ (forall E' st' t,
          fst (processWithOpenAI E' text model agentName config st') = Ok t ->
          t = text \/ t <> "").
Proof.
  intros E text model agentName config st st1 apiKey res response
         Hidle Hkey Hfetch Hok Hparse Hblank.
  assert (Hresult : fst (processWithOpenAI E text model agentName config st) = Ok text).
  { unfold processWithOpenAI. cbv zeta. rewrite Hidle.
    unfold openai_key_provider in Hkey. rewrite Hkey.
    destruct (getApiKey_frame E _ st st1 _ Hkey) as (_ & _ & _ & Hsent).
    unfold try_finally.
    pose proof (openai_body_first_ok E text model agentName config apiKey
                  (set_isProcessing true st1) res response) as Hbody.
    destruct (openai_body E text model agentName config apiKey
                (set_isProcessing true st1)) as [r st'].
    simpl in Hbody |- *. rewrite Hbody; try assumption.
    - rewrite Hblank. reflexivity.
    - rewrite Hsent. exact Hfetch. }
  split; [exact Hresult |]. split.
  - intros Hne. rewrite Hresult. congruence.
  - intros E' st' t. apply processWithOpenAI_never_blanks.
Qed.

Lemma C4_witness :
  fst (processWithOpenAI
         Scenario.empty_chat_env
         "um hello" "gpt-4o" None Scenario.no_config (Scenario.fresh ∅))
  = Ok "um hello".
Proof.
  refine (proj1 (C4_empty_response_returns_input
                   Scenario.empty_chat_env
                   "um hello" "gpt-4o" None Scenario.no_config (Scenario.fresh ∅)
                   (set_apiKeyCache {[ "openai" := "sk-openai" ]} (Scenario.fresh ∅))
                   "sk-openai"
                   {| status := 200; statusText := "OK";
                      bodyText := Scenario.chat_empty_text |}
                   Scenario.chat_empty _ _ _ _ _ _)).
  - reflexivity.
  - vm_compute. reflexivity.
  - intros req. reflexivity.
  - reflexivity.
  - vm_compute. reflexivity.
  - reflexivity.
Defined.

(** ** The Gemini path *)

(** When the first request of a call is answered with a success status
    and a JSON body, the [try] block of [processWithGemini] normalises
    that body. *)
Lemma gemini_body_first_ok (E : Env) (text model : string) (agentName : option string)
    (config : ReasoningConfig) (apiKey : string) (st : Service)
    (res : HttpResponse) (response : JSON) :
  (forall req, fetch E (length (sent st)) req = Ok res) ->
  ok res = true ->
  JSON_parse E (bodyText res) = Some response ->
  fst (gemini_body E text model agentName config apiKey st)
  = gemini_response_text response.
Proof.
  intros Hfetch Hok Hparse. unfold gemini_body.
  erewrite withRetry_first_try; [reflexivity |].
  unfold gemini_attempt, do_fetch. rewrite Hfetch, Hok. simpl.
  unfold json. rewrite Hparse. reflexivity.
Qed.

Lemma processWithGemini_first_ok (E : Env) (text model : string)
    (agentName : option string) (config : ReasoningConfig) (st st1 : Service)
    (apiKey : string) (res : HttpResponse) (response : JSON) :
  isProcessing st = false ->
  getApiKey E Gemini st = (Ok apiKey, st1) ->
  (forall req, fetch E (length (sent st)) req = Ok res) ->
  ok res = true ->
  JSON_parse E (bodyText res) = Some response ->
  fst (processWithGemini E text model agentName config st)
  = gemini_response_text response.
Proof.
  intros Hidle Hkey Hfetch Hok Hparse.
  unfold processWithGemini. rewrite Hidle, Hkey.
  destruct (getApiKey_frame E _ st st1 _ Hkey) as (_ & _ & _ & Hsent).
  unfold try_finally.
  pose proof (gemini_body_first_ok E text model agentName config apiKey
                (set_isProcessing true st1) res response) as Hbody.
  destruct (gemini_body E text model agentName config apiKey
              (set_isProcessing true st1)) as [r st'].
  simpl in Hbody |- *. apply Hbody; try assumption.
  rewrite Hsent. exact Hfetch.
Qed.

(** C7: a Gemini response whose sole candidate has no text part makes
    [processWithGemini] fail with the token-limit error when the
    candidate's [finishReason] is "MAX_TOKENS", and with the generic
    "Gemini returned empty response" error otherwise; the two errors
    differ. *)
Theorem C7_gemini_token_limit :
  forall (E : Env) (text model : string) (agentName : option string)
         (config : ReasoningConfig) (st st1 : Service) (apiKey : string)
         (res : HttpResponse) (response : JSON) (candidate : list (string * JSON)),
    isProcessing st = false ->
    getApiKey E Gemini st = (Ok apiKey, st1) ->
    (forall req, fetch E (length (sent st)) req = Ok res) ->
    ok res = true ->
    JSON_parse E (bodyText res) = Some response ->
    Js.opt_prop "candidates" (Some response) = Some (JArr [JObj candidate]) ->
    has_no_text (Some (JObj candidate)) = true ->
    (Js.assoc "finishReason" candidate = Some (JStr "MAX_TOKENS") ->
     fst (processWithGemini E text model agentName config st) = Throw gemini_token_limit)
    /\ (Js.assoc "finishReason" candidate <> Some (JStr "MAX_TOKENS") ->
        fst (processWithGemini E text model agentName config st) = Throw gemini_empty)
    /\ gemini_token_limit <> gemini_empty.
Proof.
  intros E text model agentName config st st1 apiKey res response candidate
         Hidle Hkey Hfetch Hok Hparse Hcands Hnotext.
  rewrite (processWithGemini_first_ok E text model agentName config st st1 apiKey
             res response Hidle Hkey Hfetch Hok Hparse).
  assert (Hnorm : gemini_response_text response
                  = if Js.eq_str (Js.assoc "finishReason" candidate) "MAX_TOKENS"
                    then Throw gemini_token_limit else Throw gemini_empty).
  { unfold gemini_response_text.
    unfold has_no_text in Hnotext.
    destruct response; simpl in Hcands; try discriminate.
    cbn [Js.prop Js.opt_prop] in *. rewrite Hcands.
    cbn [Js.truthy Js.opt_first Js.opt_prop negb orb head] in *.
    rewrite Hnotext. reflexivity. }
  rewrite Hnorm. repeat split.
  - intros Hreason. rewrite Hreason. reflexivity.
  - intros Hreason.
    destruct (Js.assoc "finishReason" candidate) as [[| | |s| |]|]; try reflexivity.
    simpl. destruct (String.eqb_spec s "MAX_TOKENS") as [->|]; [| reflexivity].
    congruence.
  - discriminate.
Qed.

Lemma C7_witness :
  fst (processWithGemini
         Scenario.max_tokens_env
         "um hello" "gemini-2.5-flash" None Scenario.no_config (Scenario.fresh ∅))
  = Throw gemini_token_limit.
Proof.
  refine (proj1 (C7_gemini_token_limit
                   Scenario.max_tokens_env
                   "um hello" "gemini-2.5-flash" None Scenario.no_config
                   (Scenario.fresh ∅)
                   (set_apiKeyCache {[ "gemini" := "gm-key" ]} (Scenario.fresh ∅))
                   "gm-key"
                   {| status := 200; statusText := "OK";
                      bodyText := Scenario.gemini_max_tokens_text |}
                   Scenario.gemini_max_tokens
                   [("finishReason", JStr "MAX_TOKENS")] _ _ _ _ _ _ _) _).
  - reflexivity.
  - vm_compute. reflexivity.
  - intros req. reflexivity.
  - reflexivity.
  - vm_compute. reflexivity.
  - reflexivity.
  - reflexivity.
  - reflexivity.
Defined.

(** ** Dialect probing *)

Lemma candidates_by_preference (E : Env) (base : string) (st : Service) :
  endsWith (toLowerCase base) "/responses" = false ->
  endsWith (toLowerCase base) "/chat/completions" = false ->
  fst (getOpenAIEndpointCandidates E base st)
  = match fst (getStoredOpenAiPreference E base st) with
    | Some Chat => [chat_candidate E base]
    | Some Responses | None => [responses_candidate E base; chat_candidate E base]
    end.
Proof.
  intros Hresponses Hchat.
  unfold getOpenAIEndpointCandidates. cbv zeta.
  rewrite Hresponses, Hchat. simpl orb. cbv iota.
  destruct (getStoredOpenAiPreference E base st) as [[[|]|] st']; reflexivity.
Qed.

Lemma getConfiguredOpenAIBase_congr (E : Env) (st st' : Service) :
  localStorage st = localStorage st' ->
  getConfiguredOpenAIBase E st = getConfiguredOpenAIBase E st'.
Proof. intros H. unfold getConfiguredOpenAIBase. rewrite H. reflexivity. Qed.

(** A 404 on the "responses" candidate sends the loop on to the other
    candidates, with an error in hand and the request on record. *)
Lemma try_candidates_404_continues (E : Env) (base apiKey model : string)
    (messages : list Message) (older : bool) (config : ReasoningConfig)
    (rest : list Candidate) (st : Service) (res404 : HttpResponse) :
  fetch E (length (sent st))
    (openai_request (responses_candidate E base) apiKey model messages older config)
  = Ok res404 ->
  status res404 = 404 ->
  exists (e : Exn) (s : Service),
    sent s
    = (sent st
       ++ [openai_request (responses_candidate E base) apiKey model messages older config])%list
    /\ try_candidates E base apiKey model messages older config
         (responses_candidate E base :: rest) None st
       = try_candidates E base apiKey model messages older config rest (Some e) s.
Proof.
  intros H404 Hstatus.
  cbn [try_candidates]. unfold do_fetch at 1. rewrite H404.
  rewrite (ok_status res404 Hstatus). cbn [negb].
  destruct (openai_error_message _ _) as [msg|].
  - cbn [type responses_candidate]. rewrite Hstatus.
    cbn [is_unsupported_status Z.eqb orb].
    eexists. eexists. split; [| reflexivity].
    destruct (remember_frame E base Chat
                (set_sent (sent st ++ [openai_request (responses_candidate E base)
                                         apiKey model messages older config])%list st))
      as (_ & Hsent & _).
    rewrite Hsent. reflexivity.
  - cbn [type responses_candidate].
    eexists. eexists. split; [| reflexivity]. reflexivity.
Qed.

(** The probing loop on both candidates: a 404 on "responses", then a
    success on chat completions. *)
Lemma try_candidates_404_then_ok (E : Env) (base apiKey model : string)
    (messages : list Message) (older : bool) (config : ReasoningConfig)
    (st : Service) (res404 res200 : HttpResponse) (response : JSON) :
  fetch E (length (sent st))
    (openai_request (responses_candidate E base) apiKey model messages older config)
  = Ok res404 ->
  status res404 = 404 ->
  fetch E (S (length (sent st)))
    (openai_request (chat_candidate E base) apiKey model messages older config)
  = Ok res200 ->
  ok res200 = true ->
  JSON_parse E (bodyText res200) = Some response ->
  exists st',
    try_candidates E base apiKey model messages older config
      [responses_candidate E base; chat_candidate E base] None st
    = (Ok response, st')
    /\ openAiEndpointPreference st' !! base = Some Chat
    /\ sent st'
       = (sent st
          ++ [openai_request (responses_candidate E base) apiKey model messages older config;
              openai_request (chat_candidate E base) apiKey model messages older config])%list.
Proof.
  intros H404 Hstatus H200 Hok Hparse.
  assert (Hnext : forall (e : Exn) (s : Service),
    sent s = (sent st
              ++ [openai_request (responses_candidate E base) apiKey model messages older config])%list ->
    exists st',
      try_candidates E base apiKey model messages older config
        [chat_candidate E base] (Some e) s = (Ok response, st')
      /\ openAiEndpointPreference st' !! base = Some Chat
      /\ sent st'
         = (sent st
            ++ [openai_request (responses_candidate E base) apiKey model messages older config;
                openai_request (chat_candidate E base) apiKey model messages older config])%list).
  { intros e s Hs.
    eexists. split; [| split].
    - apply try_candidates_first_ok with (res := res200); try assumption.
      rewrite Hs, length_app, Nat.add_comm. exact H200.
    - destruct (remember_frame E base Chat
                  (set_sent (sent s ++ [openai_request (chat_candidate E base)
                                          apiKey model messages older config])%list s))
        as (_ & _ & Hpref).
      simpl type. rewrite Hpref. apply lookup_insert_eq.
    - destruct (remember_frame E base Chat
                  (set_sent (sent s ++ [openai_request (chat_candidate E base)
                                          apiKey model messages older config])%list s))
        as (_ & Hsent & _).
      simpl type. rewrite Hsent. simpl. rewrite Hs, <- app_assoc. reflexivity. }
  destruct (try_candidates_404_continues E base apiKey model messages older config
              [chat_candidate E base] st res404 H404 Hstatus)
    as (e & s & Hs & Hstep).
  rewrite Hstep. apply Hnext. exact Hs.
Qed.

(** C1: when the "responses" candidate of an OpenAI call answers 404 and
    the chat-completions candidate answers 200 with extractable text,
    [processWithOpenAI] succeeds with that text, "chat" is remembered for
    the base, and the candidates for the same base are then the chat
    candidate alone. *)
Theorem C1_responses_404_falls_back_to_chat :
  forall (E : Env) (text model : string) (agentName : option string)
         (config : ReasoningConfig) (st st1 : Service) (apiKey : string)
         (res404 res200 : HttpResponse) (response : JSON) (responseText : string),
    let base := getConfiguredOpenAIBase E st in
    let messages := openai_messages E text agentName (localStorage st) in
    isProcessing st = false ->
    getApiKey E (openai_key_provider st) st = (Ok apiKey, st1) ->
    endsWith (toLowerCase base) "/responses" = false ->
    endsWith (toLowerCase base) "/chat/completions" = false ->
    fst (getStoredOpenAiPreference E base st) <> Some Chat ->
    fetch E (length (sent st))
      (openai_request (responses_candidate E base) apiKey model messages
         (is_older_model model) config) = Ok res404 ->
    status res404 = 404 ->
    fetch E (S (length (sent st)))
      (openai_request (chat_candidate E base) apiKey model messages
         (is_older_model model) config) = Ok res200 ->
    status res200 = 200 ->
    JSON_parse E (bodyText res200) = Some response ->
    openai_response_text response = Ok responseText ->
    responseText <> "" ->
    fst (processWithOpenAI E text model agentName config st) = Ok responseText
    /\ fst (getStoredOpenAiPreference E base
              (snd (processWithOpenAI E text model agentName config st)))
       = Some Chat
    /\ fst (getOpenAIEndpointCandidates E base
              (snd (processWithOpenAI E text model agentName config st)))
       = [chat_candidate E base]
    /\ isProcessing (snd (processWithOpenAI E text model agentName config st)) = false.
Proof.
  intros E text model agentName config st st1 apiKey res404 res200 response
         responseText base messages Hidle Hkey Hresp Hchat Hpref H404 Hstatus
         H200 Hstatus200 Hparse Htext Hne.
  assert (Hcall : exists s3,
            processWithOpenAI E text model agentName config st
            = (Ok responseText, set_isProcessing false s3)
            /\ openAiEndpointPreference s3 !! base = Some Chat).
  { destruct (getApiKey_frame E _ st st1 _ Hkey) as (_ & Hpref1 & Hls1 & Hsent1).
    unfold openai_key_provider in Hkey.
    unfold processWithOpenAI. cbv zeta. rewrite Hidle, Hkey.
    unfold try_finally, openai_body. cbv zeta.
    set (s0 := set_isProcessing true st1).
    assert (Hls0 : localStorage s0 = localStorage st) by exact Hls1.
    assert (Hpref0 : openAiEndpointPreference s0 = openAiEndpointPreference st)
      by exact Hpref1.
    assert (Hsent0 : sent s0 = sent st) by exact Hsent1.
    rewrite (getConfiguredOpenAIBase_congr E s0 st Hls0). fold base.
    rewrite Hls0. fold messages.
    pose proof (candidates_by_preference E base s0 Hresp Hchat) as Hcands.
    rewrite (getStored_congr E base s0 st Hpref0 Hls0) in Hcands.
    pose proof (candidates_frame E base s0) as Hframe.
    destruct (getOpenAIEndpointCandidates E base s0) as [cands s1].
    destruct Hframe as (_ & _ & _ & Hsent_1). cbn [fst] in Hcands.
    assert (Hboth : cands = [responses_candidate E base; chat_candidate E base]).
    { rewrite Hcands.
      destruct (fst (getStoredOpenAiPreference E base st)) as [[|]|];
        congruence. }
    clear Hcands. subst cands.
    pose proof (getStored_frame E base s1) as Hframe2.
    destruct (getStoredOpenAiPreference E base s1) as [p s2].
    destruct Hframe2 as (_ & _ & Hsent_2 & _). cbn [snd].
    assert (Hlen : sent s2 = sent st) by congruence.
    destruct (try_candidates_404_then_ok E base apiKey model messages
                (is_older_model model) config s2 res404 res200 response)
      as (s3 & Hrun & Hremembered & _).
    { rewrite Hlen. exact H404. }
    { exact Hstatus. }
    { rewrite Hlen. exact H200. }
    { unfold ok. rewrite Hstatus200. reflexivity. }
    { exact Hparse. }
    exists s3. split; [| exact Hremembered].
    rewrite (withRetry_first_try _ _ _ _ _ Hrun). rewrite Htext.
    assert (Hnonempty : nonempty responseText = true)
      by (destruct responseText; [congruence | reflexivity]).
    rewrite Hnonempty. reflexivity. }
  destruct Hcall as (s3 & Hcall & Hremembered). rewrite Hcall. cbn [fst snd].
  assert (Hhit : getStoredOpenAiPreference E base (set_isProcessing false s3)
                 = (Some Chat, set_isProcessing false s3))
    by (apply getStored_hit; exact Hremembered).
  split; [reflexivity |]. split; [| split].
  - rewrite Hhit. reflexivity.
  - rewrite (candidates_by_preference E base _ Hresp Hchat), Hhit. reflexivity.
  - reflexivity.
Qed.

Lemma C1_witness :
  fst (processWithOpenAI Scenario.chat_only_env "um hello" "gpt-5" None
         Scenario.no_config (Scenario.fresh ∅)) = Ok "Hello"
  /\ fst (getStoredOpenAiPreference Scenario.chat_only_env
            (getConfiguredOpenAIBase Scenario.chat_only_env (Scenario.fresh ∅))
            (snd (processWithOpenAI Scenario.chat_only_env "um hello" "gpt-5" None
                    Scenario.no_config (Scenario.fresh ∅))))
     = Some Chat
  /\ fst (getOpenAIEndpointCandidates Scenario.chat_only_env
            (getConfiguredOpenAIBase Scenario.chat_only_env (Scenario.fresh ∅))
            (snd (processWithOpenAI Scenario.chat_only_env "um hello" "gpt-5" None
                    Scenario.no_config (Scenario.fresh ∅))))
     = [chat_candidate Scenario.chat_only_env
          (getConfiguredOpenAIBase Scenario.chat_only_env (Scenario.fresh ∅))]
  /\ isProcessing (snd (processWithOpenAI Scenario.chat_only_env "um hello" "gpt-5"
                          None Scenario.no_config (Scenario.fresh ∅))) = false.
Proof.
  refine (C1_responses_404_falls_back_to_chat
            Scenario.chat_only_env "um hello" "gpt-5" None Scenario.no_config
            (Scenario.fresh ∅)
            (set_apiKeyCache {[ "openai" := "sk-openai" ]} (Scenario.fresh ∅))
            "sk-openai"
            {| status := 404; statusText := "Not Found"; bodyText := "{}" |}
            {| status := 200; statusText := "OK";
               bodyText := Scenario.chat_hello_text |}
            Scenario.chat_hello "Hello" _ _ _ _ _ _ _ _ _ _ _ _).
  - reflexivity.
  - vm_compute. reflexivity.
  - vm_compute. reflexivity.
  - vm_compute. reflexivity.
  - vm_compute. discriminate.
  - vm_compute. reflexivity.
  - reflexivity.
  - vm_compute. reflexivity.
  - reflexivity.
  - vm_compute. reflexivity.
  - vm_compute. reflexivity.
  - discriminate.
Defined.

(** ** Overlapping calls *)

(** Run without interruption, the stages of a call are the call. *)
Lemma run_alone_openai (E : Env) (text model : string) (agentName : option string)
    (config : ReasoningConfig) (st : Service) :
  run_alone E (openai_key_provider st)
    (openai_body E text model agentName config) st
  = (Settled (fst (processWithOpenAI E text model agentName config st)),
     snd (processWithOpenAI E text model agentName config st)).
Proof.
  unfold run_alone, enter, processWithOpenAI, openai_key_provider. cbv zeta.
  destruct (isProcessing st); [reflexivity |].
  cbn [resume]. unfold key_arrives.
  destruct (getApiKey E _ st) as [[apiKey|e] st1]; [| reflexivity].
  cbn [resume]. unfold transport_done, try_finally.
  destruct (openai_body E text model agentName config apiKey
              (set_isProcessing true st1)) as [r st']. reflexivity.
Qed.

Lemma run_alone_gemini (E : Env) (text model : string) (agentName : option string)
    (config : ReasoningConfig) (st : Service) :
  run_alone E Gemini (gemini_body E text model agentName config) st
  = (Settled (fst (processWithGemini E text model agentName config st)),
     snd (processWithGemini E text model agentName config st)).
Proof.
  unfold run_alone, enter, processWithGemini.
  destruct (isProcessing st); [reflexivity |].
  cbn [resume]. unfold key_arrives.
  destruct (getApiKey E Gemini st) as [[apiKey|e] st1]; [| reflexivity].
  cbn [resume]. unfold transport_done, try_finally.
  destruct (gemini_body E text model agentName config apiKey
              (set_isProcessing true st1)) as [r st']. reflexivity.
Qed.

(** Once the flag is set, an invocation is turned away at once and the
    state is as it was. *)
Lemma enter_while_flag_set (provider : Provider) (st : Service) :
  isProcessing st = true -> enter provider st = (Settled (Throw busy), st).
Proof. intros H. unfold enter. rewrite H. reflexivity. Qed.

(** The check itself does not set the flag: while a call awaits its key,
    the next invocation passes the check as well. *)
Lemma enter_twice (providerA providerB : Provider) (st : Service) :
  isProcessing st = false ->
  enter providerA st = (AwaitingKey providerA, st)
  /\ enter providerB (snd (enter providerA st)) = (AwaitingKey providerB, st).
Proof. intros H. unfold enter. rewrite H. cbn [snd]. rewrite H. split; reflexivity. Qed.

(** The local bridge sets its flag with the check: from the first
    invocation on, the next one is turned away. *)
Lemma bridge_enter_twice (E : LocalBridge.Env) :
  LocalBridge.disabled_by E = None ->
  LocalBridge.enter E false = (LocalBridge.AwaitingInference, true)
  /\ LocalBridge.enter E (snd (LocalBridge.enter E false))
     = (LocalBridge.Settled (Throw busy), true).
Proof. intros H. unfold LocalBridge.enter. rewrite H. split; reflexivity. Qed.

(** C8 (what the code does): a second OpenAI call invoked while the first
    is still awaiting its key is not turned away.  Both calls go to the
    network, both succeed, and two requests are sent. *)
Theorem C8_second_call_during_key_lookup_runs :
  fst (second_call_during_key_lookup Scenario.hello_env OpenAI OpenAI
         (openai_body Scenario.hello_env "um hello" "gpt-5" None Scenario.no_config)
         (openai_body Scenario.hello_env "and again" "gpt-5" None Scenario.no_config)
         (Scenario.fresh ∅))
  = (Settled (Ok "Hello"), Settled (Ok "Hello"))
  /\ length (sent (snd (second_call_during_key_lookup Scenario.hello_env OpenAI OpenAI
         (openai_body Scenario.hello_env "um hello" "gpt-5" None Scenario.no_config)
         (openai_body Scenario.hello_env "and again" "gpt-5" None Scenario.no_config)
         (Scenario.fresh ∅)))) = 2%nat.
Proof. split; vm_compute; reflexivity. Qed.

(** ** PromptStudio *)

(** C10, as stated, fails: an empty custom prompt in the store is not put
    back after the test but removed. *)
Lemma C10_counterexample :
  PromptStudio.reaches_test Scenario.studio_env Scenario.studio
    Scenario.store_with_empty_prompt
  /\ Scenario.store_with_empty_prompt !! PromptStudio.customUnifiedPrompt = Some ""
  /\ snd (PromptStudio.testPrompt Scenario.studio_env "Assistant" Scenario.studio
            Scenario.store_with_empty_prompt) !! PromptStudio.customUnifiedPrompt
     = None.
Proof. repeat split; vm_compute; reflexivity. Qed.

Lemma restore_lookup (before : option string) (ls : gmap string string) :
  PromptStudio.restore before ls !! PromptStudio.customUnifiedPrompt
  = PromptStudio.restored before.
Proof.
  unfold PromptStudio.restore, PromptStudio.restored.
  destruct before as [v|]; [destruct (nonempty v) |].
  - apply lookup_insert_eq.
  - apply lookup_delete_eq.
  - apply lookup_delete_eq.
Qed.

(** C10 (amended): whenever [testPrompt] gets as far as running the
    test, then after the call, whether the test succeeded or threw, the
    store holds under "customUnifiedPrompt" the value it held before if
    that value was a non-empty string, and nothing otherwise; so the
    value is as before unless it was the empty string. *)
Theorem C10_custom_prompt_restored :
  forall (E : PromptStudio.Env) (agentName : string) (ui : PromptStudio.Studio)
         (ls : gmap string string),
    PromptStudio.reaches_test E ui ls ->
    snd (PromptStudio.testPrompt E agentName ui ls) !! PromptStudio.customUnifiedPrompt
    = PromptStudio.restored (ls !! PromptStudio.customUnifiedPrompt)
    /\ (ls !! PromptStudio.customUnifiedPrompt <> Some "" ->
        snd (PromptStudio.testPrompt E agentName ui ls) !! PromptStudio.customUnifiedPrompt
        = ls !! PromptStudio.customUnifiedPrompt).
Proof.
  intros E agentName ui ls [Htext Hgate].
  assert (Hafter :
    snd (PromptStudio.testPrompt E agentName ui ls) !! PromptStudio.customUnifiedPrompt
    = PromptStudio.restored (ls !! PromptStudio.customUnifiedPrompt)).
  { unfold PromptStudio.testPrompt. rewrite Htext, Hgate. cbn [negb]. cbv zeta.
    destruct (PromptStudio.run_test E agentName ui _ _ _) as [[r|e] ls2];
      cbn [snd]; apply restore_lookup. }
  split; [exact Hafter |].
  intros Hnot_empty. rewrite Hafter. unfold PromptStudio.restored.
  destruct (ls !! PromptStudio.customUnifiedPrompt) as [v|]; [| reflexivity].
  destruct v; [congruence | reflexivity].
Qed.

Lemma C10_witness :
  snd (PromptStudio.testPrompt Scenario.studio_env "Assistant" Scenario.studio
         Scenario.store_with_prompt) !! PromptStudio.customUnifiedPrompt
  = Scenario.store_with_prompt !! PromptStudio.customUnifiedPrompt.
Proof.
  refine (proj2 (C10_custom_prompt_restored Scenario.studio_env "Assistant"
                   Scenario.studio Scenario.store_with_prompt _) _).
  - split; vm_compute; reflexivity.
  - vm_compute. discriminate.
Defined.

(** * Further properties *)

(** ** Strings *)

Lemma trimEnd_idempotent (s : string) : trimEnd (trimEnd s) = trimEnd s.
Proof.
  induction s as [|c s IH]; [reflexivity |].
  cbn [trimEnd]. destruct (trimEnd s) as [|d r] eqn:Hr.
  - destruct (is_space c) eqn:Hc; [reflexivity |].
    cbn [trimEnd]. rewrite Hc. reflexivity.
  - remember (String d r) as t eqn:Ht.
    cbn [trimEnd]. rewrite IH. subst t. reflexivity.
Qed.

Lemma trimStart_clean (s : string) : starts_clean (trimStart s).
Proof.
  induction s as [|c s IH]; [exact I |].
  cbn [trimStart]. destruct (is_space c) eqn:Hc; [exact IH | exact Hc].
Qed.

Lemma trimStart_of_clean (s : string) : starts_clean s -> trimStart s = s.
Proof. destruct s as [|c s]; [reflexivity |]. cbn. intros ->. reflexivity. Qed.

Lemma trimEnd_clean (s : string) : starts_clean s -> starts_clean (trimEnd s).
Proof.
  destruct s as [|c s]; [intros _; exact I |].
  cbn [starts_clean trimEnd]. intros Hc.
  destruct (trimEnd s); [rewrite Hc |]; exact Hc.
Qed.

Lemma trim_idempotent (s : string) : trim (trim s) = trim s.
Proof.
  unfold trim.
  rewrite (trimStart_of_clean (trimEnd (trimStart s))).
  - apply trimEnd_idempotent.
  - apply trimEnd_clean, trimStart_clean.
Qed.

(** ** Provider resolution *)

(** X1: an explicit provider that is neither blank nor "auto" decides the
    resolution whatever the model id and the registry say: it is
    returned trimmed and in lower case, with "custom" mapped to
    "openai". *)
Theorem X1_explicit_provider_wins :
  forall (models : list (string * string)) (modelId preferredProvider : string)
         (allowLocalFallback : bool),
    toLowerCase (trim preferredProvider) <> "" ->
    toLowerCase (trim preferredProvider) <> "auto" ->
    getModelProvider models modelId (Some preferredProvider) allowLocalFallback
    = if String.eqb (toLowerCase (trim preferredProvider)) "custom"
      then "openai"
      else toLowerCase (trim preferredProvider).
Proof.
  intros models modelId preferredProvider allowLocalFallback Hblank Hauto.
  unfold getModelProvider. cbn [option_map default from_option id]. cbv zeta.
  destruct (toLowerCase (trim preferredProvider)) as [|c n] eqn:Hn; [congruence |].
  cbn [nonempty andb].
  destruct (String.eqb_spec (String c n) "auto") as [Heq|_]; [congruence |].
  reflexivity.
Qed.

Lemma X1_witness :
  getModelProvider [("claude-x", "anthropic")] "claude-x" (Some " Custom ") true
  = "openai".
Proof.
  apply (X1_explicit_provider_wins [("claude-x", "anthropic")] "claude-x" " Custom " true);
    vm_compute; discriminate.
Defined.

(** The providers the name heuristics can yield. *)
Lemma heuristic_providers :
  forall (models : list (string * string)) (modelId : string)
         (preferredProvider : option string) (allowLocalFallback : bool),
    no_override preferredProvider = true ->
    List.find (fun m => String.eqb (fst m) modelId) models = None ->
    In (getModelProvider models modelId preferredProvider allowLocalFallback)
       ["anthropic"; "gemini"; "openai"; "groq"; "local"]
    /\ (allowLocalFallback = false ->
        getModelProvider models modelId preferredProvider allowLocalFallback <> "local").
Proof.
  intros models modelId preferredProvider allowLocalFallback Hno Hfind.
  unfold no_override in Hno. apply negb_true_iff in Hno.
  unfold getModelProvider. cbv zeta. rewrite Hno, Hfind.
  split.
  - repeat match goal with
           | |- context [if ?b then _ else _] => destruct b
           end; cbn; tauto.
  - intros ->. cbn [andb].
    repeat match goal with
           | |- context [if ?b then _ else _] => destruct b
           end; discriminate.
Qed.

(** X2: without an override and outside the registry, resolution yields
    one of "anthropic", "gemini", "openai", "groq" and "local", and
    "local" only when the local fallback is allowed. *)
Theorem X2_heuristic_providers :
  forall (models : list (string * string)) (modelId : string)
         (preferredProvider : option string) (allowLocalFallback : bool),
    no_override preferredProvider = true ->
    List.find (fun m => String.eqb (fst m) modelId) models = None ->
    In (getModelProvider models modelId preferredProvider allowLocalFallback)
       ["anthropic"; "gemini"; "openai"; "groq"; "local"]
    /\ (allowLocalFallback = false ->
        getModelProvider models modelId preferredProvider allowLocalFallback <> "local").
Proof.
  intros. apply heuristic_providers; assumption.
Qed.

Lemma X2_witness :
  In (getModelProvider [] "qwen2.5-7b" None false)
     ["anthropic"; "gemini"; "openai"; "groq"; "local"]
  /\ (false = false -> getModelProvider [] "qwen2.5-7b" None false <> "local").
Proof. apply (X2_heuristic_providers [] "qwen2.5-7b" None false); reflexivity. Defined.

(** ** Token budgets *)

(** X3: the token budget is never below [minTokens]; with the bounds in
    order it is never above [maxTokens]; and for a multiplier that is
    not negative a longer text never gets a smaller budget. *)
Theorem X3_budget_bounds :
  forall textLength minTokens maxTokens multiplier : Z,
    minTokens <= calculateMaxTokens textLength minTokens maxTokens multiplier
    /\ (minTokens <= maxTokens ->
        calculateMaxTokens textLength minTokens maxTokens multiplier <= maxTokens)
    /\ (forall longer, 0 <= multiplier -> textLength <= longer ->
        calculateMaxTokens textLength minTokens maxTokens multiplier
        <= calculateMaxTokens longer minTokens maxTokens multiplier).
Proof.
  intros textLength minTokens maxTokens multiplier.
  unfold calculateMaxTokens. repeat split.
  - lia.
  - lia.
  - intros longer Hm Hl.
    assert (textLength * multiplier <= longer * multiplier) by nia. lia.
Qed.

(** ** Credentials *)

Lemma getApiKey_hit (E : Env) (provider : Provider) (st : Service) (k : string) :
  provider <> Custom ->
  apiKeyCache st !! provider_name provider = Some k ->
  nonempty k = true ->
  getApiKey E provider st = (Ok k, st).
Proof.
  intros Hp Hcache Hk. unfold getApiKey.
  destruct provider; try congruence; rewrite Hcache; cbn [no_key]; rewrite Hk;
    cbn [negb]; cbv iota; rewrite Hk; reflexivity.
Qed.

Lemma getApiKey_caches (E : Env) (provider : Provider) (st st1 : Service) (k : string) :
  provider <> Custom ->
  getApiKey E provider st = (Ok k, st1) ->
  apiKeyCache st1 !! provider_name provider = Some k /\ nonempty k = true.
Proof.
  intros Hp H. unfold getApiKey in H.
  destruct provider; try congruence;
    repeat break_inner_in H; try discriminate;
    injection H as <- <-; cbn [apiKeyCache set_apiKeyCache];
    rewrite ?lookup_insert_eq; split; congruence.
Qed.

Lemma getApiKey_missing (E : Env) (provider : Provider) (st : Service) :
  provider <> Custom ->
  no_key (apiKeyCache st !! provider_name provider) = true ->
  fetched_key E provider = None ->
  getApiKey E provider st = (Throw (key_missing provider), st).
Proof.
  intros Hp Hcache Hfetch.
  unfold getApiKey, fetched_key, key_missing in *.
  destruct provider; try congruence; rewrite Hcache;
    (destruct (electronAPI E) as [api|];
     [ destruct (keyGetter _ api) as [[k|]|e];
       [ destruct (nonempty k) eqn:Hk; [discriminate |] | | ]
     | ]);
    cbv iota beta;
    repeat match goal with
           | |- context [apiKeyCache st !! ?n] =>
               destruct (apiKeyCache st !! n) as [c|] eqn:?; simpl in Hcache
           | H : negb (nonempty ?c) = true |- _ =>
               apply negb_true_iff in H; rewrite ?H
           | H : nonempty ?k = false |- _ => rewrite ?H; clear H
           end; try reflexivity.
Qed.

Lemma getApiKey_fetch (E : Env) (provider : Provider) (st : Service) (k : string) :
  provider <> Custom ->
  no_key (apiKeyCache st !! provider_name provider) = true ->
  fetched_key E provider = Some k ->
  getApiKey E provider st
  = (Ok k, set_apiKeyCache (<[provider_name provider := k]> (apiKeyCache st)) st).
Proof.
  intros Hp Hcache Hfetch.
  unfold getApiKey, fetched_key in *.
  destruct provider; try congruence; rewrite Hcache;
    (destruct (electronAPI E) as [api|]; [| discriminate]);
    (destruct (keyGetter _ api) as [[k0|]|e]; try discriminate);
    (destruct (nonempty k0) eqn:Hk; [| discriminate]);
    injection Hfetch as <-; cbv iota beta; rewrite Hk; reflexivity.
Qed.

Lemma expire_live (stale : string -> bool) (st : Service) (name k : string) :
  stale name = false ->
  apiKeyCache st !! name = Some k ->
  apiKeyCache (expire stale st) !! name = Some k.
Proof.
  intros Hlive Hc. cbn [expire apiKeyCache set_apiKeyCache].
  apply map_lookup_filter_Some. split; [exact Hc | exact Hlive].
Qed.

Lemma expire_stale (stale : string -> bool) (st : Service) (name : string) :
  stale name = true ->
  apiKeyCache (expire stale st) !! name = None.
Proof.
  intros Hstale. cbn [expire apiKeyCache set_apiKeyCache].
  apply map_lookup_filter_None. right. intros k _ Hlive.
  cbn [fst] in Hlive. congruence.
Qed.

(** X4: a key that [getApiKey] has returned for a provider other than
    "custom" is in the cache afterwards.  As long as the entry has not
    expired, the next lookup returns it from the cache, whatever the IPC
    bridge does by then and whichever other entries have expired.  Once
    the entry has expired, the next lookup goes back to the secure
    store: it returns the store's key and caches it again, and it fails
    with the key-missing error when the store has none. *)
Theorem X4_key_served_from_cache :
  forall (E E' : Env) (provider : Provider) (st st1 : Service) (k : string)
         (stale : string -> bool),
    provider <> Custom ->
    getApiKey E provider st = (Ok k, st1) ->
    apiKeyCache st1 !! provider_name provider = Some k
    /\ (stale (provider_name provider) = false ->
        getApiKey E' provider (expire stale st1) = (Ok k, expire stale st1))
    /\ (stale (provider_name provider) = true ->
        (fetched_key E' provider = None ->
         getApiKey E' provider (expire stale st1)
         = (Throw (key_missing provider), expire stale st1))
        /\ (forall k' : string,
              fetched_key E' provider = Some k' ->
              exists st2 : Service,
                getApiKey E' provider (expire stale st1) = (Ok k', st2)
                /\ apiKeyCache st2 !! provider_name provider = Some k')).
Proof.
  intros E E' provider st st1 k stale Hp H.
  destruct (getApiKey_caches E provider st st1 k Hp H) as [Hc Hk].
  split; [exact Hc |]. split.
  - intros Hlive. apply getApiKey_hit; [exact Hp | | exact Hk].
    apply expire_live; assumption.
  - intros Hstale.
    pose proof (expire_stale stale st1 _ Hstale) as Hgone.
    split.
    + intros Hfetch. apply getApiKey_missing; [exact Hp | | exact Hfetch].
      rewrite Hgone. reflexivity.
    + intros k' Hfetch. eexists. split.
      * apply getApiKey_fetch; [exact Hp | | exact Hfetch].
        rewrite Hgone. reflexivity.
      * cbn [apiKeyCache set_apiKeyCache]. apply lookup_insert_eq.
Qed.

Lemma X4_witness :
  apiKeyCache Scenario2.with_cached_key !! provider_name OpenAI = Some "sk-openai"
  /\ getApiKey Scenario.offline_env OpenAI
       (expire (String.eqb "gemini") Scenario2.with_cached_key)
     = (Ok "sk-openai", expire (String.eqb "gemini") Scenario2.with_cached_key)
  /\ getApiKey Scenario.keyless_env OpenAI
       (expire (String.eqb "openai") Scenario2.with_cached_key)
     = (Throw (key_missing OpenAI),
        expire (String.eqb "openai") Scenario2.with_cached_key).
Proof.
  split; [| split].
  - apply (X4_key_served_from_cache Scenario.hello_env Scenario.offline_env OpenAI
             (Scenario.fresh ∅) Scenario2.with_cached_key "sk-openai"
             (String.eqb "gemini")).
    + discriminate.
    + vm_compute. reflexivity.
  - apply (X4_key_served_from_cache Scenario.hello_env Scenario.offline_env OpenAI
             (Scenario.fresh ∅) Scenario2.with_cached_key "sk-openai"
             (String.eqb "gemini")).
    + discriminate.
    + vm_compute. reflexivity.
    + reflexivity.
  - apply (X4_key_served_from_cache Scenario.hello_env Scenario.keyless_env OpenAI
             (Scenario.fresh ∅) Scenario2.with_cached_key "sk-openai"
             (String.eqb "openai")).
    + discriminate.
    + vm_compute. reflexivity.
    + reflexivity.
    + reflexivity.
Defined.

Lemma provider_name_inj (p q : Provider) : provider_name p = provider_name q -> p = q.
Proof. destruct p, q; cbn; intros H; try reflexivity; discriminate. Qed.

(** X5: clearing one provider's cache entry sends the next lookup for
    that provider back to the secure store (it fails when the store has
    no key), leaves the entries of the other providers in place, and
    does nothing for "custom"; clearing without a provider empties the
    cache for all of them. *)
Theorem X5_clearApiKeyCache :
  forall (E : Env) (provider other : Provider) (st : Service),
    provider <> Custom ->
    (fetched_key E provider = None ->
     getApiKey E provider (clearApiKeyCache (Some provider) st)
     = (Throw (key_missing provider), clearApiKeyCache (Some provider) st))
    /\ (other <> provider ->
        apiKeyCache (clearApiKeyCache (Some provider) st) !! provider_name other
        = apiKeyCache st !! provider_name other)
    /\ clearApiKeyCache (Some Custom) st = st
    /\ (fetched_key E provider = None ->
        getApiKey E provider (clearApiKeyCache None st)
        = (Throw (key_missing provider), clearApiKeyCache None st)).
Proof.
  intros E provider other st Hp. repeat split.
  - intros Hfetch. apply getApiKey_missing; try assumption.
    destruct provider; try congruence; cbn [clearApiKeyCache apiKeyCache set_apiKeyCache];
      rewrite lookup_delete_eq; reflexivity.
  - intros Hother.
    destruct provider; try congruence; cbn [clearApiKeyCache apiKeyCache set_apiKeyCache];
      apply lookup_delete_ne; intros Heq; apply Hother;
      symmetry; apply provider_name_inj; exact Heq.
  - intros Hfetch. apply getApiKey_missing; try assumption.
    cbn [clearApiKeyCache apiKeyCache set_apiKeyCache]. rewrite lookup_empty. reflexivity.
Qed.

Lemma X5_witness :
  getApiKey Scenario.keyless_env OpenAI
    (clearApiKeyCache (Some OpenAI) Scenario2.with_cached_key)
  = (Throw (key_missing OpenAI), clearApiKeyCache (Some OpenAI) Scenario2.with_cached_key).
Proof.
  refine (proj1 (X5_clearApiKeyCache Scenario.keyless_env OpenAI Gemini
                   Scenario2.with_cached_key _) _).
  - discriminate.
  - reflexivity.
Defined.

(** ** Endpoint resolution, continued *)

Lemma assoc_put_eq (k : string) (v : JSON) (fields : list (string * JSON)) :
  Js.assoc k (put k v fields) = Some v.
Proof.
  induction fields as [|[k' v'] rest IH]; cbn.
  - rewrite String.eqb_refl. reflexivity.
  - destruct (String.eqb k k') eqn:Hk; cbn.
    + rewrite String.eqb_refl. reflexivity.
    + rewrite Hk. exact IH.
Qed.

Lemma assoc_put_ne (k k' : string) (v : JSON) (fields : list (string * JSON)) :
  k' <> k -> Js.assoc k' (put k v fields) = Js.assoc k' fields.
Proof.
  intros Hne. induction fields as [|[k0 v0] rest IH]; cbn.
  - destruct (String.eqb_spec k' k); [congruence | reflexivity].
  - destruct (String.eqb_spec k k0) as [->|Hk]; cbn.
    + destruct (String.eqb_spec k' k0); [congruence | reflexivity].
    + destruct (String.eqb k' k0); [reflexivity | exact IH].
Qed.

Lemma dialect_of_name (d : Dialect) :
  dialect_of_value (Some (JStr (dialect_name d))) = Some d.
Proof. destruct d; reflexivity. Qed.

(** What [rememberOpenAiPreference] leaves in the store. *)
Lemma remember_persists (E : Env) (base : string) (d : Dialect) (st : Service)
    (ls : gmap string string) (fields : list (string * JSON)) :
  localStorage st = Some ls ->
  persisted_fields E ls = Some fields ->
  localStorage (rememberOpenAiPreference E base d st)
  = Some (<[OPENAI_ENDPOINT_PREF_STORAGE_KEY :=
              JSON_stringify E (JObj (put base (JStr (dialect_name d)) fields))]> ls).
Proof.
  intros Hls Hfields.
  unfold rememberOpenAiPreference, persisted_fields in *. cbv zeta.
  cbn [localStorage set_openAiEndpointPreference]. rewrite Hls.
  destruct (ls !! OPENAI_ENDPOINT_PREF_STORAGE_KEY) as [raw|].
  - destruct (nonempty raw).
    + destruct (JSON_parse E raw) as [[| | | | |fs]|]; try discriminate;
        injection Hfields as <-; reflexivity.
    + injection Hfields as <-. reflexivity.
  - injection Hfields as <-. reflexivity.
Qed.

(** X6: a preference that is remembered while the store holds a readable
    preference map (or none) survives a restart: a service that starts
    with an empty in-memory map on the store left behind reads the
    preference back for that base, and reads for every other base what
    the map held for it before.  The environment's [JSON] is assumed to
    read back the map it wrote. *)
Theorem X6_preference_survives_restart :
  forall (E : Env) (base : string) (d : Dialect) (st : Service)
         (ls : gmap string string) (fields : list (string * JSON))
         (restarted : Service) (other : string),
    localStorage st = Some ls ->
    persisted_fields E ls = Some fields ->
    JSON_parse E (JSON_stringify E (JObj (put base (JStr (dialect_name d)) fields)))
    = Some (JObj (put base (JStr (dialect_name d)) fields)) ->
    nonempty (JSON_stringify E (JObj (put base (JStr (dialect_name d)) fields))) = true ->
    openAiEndpointPreference restarted = ∅ ->
    localStorage restarted = localStorage (rememberOpenAiPreference E base d st) ->
    fst (getStoredOpenAiPreference E base restarted) = Some d
    /\ (other <> base ->
        fst (getStoredOpenAiPreference E other restarted)
        = dialect_of_value (Js.assoc other fields)).
Proof.
  intros E base d st ls fields restarted other Hls Hfields Hparse Hnonblank
         Hfresh Hstore.
  rewrite (remember_persists E base d st ls fields Hls Hfields) in Hstore.
  assert (Hread : forall b,
    fst (getStoredOpenAiPreference E b restarted)
    = dialect_of_value (Js.assoc b (put base (JStr (dialect_name d)) fields))).
  { intros b. unfold getStoredOpenAiPreference.
    rewrite Hfresh, lookup_empty, Hstore, lookup_insert_eq, Hnonblank, Hparse.
    cbn [negb is_object computed_prop].
    destruct (dialect_of_value _); reflexivity. }
  split.
  - rewrite Hread, assoc_put_eq. apply dialect_of_name.
  - intros Hother. rewrite Hread, (assoc_put_ne base other _ _ Hother). reflexivity.
Qed.

Lemma X6_witness :
  fst (getStoredOpenAiPreference Scenario2.offline_env Scenario.openai_base
         (Scenario.fresh
            (<[OPENAI_ENDPOINT_PREF_STORAGE_KEY := Scenario2.chat_preference_text]> ∅)))
  = Some Chat
  /\ ("https://llm.example.com/v1" <> Scenario.openai_base ->
      fst (getStoredOpenAiPreference Scenario2.offline_env "https://llm.example.com/v1"
             (Scenario.fresh
                (<[OPENAI_ENDPOINT_PREF_STORAGE_KEY := Scenario2.chat_preference_text]> ∅)))
      = dialect_of_value (Js.assoc "https://llm.example.com/v1" [])).
Proof.
  apply (X6_preference_survives_restart Scenario2.offline_env Scenario.openai_base
           Chat (Scenario.fresh ∅) ∅ []).
  - reflexivity.
  - reflexivity.
  - vm_compute. reflexivity.
  - vm_compute. reflexivity.
  - reflexivity.
  - vm_compute. reflexivity.
Defined.

(** X7: the base [getConfiguredOpenAIBase] resolves to is the default
    base, or else the custom provider is selected and the base passed
    the secure-transport check and names none of the known non-OpenAI
    hosts. *)
Theorem X7_resolved_base_is_safe :
  forall (E : Env) (st : Service),
    getConfiguredOpenAIBase E st = OPENAI_BASE E
    \/ (getItem_or_empty "reasoningProvider" st = "custom"
        /\ isSecureEndpoint E (getConfiguredOpenAIBase E st) = Ok true
        /\ forall host, In host knownNonOpenAIUrls ->
                        includes (getConfiguredOpenAIBase E st) host = false).
Proof.
  intros E st. unfold getConfiguredOpenAIBase, getItem_or_empty.
  destruct (localStorage st) as [ls|]; [| left; reflexivity].
  destruct (String.eqb_spec (default "" (ls !! "reasoningProvider")) "custom")
    as [Hcustom|_]; [| left; reflexivity].
  cbn [negb].
  destruct (nonempty (trim (default "" (ls !! "cloudReasoningBaseUrl"))));
    [| left; reflexivity].
  cbn [negb].
  destruct (normalizeBaseUrl E _) as [n|e]; [| left; reflexivity].
  set (normalized := if nonempty n then n else OPENAI_BASE E).
  destruct (existsb (fun u => includes normalized u) knownNonOpenAIUrls) eqn:Hknown;
    [left; reflexivity |].
  destruct (isSecureEndpoint E normalized) as [[|]|e] eqn:Hsecure;
    try (left; reflexivity).
  right. repeat split; try assumption.
  intros host Hin.
  destruct (includes normalized host) eqn:Hinc; [| reflexivity].
  assert (existsb (fun u => includes normalized u) knownNonOpenAIUrls = true)
    by (apply existsb_exists; exists host; split; assumption).
  congruence.
Qed.

(** ** The requests a call sends *)

(** One pass of the probing loop, request by request. *)
Lemma probing_pass_sent :
  forall (E : Env) (base apiKey model : string) (messages : list Message)
         (older : bool) (config : ReasoningConfig) (candidates : list Candidate)
         (lastError : option Exn) (st : Service),
  exists n : nat,
    (n <= length candidates)%nat
    /\ (candidates <> [] -> (1 <= n)%nat)
    /\ sent (snd (try_candidates E base apiKey model messages older config
                    candidates lastError st))
       = (sent st
          ++ map (fun c => openai_request c apiKey model messages older config)
               (firstn n candidates))%list.
Proof.
  intros E base apiKey model messages older config candidates.
  induction candidates as [|c rest IH]; intros lastError st.
  - exists 0%nat. cbn. rewrite app_nil_r. repeat split; [lia | congruence].
  - assert (Hstop : forall (r : Result JSON) (s : Service),
      sent s = (sent st ++ [openai_request c apiKey model messages older config])%list ->
      exists n : nat,
        (n <= length (c :: rest))%nat
        /\ (c :: rest <> [] -> (1 <= n)%nat)
        /\ sent (snd (r, s))
           = (sent st
              ++ map (fun c => openai_request c apiKey model messages older config)
                   (firstn n (c :: rest)))%list).
    { intros r s Hs. exists 1%nat. cbn [length firstn map snd].
      repeat split; [lia | lia | exact Hs]. }
    assert (Hgo : forall (e : Exn) (s : Service),
      sent s = (sent st ++ [openai_request c apiKey model messages older config])%list ->
      exists n : nat,
        (n <= length (c :: rest))%nat
        /\ (c :: rest <> [] -> (1 <= n)%nat)
        /\ sent (snd (try_candidates E base apiKey model messages older config
                        rest (Some e) s))
           = (sent st
              ++ map (fun c => openai_request c apiKey model messages older config)
                   (firstn n (c :: rest)))%list).
    { intros e s Hs. destruct (IH (Some e) s) as (n & Hn & _ & Hsent).
      exists (S n). cbn [length firstn map].
      repeat split; [lia | lia |].
      rewrite Hsent, Hs, <- app_assoc. reflexivity. }
    assert (Hremember : forall d,
      sent (rememberOpenAiPreference E base d
              (set_sent (sent st ++ [openai_request c apiKey model messages older config])%list st))
      = (sent st ++ [openai_request c apiKey model messages older config])%list).
    { intros d.
      destruct (remember_frame E base d
                  (set_sent (sent st ++ [openai_request c apiKey model messages older config])%list st))
        as (_ & Hs & _). exact Hs. }
    cbn [try_candidates]. unfold do_fetch at 1.
    destruct (fetch E (length (sent st)) _) as [res|e].
    + destruct (negb (ok res)).
      * destruct (openai_error_message _ _) as [msg|];
          destruct (type c);
          try destruct (is_unsupported_status (status res));
          first [ apply Hgo; first [ apply Hremember | reflexivity ]
                | apply Hstop; reflexivity ].
      * apply Hstop. apply Hremember.
    + destruct (type c); [apply Hgo | apply Hstop]; reflexivity.
Qed.

(** X8: one pass of the probing loop sends its requests to the
    candidates in their order, one request each, and stops at the first
    candidate that answers or fails fatally: the requests sent are those
    of a non-empty prefix of the candidates (of none when there is no
    candidate). *)
Theorem X8_candidates_probed_in_order :
  forall (E : Env) (base apiKey model : string) (messages : list Message)
         (older : bool) (config : ReasoningConfig) (candidates : list Candidate)
         (lastError : option Exn) (st : Service),
  exists n : nat,
    (n <= length candidates)%nat
    /\ (candidates <> [] -> (1 <= n)%nat)
    /\ sent (snd (try_candidates E base apiKey model messages older config
                    candidates lastError st))
       = (sent st
          ++ map (fun c => openai_request c apiKey model messages older config)
               (firstn n candidates))%list.
Proof.
  intros. apply probing_pass_sent.
Qed.

Lemma withRetry_from_sent {A} (P : Request -> Prop) (retries : nat)
    (retry : Exn -> bool) (f : M A) :
  (forall st, exists new,
      sent (snd (f st)) = (sent st ++ new)%list /\ Forall P new) ->
  forall st, exists new,
      sent (snd (withRetry_from retries retry f st)) = (sent st ++ new)%list
      /\ Forall P new.
Proof.
  intros Hf. induction retries as [|n IH]; intros st.
  - cbn [withRetry_from]. destruct (Hf st) as (new & Hs & HP).
    destruct (f st) as [[a|e] st']; exists new; split; assumption.
  - cbn [withRetry_from]. destruct (Hf st) as (new & Hs & HP).
    destruct (f st) as [[a|e] st']; [exists new; split; assumption |].
    destruct (retry e); [| exists new; split; assumption].
    destruct (IH st') as (new' & Hs' & HP').
    exists (new ++ new')%list. split.
    + rewrite Hs'. cbn [snd] in Hs. rewrite Hs, <- app_assoc. reflexivity.
    + apply Forall_app. split; assumption.
Qed.

Lemma candidates_congr (E : Env) (base : string) (st st' : Service) :
  openAiEndpointPreference st = openAiEndpointPreference st' ->
  localStorage st = localStorage st' ->
  fst (getOpenAIEndpointCandidates E base st)
  = fst (getOpenAIEndpointCandidates E base st').
Proof.
  intros Hpref Hls. unfold getOpenAIEndpointCandidates. cbv zeta.
  destruct (_ || _)%bool; [reflexivity |].
  pose proof (getStored_congr E base st st' Hpref Hls) as H.
  destruct (getStoredOpenAiPreference E base st) as [p s].
  destruct (getStoredOpenAiPreference E base st') as [p' s'].
  cbn [fst] in H. subst p'. destruct p as [[|]|]; reflexivity.
Qed.

Lemma In_firstn {A} (n : nat) (l : list A) (x : A) : In x (firstn n l) -> In x l.
Proof.
  intros H. rewrite <- (firstn_skipn n l). apply in_or_app. left. exact H.
Qed.

Lemma Forall_map_firstn {A B} (P : B -> Prop) (f : A -> B) (n : nat) (l : list A) :
  (forall x, In x l -> P (f x)) -> Forall P (map f (firstn n l)).
Proof.
  intros Hf. apply List.Forall_forall. intros y Hy.
  apply in_map_iff in Hy. destruct Hy as (x & <- & Hx).
  apply Hf. eapply In_firstn. exact Hx.
Qed.

(** The requests of the [try] block of [processWithOpenAI]. *)
Lemma openai_body_sent (E : Env) (text model : string) (agentName : option string)
    (config : ReasoningConfig) (apiKey : string) (st : Service) :
  exists new,
    sent (snd (openai_body E text model agentName config apiKey st))
    = (sent st ++ new)%list
    /\ Forall (fun q =>
                 In (endpoint q)
                    (map url (fst (getOpenAIEndpointCandidates E
                                     (getConfiguredOpenAIBase E st) st)))
                 /\ credential q = apiKey)
              new.
Proof.
  unfold openai_body. cbv zeta.
  pose proof (candidates_frame E (getConfiguredOpenAIBase E st) st) as Hc.
  destruct (getOpenAIEndpointCandidates E (getConfiguredOpenAIBase E st) st)
    as [cands st1].
  destruct Hc as (_ & _ & _ & Hsent1). cbn [fst].
  pose proof (getStored_frame E (getConfiguredOpenAIBase E st) st1) as Hs.
  destruct (getStoredOpenAiPreference E (getConfiguredOpenAIBase E st) st1)
    as [p st2].
  destruct Hs as (_ & _ & Hsent2 & _). cbn [snd].
  destruct (withRetry_from_sent
              (fun q => In (endpoint q) (map url cands) /\ credential q = apiKey)
              (maxRetries (createApiRetryStrategy E))
              (shouldRetry (createApiRetryStrategy E))
              (try_candidates E (getConfiguredOpenAIBase E st) apiKey model
                 (openai_messages E text agentName (localStorage st))
                 (is_older_model model) config cands None)) with (st := st2)
    as (new & Hnew & HP).
  { intros s.
    destruct (probing_pass_sent E (getConfiguredOpenAIBase E st)
                apiKey model (openai_messages E text agentName (localStorage st))
                (is_older_model model) config cands None s) as (n & _ & _ & Hn).
    eexists. split; [exact Hn |].
    apply Forall_map_firstn. intros c Hc. split; [| reflexivity].
    cbn [openai_request endpoint]. apply in_map. exact Hc. }
  exists new. split; [| exact HP].
  unfold withRetry.
  destruct (withRetry_from _ _ _ st2) as [[response|e] st3]; cbn [snd] in Hnew.
  - destruct (openai_response_text response) as [t|e'];
      [destruct (negb (nonempty t)) |]; cbn [snd]; congruence.
  - cbn [snd]. congruence.
Qed.

(** The requests of a whole [processWithOpenAI] call. *)
Lemma processWithOpenAI_requests :
  forall (E : Env) (text model : string) (agentName : option string)
         (config : ReasoningConfig) (st : Service),
  exists new : list Request,
    sent (snd (processWithOpenAI E text model agentName config st))
    = (sent st ++ new)%list
    /\ Forall (fun q =>
                 In (endpoint q)
                    (map url (fst (getOpenAIEndpointCandidates E
                                     (getConfiguredOpenAIBase E st) st)))
                 /\ fst (getApiKey E (openai_key_provider st) st) = Ok (credential q))
              new
    /\ (endsWith (toLowerCase (getConfiguredOpenAIBase E st)) "/responses" = false ->
        endsWith (toLowerCase (getConfiguredOpenAIBase E st)) "/chat/completions" = false ->
        fst (getStoredOpenAiPreference E (getConfiguredOpenAIBase E st) st) = Some Chat ->
        Forall (fun q =>
                  endpoint q
                  = buildApiUrl E (getConfiguredOpenAIBase E st) "/chat/completions")
               new)
    /\ (isProcessing st = true -> new = [])
    /\ (forall e, fst (getApiKey E (openai_key_provider st) st) = Throw e -> new = []).
Proof.
  intros E text model agentName config st.
  assert (Hnone : forall r (s : Service), sent s = sent st ->
    (isProcessing st = true
     \/ exists e, fst (getApiKey E (openai_key_provider st) st) = Throw e) ->
    exists new : list Request,
      sent (snd (r : Result string, s)) = (sent st ++ new)%list
      /\ Forall (fun q =>
                   In (endpoint q)
                      (map url (fst (getOpenAIEndpointCandidates E
                                       (getConfiguredOpenAIBase E st) st)))
                   /\ fst (getApiKey E (openai_key_provider st) st) = Ok (credential q))
                new
      /\ (endsWith (toLowerCase (getConfiguredOpenAIBase E st)) "/responses" = false ->
          endsWith (toLowerCase (getConfiguredOpenAIBase E st)) "/chat/completions" = false ->
          fst (getStoredOpenAiPreference E (getConfiguredOpenAIBase E st) st) = Some Chat ->
          Forall (fun q =>
                    endpoint q
                    = buildApiUrl E (getConfiguredOpenAIBase E st) "/chat/completions")
                 new)
      /\ (isProcessing st = true -> new = [])
      /\ (forall e, fst (getApiKey E (openai_key_provider st) st) = Throw e -> new = [])).
  { intros r s Hs _. exists []. cbn [snd]. rewrite app_nil_r.
    repeat split; auto. }
  unfold processWithOpenAI. cbv zeta.
  destruct (isProcessing st) eqn:Hflag.
  { apply Hnone; [reflexivity | left; reflexivity]. }
  fold (openai_key_provider st).
  destruct (getApiKey E (openai_key_provider st) st) as [[apiKey|e] st1] eqn:Hkey.
  2:{ destruct (getApiKey_frame E _ st st1 _ Hkey) as (_ & _ & _ & Hsent).
      apply Hnone; [exact Hsent | right; exists e; reflexivity]. }
  destruct (getApiKey_frame E _ st st1 _ Hkey) as (_ & Hpref & Hls & Hsent).
  unfold try_finally.
  destruct (openai_body_sent E text model agentName config apiKey
              (set_isProcessing true st1)) as (new & Hnew & HP).
  destruct (openai_body E text model agentName config apiKey
              (set_isProcessing true st1)) as [r st'].
  cbn [snd fst] in *.
  rewrite (getConfiguredOpenAIBase_congr E (set_isProcessing true st1) st Hls) in HP.
  rewrite (candidates_congr E (getConfiguredOpenAIBase E st)
             (set_isProcessing true st1) st Hpref Hls) in HP.
  exists new. split; [| split; [| split; [| split]]].
  - cbn [sent set_isProcessing] in Hnew |- *. rewrite Hnew, Hsent. reflexivity.
  - eapply List.Forall_impl; [| exact HP]. cbn beta. intros q [Hq Hc].
    split; [exact Hq | rewrite Hc; reflexivity].
  - intros Hresp Hchat Hremembered.
    rewrite (candidates_by_preference E _ st Hresp Hchat), Hremembered in HP.
    eapply List.Forall_impl; [| exact HP]. cbn beta. intros q [[Hq|[]] _].
    symmetry. exact Hq.
  - discriminate.
  - discriminate.
Qed.

(** X9: every request [processWithOpenAI] sends goes to the URL of one of
    the candidates resolved for the configured base and carries the key
    the credential lookup returned.  So with "chat" remembered for a
    base that names no dialect, every request, retries included, goes to
    the chat-completions URL; and a call turned away as busy or left
    without a key sends nothing. *)
Theorem X9_requests_go_to_candidates :
  forall (E : Env) (text model : string) (agentName : option string)
         (config : ReasoningConfig) (st : Service),
  exists new : list Request,
    sent (snd (processWithOpenAI E text model agentName config st))
    = (sent st ++ new)%list
    /\ Forall (fun q =>
                 In (endpoint q)
                    (map url (fst (getOpenAIEndpointCandidates E
                                     (getConfiguredOpenAIBase E st) st)))
                 /\ fst (getApiKey E (openai_key_provider st) st) = Ok (credential q))
              new
    /\ (endsWith (toLowerCase (getConfiguredOpenAIBase E st)) "/responses" = false ->
        endsWith (toLowerCase (getConfiguredOpenAIBase E st)) "/chat/completions" = false ->
        fst (getStoredOpenAiPreference E (getConfiguredOpenAIBase E st) st) = Some Chat ->
        Forall (fun q =>
                  endpoint q
                  = buildApiUrl E (getConfiguredOpenAIBase E st) "/chat/completions")
               new)
    /\ (isProcessing st = true -> new = [])
    /\ (forall e, fst (getApiKey E (openai_key_provider st) st) = Throw e -> new = []).
Proof.
  intros. apply processWithOpenAI_requests.
Qed.

(** ** The dispatcher *)

Lemma set_service_same (s : Session) : set_service (service s) s = s.
Proof. destruct s. reflexivity. Qed.

Lemma processWithOpenAI_flag (E : Env) (text model : string) (agentName : option string)
    (config : ReasoningConfig) (st : Service) :
  isProcessing (snd (processWithOpenAI E text model agentName config st))
  = isProcessing st
  /\ (isProcessing st = true ->
      processWithOpenAI E text model agentName config st = (Throw busy, st)).
Proof.
  unfold processWithOpenAI. cbv zeta.
  destruct (isProcessing st) eqn:Hflag; [split; [exact Hflag | reflexivity] |].
  split; [| discriminate].
  destruct (getApiKey E _ st) as [[apiKey|e] st1] eqn:Hkey;
    destruct (getApiKey_frame E _ st st1 _ Hkey) as (Hf & _).
  - unfold try_finally. destruct (openai_body _ _ _ _ _ _ _) as [r st']. reflexivity.
  - cbn [snd]. congruence.
Qed.

Lemma processWithGemini_flag (E : Env) (text model : string) (agentName : option string)
    (config : ReasoningConfig) (st : Service) :
  isProcessing (snd (processWithGemini E text model agentName config st))
  = isProcessing st
  /\ (isProcessing st = true ->
      processWithGemini E text model agentName config st = (Throw busy, st)).
Proof.
  unfold processWithGemini.
  destruct (isProcessing st) eqn:Hflag; [split; [exact Hflag | reflexivity] |].
  split; [| discriminate].
  destruct (getApiKey E Gemini st) as [[apiKey|e] st1] eqn:Hkey;
    destruct (getApiKey_frame E _ st st1 _ Hkey) as (Hf & _).
  - unfold try_finally. destruct (gemini_body _ _ _ _ _ _ _) as [r st']. reflexivity.
  - cbn [snd]. congruence.
Qed.

Lemma processWithGroq_flag (E : Env) (C : Collaborators) (text model : string)
    (agentName : option string) (config : ReasoningConfig) (s : Session) :
  isProcessing (service (snd (processWithGroq E C text model agentName config s)))
  = isProcessing (service s)
  /\ (isProcessing (service s) = true ->
      processWithGroq E C text model agentName config s = (Throw busy, s)).
Proof.
  unfold processWithGroq.
  destruct (isProcessing (service s)) eqn:Hflag; [split; [exact Hflag | reflexivity] |].
  split; [| discriminate].
  destruct (getApiKey E Groq (service s)) as [[apiKey|e] st1] eqn:Hkey;
    destruct (getApiKey_frame E _ _ st1 _ Hkey) as (Hf & _).
  - destruct (callChatCompletionsApi _ _ _ _ _ _ _ _ _ _) as [r s']. reflexivity.
  - cbn [snd service set_service]. congruence.
Qed.

(** X10: a call of [processText] that has run to its end leaves the
    in-flight flag as it found it, whichever provider it was routed to
    and however it ended; and a call that finds the flag set changes
    nothing at all: no request is sent and no key is fetched. *)
Theorem X10_flag_released :
  forall (E : Env) (C : Collaborators) (text model : string)
         (agentName : option string) (config : ReasoningConfig) (s : Session),
    isProcessing (service (snd (processText E C text model agentName config s)))
    = isProcessing (service s)
    /\ (isProcessing (service s) = true ->
        snd (processText E C text model agentName config s) = s).
Proof.
  intros E C text model agentName config s.
  unfold processText. cbv zeta.
  destruct (negb (nonempty (trim model))); [split; reflexivity |].
  destruct (String.eqb _ "openai").
  { destruct (processWithOpenAI_flag E text (trim model) agentName config (service s))
      as [Hf Hbusy].
    unfold on_service.
    destruct (processWithOpenAI E text (trim model) agentName config (service s))
      as [r st'].
    split; [exact Hf |].
    intros Hset. injection (Hbusy Hset) as _ ->.
    apply set_service_same. }
  destruct (String.eqb _ "anthropic"); [split; reflexivity |].
  destruct (String.eqb _ "local"); [split; reflexivity |].
  destruct (String.eqb _ "gemini").
  { destruct (processWithGemini_flag E text (trim model) agentName config (service s))
      as [Hf Hbusy].
    unfold on_service.
    destruct (processWithGemini E text (trim model) agentName config (service s))
      as [r st'].
    split; [exact Hf |].
    intros Hset. injection (Hbusy Hset) as _ ->.
    apply set_service_same. }
  destruct (String.eqb _ "groq"); [| split; reflexivity].
  destruct (processWithGroq_flag E C text model agentName config s) as [Hf Hbusy].
  split; [exact Hf |].
  intros Hset. rewrite (Hbusy Hset). reflexivity.
Qed.

(** X11: [processText] refuses a blank model with "No reasoning model
    selected", and a stored provider that is none of the five it routes
    (nor blank, "auto" or "custom") with "Unsupported reasoning
    provider: ..."; in both cases nothing else happens. *)
Theorem X11_dispatch_refusals :
  forall (E : Env) (C : Collaborators) (text model : string)
         (agentName : option string) (config : ReasoningConfig) (s : Session),
    (trim model = "" ->
     processText E C text model agentName config s
     = (Throw (Error "No reasoning model selected"), s))
    /\ (trim model <> "" ->
        ~ In (toLowerCase (trim (getItem_or_empty "reasoningProvider" (service s))))
             [""; "auto"; "custom"; "openai"; "anthropic"; "local"; "gemini"; "groq"] ->
        processText E C text model agentName config s
        = (Throw (Error ("Unsupported reasoning provider: "
                         +:+ toLowerCase (trim (getItem_or_empty "reasoningProvider"
                                                  (service s))))), s)).
Proof.
  intros E C text model agentName config s. split.
  - intros Hblank. unfold processText. cbv zeta. rewrite Hblank. reflexivity.
  - intros Hmodel Hprovider. unfold processText, dispatch_provider. cbv zeta.
    set (p := toLowerCase (trim (getItem_or_empty "reasoningProvider" (service s)))) in *.
    destruct (trim model) as [|c m]; [congruence |]. cbn [nonempty negb].
    assert (Hne : forall q, In q [""; "auto"; "custom"; "openai"; "anthropic";
                                  "local"; "gemini"; "groq"] ->
                            String.eqb p q = false).
    { intros q Hq. apply String.eqb_neq. intros ->. contradiction. }
    assert (Hp : nonempty p = true).
    { destruct p; [| reflexivity]. exfalso. apply Hprovider. left. reflexivity. }
    rewrite Hp, (Hne "auto"), (Hne "custom") by (cbn; tauto). cbn [negb andb].
    rewrite (Hne "openai"), (Hne "anthropic"), (Hne "local"), (Hne "gemini"),
      (Hne "groq") by (cbn; tauto).
    reflexivity.
Qed.

Lemma X11_witness :
  processText Scenario.offline_env Scenario2.collaborators "um hello" "gpt-5" None
    Scenario.no_config
    (Scenario2.session (<["reasoningProvider" := "Mistral"]> ∅))
  = (Throw (Error "Unsupported reasoning provider: mistral"),
     Scenario2.session (<["reasoningProvider" := "Mistral"]> ∅)).
Proof.
  refine (proj2 (X11_dispatch_refusals Scenario.offline_env Scenario2.collaborators
                   "um hello" "gpt-5" None Scenario.no_config
                   (Scenario2.session (<["reasoningProvider" := "Mistral"]> ∅))) _ _).
  - vm_compute. discriminate.
  - vm_compute. intros H.
    repeat (destruct H as [H|H]; [discriminate |]). exact H.
Defined.

(** X12: a stored provider that is "custom" only after trimming and
    lower-casing (for example "Custom") is routed to the OpenAI path like
    "custom", but that path compares the stored value as it is: it asks
    for the OpenAI key and resolves the default base, so the custom
    endpoint and its key are not used. *)
Theorem X12_custom_spelled_otherwise :
  forall (E : Env) (C : Collaborators) (text model : string)
         (agentName : option string) (config : ReasoningConfig) (s : Session),
    trim model <> "" ->
    toLowerCase (trim (getItem_or_empty "reasoningProvider" (service s))) = "custom" ->
    getItem_or_empty "reasoningProvider" (service s) <> "custom" ->
    processText E C text model agentName config s
    = on_service (processWithOpenAI E text (trim model) agentName config) s
    /\ openai_key_provider (service s) = OpenAI
    /\ getConfiguredOpenAIBase E (service s) = OPENAI_BASE E.
Proof.
  intros E C text model agentName config s Hmodel Hnorm Hraw. repeat split.
  - unfold processText, dispatch_provider. cbv zeta. rewrite Hnorm.
    destruct (trim model) as [|c m]; [congruence |]. reflexivity.
  - unfold openai_key_provider.
    destruct (String.eqb_spec (getItem_or_empty "reasoningProvider" (service s)) "custom");
      [congruence | reflexivity].
  - unfold getConfiguredOpenAIBase. unfold getItem_or_empty in Hraw.
    destruct (localStorage (service s)) as [ls|]; [| reflexivity].
    destruct (String.eqb_spec (default "" (ls !! "reasoningProvider")) "custom");
      [congruence | reflexivity].
Qed.

Lemma X12_witness :
  processText Scenario.hello_env Scenario2.collaborators "um hello" "gpt-5" None
    Scenario.no_config (Scenario2.session (<["reasoningProvider" := "Custom"]> ∅))
  = on_service (processWithOpenAI Scenario.hello_env "um hello" (trim "gpt-5") None
                  Scenario.no_config)
      (Scenario2.session (<["reasoningProvider" := "Custom"]> ∅))
  /\ openai_key_provider
       (service (Scenario2.session (<["reasoningProvider" := "Custom"]> ∅))) = OpenAI
  /\ getConfiguredOpenAIBase Scenario.hello_env
       (service (Scenario2.session (<["reasoningProvider" := "Custom"]> ∅)))
     = OPENAI_BASE Scenario.hello_env.
Proof.
  apply (X12_custom_spelled_otherwise Scenario.hello_env Scenario2.collaborators).
  - vm_compute. discriminate.
  - vm_compute. reflexivity.
  - vm_compute. discriminate.
Defined.

(** ** The normalisers *)

Lemma trim_empty : trim "" = "".
Proof. reflexivity. Qed.

Lemma scan_content_trimmed (contents : list JSON) (t : string) :
  scan_content contents = Ok t -> trim t = t.
Proof.
  induction contents as [|c rest IH]; cbn [scan_content].
  - intros [= <-]. reflexivity.
  - destruct (Js.prop "type" (Some c)) as [ty|]; [| discriminate].
    destruct (Js.prop "text" (Some c)) as [tx|]; [| discriminate].
    destruct (Js.eq_str ty "output_text" && Js.truthy tx)%bool; [| exact IH].
    destruct tx as [[| | |s| |]|]; try discriminate.
    intros [= <-]. apply trim_idempotent.
Qed.

Lemma scan_output_trimmed (output : list JSON) (t : string) :
  scan_output output = Ok t -> trim t = t.
Proof.
  induction output as [|item rest IH]; cbn [scan_output].
  - intros [= <-]. reflexivity.
  - cbv zeta.
    destruct (Js.eq_str _ "message" && Js.truthy _)%bool; [| exact IH].
    destruct (Js.opt_prop "content" (Some item)) as [cj|]; [| exact IH].
    destruct (scan_item_content cj) as [s|e] eqn:Hs; [| discriminate].
    destruct (nonempty s); [| exact IH].
    intros [= <-]. unfold scan_item_content in Hs.
    destruct cj; try discriminate.
    + injection Hs as <-. reflexivity.
    + apply scan_content_trimmed in Hs. exact Hs.
Qed.

Lemma scan_parts_trimmed (parts : list JSON) : trim (scan_parts parts) = scan_parts parts.
Proof.
  induction parts as [|part rest IH]; cbn [scan_parts]; [reflexivity |].
  destruct (Js.opt_prop "text" (Some part)) as [[| | |s| |]|]; try exact IH.
  destruct (nonempty (trim s)); [apply trim_idempotent | exact IH].
Qed.

Lemma scan_choices_trimmed (choices : list JSON) :
  trim (scan_choices choices) = scan_choices choices.
Proof.
  induction choices as [|choice rest IH]; cbn [scan_choices]; [reflexivity |].
  cbv zeta.
  assert (Hlegacy :
    trim (match Js.opt_prop "text" (Some choice) with
          | Some (JStr s) => if nonempty (trim s) then trim s else scan_choices rest
          | _ => scan_choices rest
          end)
    = match Js.opt_prop "text" (Some choice) with
      | Some (JStr s) => if nonempty (trim s) then trim s else scan_choices rest
      | _ => scan_choices rest
      end).
  { destruct (Js.opt_prop "text" (Some choice)) as [[| | |s| |]|]; try exact IH.
    destruct (nonempty (trim s)); [apply trim_idempotent | exact IH]. }
  destruct (Js.opt_prop "content" _) as [[| | |s|parts|]|]; cbn [nonempty];
    try exact Hlegacy.
  - destruct (nonempty (trim s)); [apply trim_idempotent | exact Hlegacy].
  - destruct (nonempty (scan_parts parts)); [apply scan_parts_trimmed | exact Hlegacy].
Qed.

Lemma openai_response_text_trimmed (response : JSON) (t : string) :
  openai_response_text response = Ok t -> trim t = t.
Proof.
  unfold openai_response_text. cbv zeta.
  destruct (is_null response); [discriminate |].
  set (from_output := match Js.opt_prop "output" (Some response) with
                      | Some (JArr items) => _ | _ => _ end).
  assert (Hout : forall t1, from_output = Ok t1 -> trim t1 = t1).
  { subst from_output. intros t1.
    destruct (Js.opt_prop "output" (Some response)) as [[| | | |items|]|];
      try (intros [= <-]; reflexivity).
    destruct (existsb is_null items); [discriminate |]. apply scan_output_trimmed. }
  destruct from_output as [t1|e]; [| discriminate].
  specialize (Hout t1 eq_refl).
  intros [= <-].
  destruct (nonempty t1) eqn:H1.
  - rewrite H1. exact Hout.
  - repeat break_inner_goal;
      first [ exact Hout | apply trim_idempotent | apply scan_choices_trimmed
            | congruence ].
Qed.

(** X13: what [processWithOpenAI] returns is the input text as it was
    given, or an extracted text that is not empty and has no white space
    at either end. *)
Theorem X13_openai_text_is_trimmed :
  forall (E : Env) (text model : string) (agentName : option string)
         (config : ReasoningConfig) (st : Service) (t : string),
    fst (processWithOpenAI E text model agentName config st) = Ok t ->
    t = text \/ (t <> "" /\ trim t = t).
Proof.
  intros E text model agentName config st t.
  unfold processWithOpenAI. cbv zeta.
  destruct (isProcessing st); [discriminate |].
  destruct (getApiKey E _ st) as [[apiKey|e] st1]; [| discriminate].
  unfold try_finally, openai_body. cbv zeta.
  destruct (getOpenAIEndpointCandidates E _ _) as [cands s1].
  destruct (withRetry _ _ _) as [[response|e] s3]; [| discriminate].
  destruct (openai_response_text response) as [responseText|e] eqn:Hr; [| discriminate].
  destruct (nonempty responseText) eqn:Hne; cbn [negb fst]; intros [= <-].
  - right. split; [apply nonempty_true; exact Hne |].
    apply openai_response_text_trimmed with (response := response). exact Hr.
  - left. reflexivity.
Qed.

Lemma X13_witness :
  "Hello" = "um hello" \/ ("Hello" <> "" /\ trim "Hello" = "Hello").
Proof.
  apply (X13_openai_text_is_trimmed Scenario.chat_only_env "um hello" "gpt-5" None
           Scenario.no_config (Scenario.fresh ∅) "Hello").
  vm_compute. reflexivity.
Defined.

Lemma gemini_response_text_trimmed (response : JSON) (t : string) :
  gemini_response_text response = Ok t -> trim t = t.
Proof.
  unfold gemini_response_text.
  destruct (Js.prop "candidates" (Some response)) as [candidates|]; [| discriminate].
  destruct (negb (Js.truthy candidates) || negb (Js.truthy (Js.opt_first candidates)))%bool;
    [discriminate |].
  cbv zeta.
  destruct (negb (Js.truthy _)).
  - destruct (Js.eq_str _ _); discriminate.
  - destruct (Js.opt_prop "text" _) as [[| | |s| |]|]; try discriminate.
    intros [= <-]. apply trim_idempotent.
Qed.

(** X14: a text [processWithGemini] returns has no white space at either
    end.  The normaliser tests the part's text before trimming it: a
    first candidate whose first part holds a non-empty string yields that
    string trimmed, which for a string of white space is the empty
    string, returned as a success. *)
Theorem X14_gemini_text_is_trimmed :
  forall (E : Env) (text model : string) (agentName : option string)
         (config : ReasoningConfig) (st : Service),
    (forall t, fst (processWithGemini E text model agentName config st) = Ok t ->
               trim t = t)
    /\ (forall (response : JSON) (candidate : list (string * JSON))
               (others : list JSON) (s : string),
          Js.opt_prop "candidates" (Some response)
          = Some (JArr (JObj candidate :: others)) ->
          Js.opt_prop "text"
            (Js.opt_first (Js.opt_prop "parts" (Js.assoc "content" candidate)))
          = Some (JStr s) ->
          s <> "" ->
          gemini_response_text response = Ok (trim s)).
Proof.
  intros E text model agentName config st. split.
  - intros t. unfold processWithGemini.
    destruct (isProcessing st); [discriminate |].
    destruct (getApiKey E Gemini st) as [[apiKey|e] st1]; [| discriminate].
    unfold try_finally, gemini_body.
    destruct (withRetry _ _ _) as [[response|e] s1]; [| discriminate].
    cbn [fst]. apply gemini_response_text_trimmed.
  - intros response candidate others s Hcands Htext Hs.
    unfold gemini_response_text.
    destruct response; cbn [Js.opt_prop] in Hcands; try discriminate.
    cbn [Js.prop Js.opt_prop]. rewrite Hcands.
    cbn [Js.truthy Js.opt_first Js.opt_prop negb orb head]. rewrite Htext.
    cbn [Js.truthy]. destruct s; [congruence |]. reflexivity.
Qed.



Lemma X14_witness :
  gemini_response_text Scenario2.gemini_blank = Ok "".
Proof.
  refine (proj2 (X14_gemini_text_is_trimmed Scenario.max_tokens_env "um hello"
                   "gemini-2.5-flash" None Scenario.no_config (Scenario.fresh ∅))
            Scenario2.gemini_blank
            [("content", JObj [("parts", JArr [JObj [("text", JStr "  ")]])])]
            [] "  " _ _ _).
  - reflexivity.
  - reflexivity.
  - discriminate.
Defined.


(** ** The prompt store *)

(** X16: a saved prompt is the current prompt afterwards, and after a
    reset the current prompt is the built-in one again; [JSON] is assumed
    to read back the string it wrote, as a text that is not empty. *)
Theorem X16_save_then_current :
  forall (E : PromptStore.Env) (editedPrompt : string) (ls : gmap string string),
    PromptStore.parse E (PromptStore.stringify E (JStr editedPrompt))
    = Some (JStr editedPrompt) ->
    PromptStore.stringify E (JStr editedPrompt) <> "" ->
    PromptStore.getCurrentPrompt E (PromptStore.savePrompt E editedPrompt ls)
    = JStr editedPrompt
    /\ PromptStore.getCurrentPrompt E
         (PromptStore.resetToDefault (PromptStore.savePrompt E editedPrompt ls))
       = JStr (PromptStore.UNIFIED_SYSTEM_PROMPT E).
Proof.
  intros E editedPrompt ls Hround Hnonblank.
  unfold PromptStore.getCurrentPrompt, PromptStore.savePrompt,
    PromptStore.resetToDefault.
  split.
  - rewrite lookup_insert_eq.
    destruct (PromptStore.stringify E (JStr editedPrompt)) eqn:Hs; [congruence |].
    cbn [nonempty]. rewrite Hround. reflexivity.
  - rewrite lookup_delete_eq. reflexivity.
Qed.

Lemma X16_witness :
  PromptStore.getCurrentPrompt Scenario2.prompt_env
    (PromptStore.savePrompt Scenario2.prompt_env "Tidy the text." ∅)
  = JStr "Tidy the text."
  /\ PromptStore.getCurrentPrompt Scenario2.prompt_env
       (PromptStore.resetToDefault
          (PromptStore.savePrompt Scenario2.prompt_env "Tidy the text." ∅))
     = JStr (PromptStore.UNIFIED_SYSTEM_PROMPT Scenario2.prompt_env).
Proof.
  apply (X16_save_then_current Scenario2.prompt_env "Tidy the text." ∅).
  - vm_compute. reflexivity.
  - vm_compute. discriminate.
Defined.

(** X17: the migration of legacy prompts never touches a store that has
    a custom prompt, changes no key other than "customPrompts" and
    "customUnifiedPrompt", removes the legacy entry only when it has
    moved it over, and does nothing when run a second time. *)
Theorem X17_migration :
  forall (E : PromptStore.Env) (ls : gmap string string),
    (PromptStore.present (ls !! PromptStudio.customUnifiedPrompt) = true ->
     PromptStore.migrate E ls = ls)
    /\ (forall k, k <> PromptStore.customPrompts ->
                  k <> PromptStudio.customUnifiedPrompt ->
                  PromptStore.migrate E ls !! k = ls !! k)
    /\ (PromptStore.migrate E ls = ls
        \/ (PromptStore.migrate E ls !! PromptStore.customPrompts = None
            /\ is_Some (PromptStore.migrate E ls !! PromptStudio.customUnifiedPrompt)))
    /\ PromptStore.migrate E (PromptStore.migrate E ls) = PromptStore.migrate E ls.
Proof.
  intros E ls.
  assert (Hcases :
    PromptStore.migrate E ls = ls
    \/ exists v, PromptStore.present (ls !! PromptStudio.customUnifiedPrompt) = false
                 /\ PromptStore.migrate E ls
                    = delete PromptStore.customPrompts
                        (<[PromptStudio.customUnifiedPrompt := v]> ls)).
  { unfold PromptStore.migrate.
    destruct (PromptStore.present (ls !! PromptStore.customPrompts)); [| left; reflexivity].
    destruct (PromptStore.present (ls !! PromptStudio.customUnifiedPrompt)) eqn:Hp;
      [left; reflexivity |].
    cbn [negb andb].
    destruct (PromptStore.parse E _) as [parsed|]; [| left; reflexivity].
    destruct (Js.prop "agent" (Some parsed)) as [[agent|]|]; try (left; reflexivity).
    destruct (Js.truthy (Some agent)); [| left; reflexivity].
    right. eexists. split; reflexivity. }
  assert (Hne : PromptStore.customPrompts <> PromptStudio.customUnifiedPrompt)
    by discriminate.
  repeat split.
  - intros Hpresent. destruct Hcases as [H|(v & Habsent & _)]; [exact H | congruence].
  - intros k Hk1 Hk2. destruct Hcases as [->|(v & _ & ->)]; [reflexivity |].
    rewrite lookup_delete_ne, lookup_insert_ne by congruence. reflexivity.
  - destruct Hcases as [H|(v & _ & ->)]; [left; exact H | right]. split.
    + apply lookup_delete_eq.
    + rewrite lookup_delete_ne, lookup_insert_eq by congruence. eexists. reflexivity.
  - destruct Hcases as [H|(v & _ & ->)]; [rewrite H; exact H |].
    unfold PromptStore.migrate at 1. rewrite lookup_delete_eq. reflexivity.
Qed.

(** X18: [testPrompt] never changes the current prompt: whatever the test
    does and however it ends, [getCurrentPrompt] reads after the call
    what it read before. *)
Theorem X18_test_keeps_current_prompt :
  forall (E : PromptStudio.Env) (P : PromptStore.Env) (agentName : string)
         (ui : PromptStudio.Studio) (ls : gmap string string),
    PromptStore.getCurrentPrompt P (snd (PromptStudio.testPrompt E agentName ui ls))
    = PromptStore.getCurrentPrompt P ls.
Proof.
  intros E P agentName ui ls.
  assert (Hkey :
    snd (PromptStudio.testPrompt E agentName ui ls) !! PromptStudio.customUnifiedPrompt
    = ls !! PromptStudio.customUnifiedPrompt
    \/ snd (PromptStudio.testPrompt E agentName ui ls) !! PromptStudio.customUnifiedPrompt
       = PromptStudio.restored (ls !! PromptStudio.customUnifiedPrompt)).
  { unfold PromptStudio.testPrompt.
    destruct (negb (nonempty (trim (PromptStudio.testText ui)))); [left; reflexivity |].
    destruct (PromptStudio.gate E ls); [left; reflexivity |].
    right. cbv zeta.
    destruct (PromptStudio.run_test E agentName ui _ _ _) as [[r|e] ls2];
      cbn [snd]; apply restore_lookup. }
  unfold PromptStore.getCurrentPrompt.
  destruct Hkey as [-> | ->]; [reflexivity |].
  unfold PromptStudio.restored.
  destruct (ls !! PromptStudio.customUnifiedPrompt) as [v|]; [| reflexivity].
  destruct (nonempty v) eqn:Hv; [rewrite Hv |]; reflexivity.
Qed.

(** X19: when the test itself leaves the store alone, [testPrompt] leaves
    the whole store as it found it, unless the store held an empty
    custom prompt; and in any case it ends with the loading flag down
    and the test text and the edited prompt untouched. *)
Theorem X19_test_leaves_store :
  forall (E : PromptStudio.Env) (agentName : string) (ui : PromptStudio.Studio)
         (ls : gmap string string),
    (forall t m a s, snd (PromptStudio.processText E t m a s) = s) ->
    (forall t m a s, snd (PromptStudio.processLocalReasoning E t m a s) = s) ->
    (ls !! PromptStudio.customUnifiedPrompt <> Some "" ->
     snd (PromptStudio.testPrompt E agentName ui ls) = ls)
    /\ PromptStudio.testText (fst (PromptStudio.testPrompt E agentName ui ls))
       = PromptStudio.testText ui
    /\ PromptStudio.editedPrompt (fst (PromptStudio.testPrompt E agentName ui ls))
       = PromptStudio.editedPrompt ui
    /\ (trim (PromptStudio.testText ui) <> "" ->
        PromptStudio.isLoading (fst (PromptStudio.testPrompt E agentName ui ls)) = false).
Proof.
  intros E agentName ui ls Hcloud Hlocal.
  assert (Hrun : forall p m s, snd (PromptStudio.run_test E agentName ui p m s) = s).
  { intros p m s. unfold PromptStudio.run_test.
    destruct (String.eqb p "local"); [| apply Hcloud].
    specialize (Hlocal (PromptStudio.testText ui) m agentName s).
    destruct (PromptStudio.processLocalReasoning E _ _ _ _) as [[[t|err]|e] s'];
      exact Hlocal. }
  unfold PromptStudio.testPrompt.
  destruct (nonempty (trim (PromptStudio.testText ui))) eqn:Htext; cbn [negb].
  2:{ repeat split. intros H. apply nonempty_false in Htext. congruence. }
  destruct (PromptStudio.gate E ls); [repeat split |].
  cbv zeta.
  pose proof (Hrun (PromptStudio.reasoningProvider_of E ls)
                (default "" (ls !! "reasoningModel"))
                (<[PromptStudio.customUnifiedPrompt :=
                     PromptStudio.stringify E (PromptStudio.editedPrompt ui)]> ls))
    as Hsame.
  destruct (PromptStudio.run_test E agentName ui _ _ _) as [[r|e] ls2];
    cbn [snd] in Hsame; subst ls2; cbn [fst snd];
    (split; [| repeat split]);
    intros Hnot_empty; unfold PromptStudio.restore;
    (destruct (ls !! PromptStudio.customUnifiedPrompt) as [v|] eqn:Hbefore;
     [ destruct v as [|c v]; [congruence |]; cbn [nonempty];
       rewrite insert_insert_eq; apply insert_id; exact Hbefore
     | rewrite delete_insert_eq; apply delete_id; exact Hbefore ]).
Qed.

Lemma X19_witness :
  snd (PromptStudio.testPrompt Scenario.studio_env "Assistant" Scenario.studio
         Scenario.store_with_prompt)
  = Scenario.store_with_prompt.
Proof.
  refine (proj1 (X19_test_leaves_store Scenario.studio_env "Assistant" Scenario.studio
                   Scenario.store_with_prompt _ _) _).
  - intros t m a s. reflexivity.
  - intros t m a s. reflexivity.
  - vm_compute. discriminate.
Defined.

(** ** The local bridge *)

(** X20: the bridge's [processText] leaves its in-flight flag as it
    found it on every path; a call that finds the flag set, or the
    bridge disabled by the environment, ends without asking the model
    manager for anything. *)
Theorem X20_bridge_flag_released :
  forall (E : LocalBridge.Env) (text modelId : string) (agentName : option string)
         (config : LocalBridge.Config) (isProcessing : bool),
    snd (LocalBridge.processText E text modelId agentName config isProcessing)
    = isProcessing
    /\ (isProcessing = true \/ LocalBridge.disabled_by E <> None ->
        forall (models : Result (list (string * bool)))
               (run : string -> string -> LocalBridge.InferenceConfig -> Result string),
          LocalBridge.processText
            {| LocalBridge.REASONING_PROVIDER := LocalBridge.REASONING_PROVIDER E;
               LocalBridge.getAllModels := models;
               LocalBridge.runInference := run;
               LocalBridge.getSystemPrompt := LocalBridge.getSystemPrompt E |}
            text modelId agentName config isProcessing
          = LocalBridge.processText E text modelId agentName config isProcessing).
Proof.
  intros E text modelId agentName config isProcessing. split.
  - unfold LocalBridge.processText.
    destruct (LocalBridge.disabled_by E); [reflexivity |].
    destruct isProcessing; reflexivity.
  - intros Hwhy models run. unfold LocalBridge.processText, LocalBridge.disabled_by.
    cbn [LocalBridge.REASONING_PROVIDER].
    destruct (LocalBridge.REASONING_PROVIDER E) as [p|] eqn:Hp.
    + destruct (nonempty p && negb (String.eqb p "local"))%bool eqn:Hd; [reflexivity |].
      destruct Hwhy as [-> | Hdis]; [reflexivity |].
      exfalso. apply Hdis. unfold LocalBridge.disabled_by. rewrite Hp, Hd. reflexivity.
    + destruct Hwhy as [-> | Hdis]; [reflexivity |].
      exfalso. apply Hdis. unfold LocalBridge.disabled_by. rewrite Hp. reflexivity.
Qed.

(** X21: when the model manager lists no downloaded model, the bridge
    reports itself unavailable and refuses every model id with "Local
    model ... is not downloaded", without running an inference. *)
Theorem X21_no_model_no_inference :
  forall (E : LocalBridge.Env) (ensureLlamaCpp : Result unit)
         (models : list (string * bool)) (text modelId : string)
         (agentName : option string) (config : LocalBridge.Config),
    LocalBridge.disabled_by E = None ->
    LocalBridge.getAllModels E = Ok models ->
    existsb snd models = false ->
    bridge_isAvailable ensureLlamaCpp E = false
    /\ LocalBridge.processText E text modelId agentName config false
       = (Throw (Error ("Local model " +:+ modelId +:+ " is not downloaded")), false).
Proof.
  intros E ensureLlamaCpp models text modelId agentName config Hen Hmodels Hnone.
  split.
  - unfold bridge_isAvailable. rewrite Hmodels, Hnone.
    destruct ensureLlamaCpp; reflexivity.
  - unfold LocalBridge.processText, LocalBridge.inference. rewrite Hen, Hmodels.
    destruct (List.find _ models) as [[id downloaded]|] eqn:Hfind; [| reflexivity].
    destruct downloaded; [| reflexivity].
    apply find_some in Hfind. destruct Hfind as [Hin _].
    assert (existsb snd models = true)
      by (apply existsb_exists; exists (id, true); split; [exact Hin | reflexivity]).
    congruence.
Qed.

Lemma X21_witness :
  bridge_isAvailable (Ok tt) Scenario2.bridge_without_models = false
  /\ LocalBridge.processText Scenario2.bridge_without_models "um hello" "qwen2.5-7b"
       None Scenario2.bridge_config false
     = (Throw (Error "Local model qwen2.5-7b is not downloaded"), false).
Proof.
  apply (X21_no_model_no_inference Scenario2.bridge_without_models (Ok tt)
           [("qwen2.5-7b", false)]); reflexivity.
Defined.

(** ** Default token budgets *)

(** X22: without [maxTokens] in the configuration, the Gemini request
    asks for at least 2000 output tokens, the chat-completions request
    for at least 4096 tokens, and the local bridge for between 100 and
    2048 tokens; a [maxTokens] other than zero is passed on as it is. *)
Theorem X22_default_budgets :
  forall (E : Env) (C : Collaborators) (L : LocalBridge.Env)
         (text model endpoint apiKey providerName : string)
         (agentName : option string) (config : ReasoningConfig)
         (lconfig : LocalBridge.Config) (st : Service),
    (maxTokens config = None ->
     (forall budget,
        body_maxOutputTokens
          (body (gemini_request E text model agentName config apiKey st))
        = Some budget -> 2000 <= budget)
     /\ 4096 <= cc_max_tokens
                  (chat_completions_request E C endpoint apiKey model text agentName
                     config providerName st))
    /\ (LocalBridge.maxTokens lconfig = None ->
        100 <= LocalBridge.inf_maxTokens
                 (LocalBridge.inferenceConfig L text agentName lconfig)
        <= 2048)
    /\ (forall n, maxTokens config = Some n -> n <> 0 ->
        body_maxOutputTokens
          (body (gemini_request E text model agentName config apiKey st))
        = Some n
        /\ cc_max_tokens
             (chat_completions_request E C endpoint apiKey model text agentName
                config providerName st)
           = n).
Proof.
  intros E C L text model endpoint apiKey providerName agentName config lconfig st.
  split; [| split].
  - intros Hnone. split.
    + cbn [gemini_request body body_maxOutputTokens]. unfold maxTokens_or.
      rewrite Hnone. intros budget [= <-]. lia.
    + cbn [chat_completions_request cc_max_tokens]. unfold maxTokens_or.
      rewrite Hnone. lia.
  - intros Hnone. cbn [LocalBridge.inferenceConfig LocalBridge.inf_maxTokens].
    rewrite Hnone. cbn [LocalBridge.Z_or].
    unfold calculateMaxTokens_default, calculateMaxTokens. lia.
  - intros n Hsome Hn.
    cbn [gemini_request body body_maxOutputTokens chat_completions_request cc_max_tokens].
    unfold maxTokens_or. rewrite Hsome.
    destruct (Z.eqb_spec n 0); [congruence |]. split; reflexivity.
Qed.

Lemma X22_witness :
  100 <= LocalBridge.inf_maxTokens
           (LocalBridge.inferenceConfig Scenario2.bridge_without_models "um hello" None
              Scenario2.bridge_config)
  <= 2048.
Proof.
  refine (proj1 (proj2 (X22_default_budgets Scenario.hello_env Scenario2.collaborators
                          Scenario2.bridge_without_models "um hello" "gpt-5" "" "" ""
                          None Scenario.no_config Scenario2.bridge_config
                          (Scenario.fresh ∅))) _).
  reflexivity.
Defined.

(** ** The cloud registry *)

(** X23: [getCloudModel] returns a model that carries the id asked for
    and is listed by one of the providers, and it returns nothing only
    when no provider lists a model with that id. *)
Theorem X23_getCloudModel :
  forall (cloudProviders : list CloudProviderData) (modelId : string),
    match getCloudModel cloudProviders modelId with
    | Some m =>
        cloud_id m = modelId
        /\ exists provider, In provider cloudProviders /\ In m (cloud_models provider)
    | None =>
        forall provider m,
          In provider cloudProviders -> In m (cloud_models provider) ->
          cloud_id m <> modelId
    end.
Proof.
  intros cloudProviders modelId.
  induction cloudProviders as [|p rest IH]; cbn [getCloudModel].
  - intros provider m [].
  - destruct (List.find _ (cloud_models p)) as [m|] eqn:Hfind.
    + apply find_some in Hfind. destruct Hfind as [Hin Heq].
      apply String.eqb_eq in Heq. split; [exact Heq |].
      exists p. split; [left; reflexivity | exact Hin].
    + destruct (getCloudModel rest modelId) as [m|].
      * destruct IH as (Hid & provider & Hp & Hm). split; [exact Hid |].
        exists provider. split; [right; exact Hp | exact Hm].
      * intros provider m [<- | Hp] Hm.
        -- pose proof (find_none _ _ Hfind m Hm) as Hno. cbn beta in Hno.
           apply String.eqb_neq. exact Hno.
        -- exact (IH provider m Hp Hm).
Qed.

(** ** The paths that run out of process *)

(** X24: for the providers "anthropic" and "local", [processText] is not
    subject to the in-flight flag and touches nothing in the renderer:
    with the flag set or not, the session is left as it was, and the
    result is the reply of the IPC call, a success text as it came. *)
Theorem X24_out_of_process_unguarded :
  forall (E : Env) (C : Collaborators) (text model : string)
         (agentName : option string) (config : ReasoningConfig) (s : Session)
         (api : ElectronAPI) (reply : string),
    trim model <> "" ->
    electronAPI E = Some api ->
    (dispatch_provider E (trim model) (service s) = "anthropic" ->
     processAnthropicReasoning C text (trim model) agentName config
     = Ok (ReplySuccess (Some reply)) ->
     processText E C text model agentName config s = (Ok reply, s))
    /\ (dispatch_provider E (trim model) (service s) = "local" ->
        processLocalReasoning C text (trim model) agentName config
        = Ok (ReplySuccess (Some reply)) ->
        processText E C text model agentName config s = (Ok reply, s)).
Proof.
  intros E C text model agentName config s api reply Hmodel Hapi.
  split; intros Hroute Hreply; unfold processText; cbv zeta; rewrite Hroute;
    (destruct (trim model) as [|c m]; [congruence |]); cbn [nonempty negb];
    cbn [String.eqb Ascii.eqb Bool.eqb andb];
    [ unfold processWithAnthropic | unfold processWithLocal ];
    unfold out_of_process; rewrite Hapi, Hreply; reflexivity.
Qed.

Lemma X24_witness :
  processText Scenario.hello_env Scenario2.collaborators "um hello" "qwen2.5-7b" None
    Scenario.no_config
    {| service := set_isProcessing true (Scenario.fresh ∅); chatSent := [] |}
  = (Ok "Hello.",
     {| service := set_isProcessing true (Scenario.fresh ∅); chatSent := [] |}).
Proof.
  refine (proj2 (X24_out_of_process_unguarded Scenario.hello_env
                   Scenario2.collaborators "um hello" "qwen2.5-7b" None
                   Scenario.no_config
                   {| service := set_isProcessing true (Scenario.fresh ∅);
                      chatSent := [] |}
                   Scenario.api_with_keys "Hello." _ _) _ _).
  - vm_compute. discriminate.
  - reflexivity.
  - vm_compute. reflexivity.
  - reflexivity.
Defined.

(** ** The in-memory preference map *)

(** X25: a remembered preference is read back for its base at once,
    whatever the store holds and without another write; remembering
    again replaces it; and a preference that was read once is in the
    in-memory map and is served from there afterwards, whatever becomes
    of the store. *)
Theorem X25_preference_round_trip :
  forall (E E' : Env) (base : string) (d d' : Dialect) (st : Service),
    getStoredOpenAiPreference E' base (rememberOpenAiPreference E base d st)
    = (Some d, rememberOpenAiPreference E base d st)
    /\ fst (getStoredOpenAiPreference E' base
              (rememberOpenAiPreference E base d'
                 (rememberOpenAiPreference E base d st)))
       = Some d'
    /\ (fst (getStoredOpenAiPreference E base st) = Some d ->
        forall later : Service,
          openAiEndpointPreference later
          = openAiEndpointPreference (snd (getStoredOpenAiPreference E base st)) ->
          fst (getStoredOpenAiPreference E' base later) = Some d).
Proof.
  intros E E' base d d' st.
  assert (Hremembered : forall x s,
    openAiEndpointPreference (rememberOpenAiPreference E base x s) !! base = Some x).
  { intros x s. destruct (remember_frame E base x s) as (_ & _ & ->).
    apply lookup_insert_eq. }
  split; [| split].
  - apply getStored_hit, Hremembered.
  - rewrite (getStored_hit E' base d' _ (Hremembered d' _)). reflexivity.
  - intros Hread later Hlater.
    pose proof (getStored_frame E base st) as Hf.
    destruct (getStoredOpenAiPreference E base st) as [p st1].
    cbn [fst snd] in *. subst p.
    destruct Hf as (_ & _ & _ & _ & Hpref).
    rewrite (getStored_hit E' base d later); [reflexivity |].
    rewrite Hlater, Hpref. apply lookup_insert_eq.
Qed.

(** ** A base that names its dialect *)

(** X26: when the configured base already ends in "/responses" or
    "/chat/completions" (in any letter case), every request of
    [processWithOpenAI] goes to that base as it is written: no path is
    appended and the other dialect is never probed. *)
Theorem X26_full_endpoint_used_verbatim :
  forall (E : Env) (text model : string) (agentName : option string)
         (config : ReasoningConfig) (st : Service),
    endsWith (toLowerCase (getConfiguredOpenAIBase E st)) "/responses" = true
    \/ endsWith (toLowerCase (getConfiguredOpenAIBase E st)) "/chat/completions" = true ->
    exists new : list Request,
      sent (snd (processWithOpenAI E text model agentName config st))
      = (sent st ++ new)%list
      /\ Forall (fun q => endpoint q = getConfiguredOpenAIBase E st) new.
Proof.
  intros E text model agentName config st Hsuffix.
  destruct (processWithOpenAI_requests E text model agentName config st)
    as (new & Hsent & HP & _).
  exists new. split; [exact Hsent |].
  eapply List.Forall_impl; [| exact HP]. cbn beta. intros q [Hq _].
  unfold getOpenAIEndpointCandidates in Hq. cbv zeta in Hq.
  assert (Hor : (endsWith (toLowerCase (getConfiguredOpenAIBase E st)) "/responses"
                 || endsWith (toLowerCase (getConfiguredOpenAIBase E st))
                      "/chat/completions")%bool = true)
    by (destruct Hsuffix as [-> | ->]; [reflexivity | apply orb_true_r]).
  rewrite Hor in Hq. cbn [fst map url In] in Hq.
  destruct Hq as [Hq | []]. symmetry. exact Hq.
Qed.

Lemma X26_witness :
  exists new : list Request,
    sent (snd (processWithOpenAI Scenario.hello_env "um hello" "gpt-5" None
                 Scenario.no_config Scenario2.custom_chat_base))
    = (sent Scenario2.custom_chat_base ++ new)%list
    /\ Forall (fun q => endpoint q
                        = getConfiguredOpenAIBase Scenario.hello_env
                            Scenario2.custom_chat_base) new.
Proof.
  apply (X26_full_endpoint_used_verbatim Scenario.hello_env "um hello" "gpt-5" None
           Scenario.no_config Scenario2.custom_chat_base).
  right. vm_compute. reflexivity.
Defined.

(** ** A refused dialect is remembered *)

Lemma ok_refused (res : HttpResponse) :
  status res = 404 \/ status res = 405 ->
  ok res = false /\ is_unsupported_status (status res) = true.
Proof. unfold ok, is_unsupported_status. intros [-> | ->]; split; reflexivity. Qed.

Lemma refused_responses_continues (E : Env) (base apiKey model : string)
    (messages : list Message) (older : bool) (config : ReasoningConfig)
    (rest : list Candidate) (lastError : option Exn) (st : Service)
    (res : HttpResponse) :
  fetch E (length (sent st))
    (openai_request (responses_candidate E base) apiKey model messages older config)
  = Ok res ->
  status res = 404 \/ status res = 405 ->
  JSON_parse E (bodyText res) <> Some JNull ->
  exists (e : Exn) (s : Service),
    openAiEndpointPreference s !! base = Some Chat
    /\ try_candidates E base apiKey model messages older config
         (responses_candidate E base :: rest) lastError st
       = try_candidates E base apiKey model messages older config rest (Some e) s.
Proof.
  intros Hfetch Hstatus Hnotnull.
  destruct (ok_refused res Hstatus) as [Hok Hunsupported].
  cbn [try_candidates]. unfold do_fetch at 1. rewrite Hfetch, Hok. cbn [negb].
  destruct (openai_error_message _ _) as [msg|] eqn:Hmsg.
  - cbn [type responses_candidate]. rewrite Hunsupported.
    eexists. eexists. split; [| reflexivity].
    destruct (remember_frame E base Chat
                (set_sent (sent st ++ [openai_request (responses_candidate E base)
                                         apiKey model messages older config])%list st))
      as (_ & _ & ->).
    apply lookup_insert_eq.
  - exfalso. unfold openai_error_message, json in Hmsg.
    destruct (JSON_parse E (bodyText res)) as [[| | | | |]|];
      cbn in Hmsg; congruence.
Qed.

Lemma single_chat_keeps_preference (E : Env) (base apiKey model : string)
    (messages : list Message) (older : bool) (config : ReasoningConfig)
    (lastError : option Exn) (st : Service) :
  openAiEndpointPreference st !! base = Some Chat ->
  openAiEndpointPreference
    (snd (try_candidates E base apiKey model messages older config
            [chat_candidate E base] lastError st)) !! base
  = Some Chat.
Proof.
  intros Hpref. cbn [try_candidates]. unfold do_fetch.
  assert (Hremember : forall s,
    openAiEndpointPreference (rememberOpenAiPreference E base Chat s) !! base = Some Chat).
  { intros s. destruct (remember_frame E base Chat s) as (_ & _ & ->).
    apply lookup_insert_eq. }
  destruct (fetch E _ _) as [res|e]; cbn [type chat_candidate].
  - destruct (negb (ok res)).
    + destruct (openai_error_message _ _); cbn [snd]; exact Hpref.
    + cbn [snd]. apply Hremember.
  - cbn [snd]. exact Hpref.
Qed.

(** X27: when the "responses" candidate answers 404 or 405 (with a body
    that is not the JSON value [null]), one pass over both candidates
    leaves "chat" remembered for the base whether the chat candidate
    then succeeds or fails. *)
Theorem X27_refused_dialect_remembered :
  forall (E : Env) (base apiKey model : string) (messages : list Message)
         (older : bool) (config : ReasoningConfig) (lastError : option Exn)
         (st : Service) (res : HttpResponse),
    fetch E (length (sent st))
      (openai_request (responses_candidate E base) apiKey model messages older config)
    = Ok res ->
    status res = 404 \/ status res = 405 ->
    JSON_parse E (bodyText res) <> Some JNull ->
    openAiEndpointPreference
      (snd (try_candidates E base apiKey model messages older config
              [responses_candidate E base; chat_candidate E base] lastError st)) !! base
    = Some Chat.
Proof.
  intros E base apiKey model messages older config lastError st res
         Hfetch Hstatus Hnotnull.
  destruct (refused_responses_continues E base apiKey model messages older config
              [chat_candidate E base] lastError st res Hfetch Hstatus Hnotnull)
    as (e & s & Hpref & ->).
  apply single_chat_keeps_preference. exact Hpref.
Qed.

Lemma X27_witness :
  openAiEndpointPreference
    (snd (try_candidates Scenario2.failing_env Scenario.openai_base "sk-openai" "gpt-5"
            [] false Scenario.no_config
            [responses_candidate Scenario2.failing_env Scenario.openai_base;
             chat_candidate Scenario2.failing_env Scenario.openai_base]
            None (Scenario.fresh ∅))) !! Scenario.openai_base
  = Some Chat.
Proof.
  apply (X27_refused_dialect_remembered Scenario2.failing_env Scenario.openai_base
           "sk-openai" "gpt-5" [] false Scenario.no_config None (Scenario.fresh ∅)
           {| status := 405; statusText := "Method Not Allowed"; bodyText := "{}" |}).
  - reflexivity.
  - right. reflexivity.
  - vm_compute. discriminate.
Defined.

(** ** The base URL check of the prompt studio *)

Lemma getModelProvider_not_custom (models : list (string * string))
    (modelId : string) (preferredProvider : option string) (allowLocalFallback : bool) :
  (forall m, In m models -> snd m <> "custom") ->
  getModelProvider models modelId preferredProvider allowLocalFallback <> "custom".
Proof.
  intros Hmodels. unfold getModelProvider. cbv zeta.
  destruct (nonempty _ && negb _)%bool.
  - destruct (String.eqb_spec
                (default "" (option_map (fun p => toLowerCase (trim p)) preferredProvider))
                "custom"); [discriminate | assumption].
  - destruct (List.find _ models) as [m|] eqn:Hfind.
    + destruct (nonempty (snd m)); [| discriminate].
      apply Hmodels. apply find_some in Hfind. apply Hfind.
    + repeat match goal with
             | |- context [if ?b then _ else _] => destruct b
             end; discriminate.
Qed.

(** X28: as long as no registry model names "custom" as its provider, the
    provider [testPrompt] works with is never "custom" (the stored
    provider "custom" resolves to "openai"), so the check of the custom
    base URL is never made and its "base URL missing" message never
    shown. *)
Theorem X28_custom_base_check_unreachable :
  forall (E : PromptStudio.Env) (ls : gmap string string),
    (forall m, In m (PromptStudio.models E) -> snd m <> "custom") ->
    PromptStudio.baseStorageKey (PromptStudio.reasoningProvider_of E ls) = None
    /\ (forall message,
          PromptStudio.gate E ls = Some message ->
          message = "AI text enhancement is disabled. Enable it in AI Models to test prompts."
          \/ message = "No reasoning model selected. Choose one in AI Models settings.").
Proof.
  intros E ls Hmodels.
  assert (Hkey : PromptStudio.baseStorageKey (PromptStudio.reasoningProvider_of E ls) = None).
  { unfold PromptStudio.baseStorageKey.
    destruct (String.eqb_spec (PromptStudio.reasoningProvider_of E ls) "custom")
      as [Hcustom|_]; [| reflexivity].
    exfalso. unfold PromptStudio.reasoningProvider_of in Hcustom.
    destruct (nonempty (default "" (ls !! "reasoningModel"))); [| discriminate].
    exact (getModelProvider_not_custom _ _ _ _ Hmodels Hcustom). }
  split; [exact Hkey |].
  intros message. unfold PromptStudio.gate. cbv zeta. rewrite Hkey.
  destruct (negb (negb _)); [intros [= <-]; left; reflexivity |].
  destruct (negb (nonempty _)); [intros [= <-]; right; reflexivity | discriminate].
Qed.

Lemma X28_witness :
  PromptStudio.baseStorageKey
    (PromptStudio.reasoningProvider_of Scenario.studio_env
       (<["reasoningProvider" := "custom"]> Scenario.store_with_prompt))
  = None.
Proof.
  refine (proj1 (X28_custom_base_check_unreachable Scenario.studio_env
                   (<["reasoningProvider" := "custom"]> Scenario.store_with_prompt) _)).
  intros m [<- | []]. discriminate.
Defined.

(** ** Availability *)

Lemma getApiKey_succeeds (E : Env) (provider : Provider) (st : Service) (k : string) :
  provider <> Custom ->
  fetched_key E provider = Some k ->
  exists k', fst (getApiKey E provider st) = Ok k'.
Proof.
  intros Hp Hfetch.
  destruct (no_key (apiKeyCache st !! provider_name provider)) eqn:Hcache.
  - exists k. unfold getApiKey, fetched_key in *.
    destruct provider; try congruence; rewrite Hcache;
      (destruct (electronAPI E) as [api|]; [| discriminate]);
      (destruct (keyGetter _ api) as [[k0|]|e]; try discriminate);
      (destruct (nonempty k0) eqn:Hk; [| discriminate]);
      injection Hfetch as ->; cbn [fst]; rewrite Hk; reflexivity.
  - destruct (apiKeyCache st !! provider_name provider) as [c|] eqn:Hc;
      [| discriminate].
    exists c. rewrite (getApiKey_hit E provider st c Hp Hc); [reflexivity |].
    cbn [no_key] in Hcache. apply negb_false_iff in Hcache. exact Hcache.
Qed.

Lemma has_key_fetched (E : Env) (api : ElectronAPI) (provider : Provider)
    (key : option string) :
  electronAPI E = Some api ->
  keyGetter provider api = Ok key ->
  has_key key = true ->
  exists k, fetched_key E provider = Some k.
Proof.
  intros Hapi Hget Hkey. unfold fetched_key. rewrite Hapi, Hget.
  unfold has_key, no_key in Hkey.
  destruct key as [k|]; [| discriminate].
  apply negb_true_iff, negb_false_iff in Hkey. rewrite Hkey. eexists. reflexivity.
Qed.

(** X29: when [isAvailable] answers yes, the local check said yes or
    there is a cloud provider whose credential lookup succeeds from any
    state of the cache. *)
Theorem X29_available_means_usable :
  forall (E : Env) (C : Collaborators),
    isAvailable E C = true ->
    checkLocalReasoningAvailable C = Ok true
    \/ exists provider,
         provider <> Custom
         /\ forall st, exists k, fst (getApiKey E provider st) = Ok k.
Proof.
  intros E C. unfold isAvailable.
  destruct (electronAPI E) as [api|] eqn:Hapi; [| discriminate].
  destruct (getOpenAIKey api) as [k1|] eqn:H1; [| discriminate].
  destruct (getAnthropicKey api) as [k2|] eqn:H2; [| discriminate].
  destruct (getGeminiKey api) as [k3|] eqn:H3; [| discriminate].
  destruct (getGroqKey api) as [k4|] eqn:H4; [| discriminate].
  destruct (checkLocalReasoningAvailable C) as [[|]|]; try discriminate;
    [left; reflexivity |].
  rewrite orb_false_r. intros Hany. right.
  assert (Huse : forall provider key,
    provider <> Custom -> keyGetter provider api = Ok key -> has_key key = true ->
    exists p, p <> Custom /\ forall st, exists k, fst (getApiKey E p st) = Ok k).
  { intros provider key Hp Hget Hkey.
    destruct (has_key_fetched E api provider key Hapi Hget Hkey) as [k Hk].
    exists provider. split; [exact Hp |].
    intros st. exact (getApiKey_succeeds E provider st k Hp Hk). }
  apply orb_prop in Hany. destruct Hany as [Hany | Hgroq].
  - apply orb_prop in Hany. destruct Hany as [Hany | Hgemini].
    + apply orb_prop in Hany. destruct Hany as [Hopenai | Hanthropic].
      * apply (Huse OpenAI k1); [discriminate | exact H1 | exact Hopenai].
      * apply (Huse Anthropic k2); [discriminate | exact H2 | exact Hanthropic].
    + apply (Huse Gemini k3); [discriminate | exact H3 | exact Hgemini].
  - apply (Huse Groq k4); [discriminate | exact H4 | exact Hgroq].
Qed.

Lemma X29_witness :
  checkLocalReasoningAvailable Scenario2.collaborators = Ok true
  \/ exists provider,
       provider <> Custom
       /\ forall st, exists k, fst (getApiKey Scenario.hello_env provider st) = Ok k.
Proof.
  apply (X29_available_means_usable Scenario.hello_env Scenario2.collaborators).
  reflexivity.
Defined.

(** ** The editor after mounting *)

(** X30: once the component has mounted, the prompt in the editor is the
    current prompt of the (migrated) store, unless a custom prompt is
    stored that does not parse: then the editor keeps the built-in
    prompt, which is also what [getCurrentPrompt] falls back to.  So the
    two always agree. *)
Theorem X30_editor_shows_current_prompt :
  forall (E : PromptStore.Env) (ls : gmap string string),
    PromptStore.mounted_prompt E ls
    = PromptStore.getCurrentPrompt E (PromptStore.migrate E ls).
Proof.
  intros E ls.
  unfold PromptStore.mounted_prompt, PromptStore.loaded, PromptStore.getCurrentPrompt.
  destruct (PromptStore.migrate E ls !! PromptStudio.customUnifiedPrompt) as [v|];
    [| reflexivity].
  destruct (nonempty v); [| reflexivity].
  destruct (PromptStore.parse E v); reflexivity.
Qed.
